(** * Roo autonomous-development framework: operator scripts

    A shallow embedding of the three operator scripts of the repository,

    - [scripts/validate_config.py]         (module [Validator]),
    - [scripts/audit_autonomous_actions.py] (module [Auditor]),
    - [scripts/generate_sprint_report.py]   (module [Reporter]),

    over a small model of the Python values they manipulate (module [Py])
    and of the files they read (module [FS]).  The definitions come first;
    the properties of the specification are stated and settled afterwards. *)

From Stdlib Require Import ZArith List String Ascii Lia Bool.
From stdpp Require Import base option list strings pretty.

Set Warnings "-register-all".

(** ** Python values, exceptions and [str] methods *)

Module Py.

(** The exception classes that the scripts raise, catch or let escape.
    [UnicodeDecodeError] is what reading a text file raises on bytes
    that are no text in the encoding of the run.
    [ReportGenerationError] is imported by the test-suite from
    [generate_sprint_report]; that module neither defines nor raises it. *)
Inductive exn : Type :=
| FileNotFoundError (path : string)
| IsADirectoryError (path : string)
| NotADirectoryError (path : string)
| PermissionError (path : string)
| UnicodeDecodeError
| YAMLError
| JSONDecodeError
| ValidationError (message : string)
| SchemaError
| TypeError
| AttributeError
| NameError (name : string)
| InvalidProjectPathError
| ReportGenerationError
| SystemExit (code : Z).

(** [except Exception] catches every class above except [SystemExit],
    which derives from [BaseException] only. *)
Definition is_Exception (e : exn) : bool :=
  match e with SystemExit _ => false | _ => true end.

Definition is_FileNotFoundError (e : exn) : bool :=
  match e with FileNotFoundError _ => true | _ => false end.

(** A computation either returns a value or raises. *)
Inductive result (A : Type) : Type :=
| Ok (a : A)
| Raise (e : exn).
Global Arguments Ok {A} a.
Global Arguments Raise {A} e.

Global Instance result_ret : MRet result := fun A a => Ok a.
Global Instance result_bind : MBind result := fun A B f m =>
  match m with Ok a => f a | Raise e => Raise e end.

Definition returns {A} (r : result A) : bool :=
  match r with Ok _ => true | Raise _ => false end.

(** What the interpreter reports to the shell when the main program ends
    with [r]: [0] after a normal return, the argument of [sys.exit], and
    [1] after a traceback for any other uncaught exception. *)
Definition exit_status {A} (r : result A) : Z :=
  match r with
  | Ok _ => 0
  | Raise (SystemExit code) => code
  | Raise _ => 1
  end%Z.

(** Values produced by [json.load] and [yaml.safe_load].  Numbers are
    integers and mapping keys are strings: the scripts only ever look at
    string keys, strings, lists and [None]. *)
Inductive pyval : Type :=
| PNone
| PBool (b : bool)
| PInt (z : Z)
| PStr (s : string)
| PList (l : list pyval)
| PDict (d : list (string * pyval)).

(** Hashable values: what may be a [dict] key, a [set] element or a
    [Counter] key.  Lists and dicts are unhashable. *)
Inductive hashable : Type :=
| HNone
| HBool (b : bool)
| HInt (z : Z)
| HStr (s : string).

Definition hash_key (v : pyval) : result hashable :=
  match v with
  | PNone => Ok HNone
  | PBool b => Ok (HBool b)
  | PInt z => Ok (HInt z)
  | PStr s => Ok (HStr s)
  | PList _ | PDict _ => Raise TypeError
  end.

(** [==] on hashable values; [True == 1] and [False == 0]. *)
Definition int_of_bool (b : bool) : Z := if b then 1%Z else 0%Z.

Definition key_eqb (a b : hashable) : bool :=
  match a, b with
  | HNone, HNone => true
  | HStr s, HStr t => String.eqb s t
  | HBool x, HBool y => Bool.eqb x y
  | HInt x, HInt y => Z.eqb x y
  | HBool x, HInt y | HInt y, HBool x => Z.eqb (int_of_bool x) y
  | _, _ => false
  end.

(** [v == s] for a string [s]. *)
Definition eq_str (s : string) (v : pyval) : bool :=
  match v with PStr t => String.eqb s t | _ => false end.

(** [str(k)], as an f-string renders a key. *)
Definition str_of_key (k : hashable) : string :=
  match k with
  | HNone => "None"
  | HBool true => "True"
  | HBool false => "False"
  | HInt z => pretty z
  | HStr s => s
  end.

(** [d.get(key)] on the association list of a mapping. *)
Fixpoint dict_get (key : string) (d : list (string * pyval)) : option pyval :=
  match d with
  | [] => None
  | (k, v) :: d' => if String.eqb key k then Some v else dict_get key d'
  end.

(** [v.get(key, default)]: only mappings have the method. *)
Definition get (v : pyval) (key : string) (default : pyval) : result pyval :=
  match v with
  | PDict d => Ok (from_option id default (dict_get key d))
  | _ => Raise AttributeError
  end.

(** *** [str] methods.

    A [str] is modelled by the sequence of its code points, for text
    of the range U+0000-U+00FF: a character [c] stands for the code point
    [nat_of_ascii c].  On that range the white-space class and the case
    mapping below are those of Python's [str]. *)

(** [c.isspace()], the class that [split()] and [strip()] use: tab, line
    feed, vertical tab, form feed, carriage return, the four separators
    U+001C-U+001F, the space, next line (U+0085) and the no-break space
    (U+00A0). *)
Definition is_space (c : ascii) : bool :=
  let n := nat_of_ascii c in
  ((9 <=? n) && (n <=? 13)) || ((28 <=? n) && (n <=? 32))
  || (n =? 133) || (n =? 160).

(** [c.lower()]: the letters A-Z and the capital letters U+00C0-U+00DE,
    the multiplication sign U+00D7 apart, move up by 32; every other
    code point of the range is its own lower case. *)
Definition lower_char (c : ascii) : ascii :=
  let n := nat_of_ascii c in
  if ((65 <=? n) && (n <=? 90))
     || ((192 <=? n) && (n <=? 222) && negb (n =? 215))
  then ascii_of_nat (n + 32) else c.

(** [s.lower()] *)
Fixpoint lower (s : string) : string :=
  match s with
  | EmptyString => EmptyString
  | String c s' => String (lower_char c) (lower s')
  end.

(** [s.startswith(p)] *)
Fixpoint startswith (p s : string) : bool :=
  match p, s with
  | EmptyString, _ => true
  | String a p', String b s' => if Ascii.eqb a b then startswith p' s' else false
  | String _ _, EmptyString => false
  end.

(** [sub in s] *)
Fixpoint contains (sub s : string) : bool :=
  startswith sub s ||
  match s with
  | EmptyString => false
  | String _ s' => contains sub s'
  end.

(** [s.replace(old, '')] for a non-empty [old]: scan from the left and
    drop every non-overlapping occurrence.  [skip] counts the characters
    of the current occurrence that are still to be dropped. *)
Fixpoint remove_from (old : string) (skip : nat) (s : string) : string :=
  match s with
  | EmptyString => EmptyString
  | String c s' =>
      match skip with
      | S k => remove_from old k s'
      | O =>
          if startswith old s
          then remove_from old (String.length old - 1) s'
          else String c (remove_from old 0 s')
      end
  end.

Definition remove (old s : string) : string :=
  match old with
  | EmptyString => s
  | _ => remove_from old 0 s
  end.

(** [s.split()]: the maximal runs of non-whitespace characters. *)
Definition at_word_end (s : string) : bool :=
  match s with
  | EmptyString => true
  | String c _ => is_space c
  end.

Fixpoint split (s : string) : list string :=
  match s with
  | EmptyString => []
  | String c s' =>
      if is_space c then split s'
      else if at_word_end s' then String c EmptyString :: split s'
      else match split s' with
           | w :: ws => String c w :: ws
           | [] => [String c EmptyString]
           end
  end.

(** [sep.join(words)] *)
Definition join (sep : string) (words : list string) : string :=
  String.concat sep words.

(** [s.strip()] *)
Fixpoint lstrip (s : string) : string :=
  match s with
  | EmptyString => EmptyString
  | String c s' => if is_space c then lstrip s' else s
  end.

Definition rstrip (s : string) : string := String.rev (lstrip (String.rev s)).

Definition strip (s : string) : string := rstrip (lstrip s).

(** What text mode makes of the characters of a file: the line endings
    [\r\n] and [\r] are read as [\n]. *)
Fixpoint universal_newlines (s : string) : string :=
  match s with
  | EmptyString => EmptyString
  | String c s' =>
      if Ascii.eqb c "013"%char then
        String "010"%char
          match s' with
          | String d s'' =>
              if Ascii.eqb d "010"%char then universal_newlines s''
              else universal_newlines s'
          | EmptyString => EmptyString
          end
      else String c (universal_newlines s')
  end.

(** Iterating a text file, [for line in f], on the text that text mode
    delivers: the lines, each with its terminating [\n]. *)
Fixpoint readlines (s : string) : list string :=
  match s with
  | EmptyString => []
  | String c s' =>
      if Ascii.eqb c "010"%char then String c EmptyString :: readlines s'
      else match readlines s' with
           | l :: ls =>
               match s' with
               | EmptyString => [String c EmptyString]
               | _ => String c l :: ls
               end
           | [] => [String c EmptyString]
           end
  end.

(** [needle in v] for a string [needle]: substring test on a [str],
    element test on a list, key test on a mapping. *)
Definition str_in (needle : string) (v : pyval) : result bool :=
  match v with
  | PStr s => Ok (contains needle s)
  | PList l => Ok (existsb (eq_str needle) l)
  | PDict d => Ok (bool_decide (is_Some (dict_get needle d)))
  | PNone | PBool _ | PInt _ => Raise TypeError
  end.

(** [v[key]] for a string [key]; only reached after [key in v]. *)
Definition getitem (v : pyval) (key : string) : result pyval :=
  match v with
  | PDict d => Ok (from_option id PNone (dict_get key d))
  | _ => Raise TypeError
  end.

(** [a + b] *)
Definition int_value (v : pyval) : option Z :=
  match v with
  | PInt z => Some z
  | PBool b => Some (int_of_bool b)
  | _ => None
  end.

Definition add (a b : pyval) : result pyval :=
  match a, b with
  | PList x, PList y => Ok (PList (x ++ y))
  | PStr x, PStr y => Ok (PStr (x +:+ y))
  | _, _ =>
      match int_value a, int_value b with
      | Some x, Some y => Ok (PInt (x + y))
      | _, _ => Raise TypeError
      end
  end.

(** [bool(v)] *)
Definition truthy (v : pyval) : bool :=
  match v with
  | PNone => false
  | PBool b => b
  | PInt z => negb (Z.eqb z 0)
  | PStr s => negb (String.eqb s "")
  | PList l => negb (bool_decide (l = []))
  | PDict d => negb (bool_decide (d = []))
  end.

(** [for x in v] *)
Fixpoint chars (s : string) : list pyval :=
  match s with
  | EmptyString => []
  | String c s' => PStr (String c EmptyString) :: chars s'
  end.

Definition iterate (v : pyval) : result (list pyval) :=
  match v with
  | PList l => Ok l
  | PStr s => Ok (chars s)
  | PDict d => Ok (map (fun kv => PStr (fst kv)) d)
  | PNone | PBool _ | PInt _ => Raise TypeError
  end.

(** A comprehension [[x for x in l if p(x)]] whose test may raise. *)
Fixpoint filterM {A} (p : A -> result bool) (l : list A) : result (list A) :=
  match l with
  | [] => Ok []
  | x :: l' =>
      b ← p x;
      rest ← filterM p l';
      Ok (if b : bool then x :: rest else rest)
  end.

(** [os.path.join(a, b)] on POSIX: an absolute [b] discards [a]. *)
Definition ends_with_slash (s : string) : bool :=
  match String.rev s with
  | String c _ => Ascii.eqb c "/"%char
  | EmptyString => false
  end.

Definition path_join (a b : string) : string :=
  if startswith "/" b then b
  else if String.eqb a "" || ends_with_slash a then a +:+ b
  else a +:+ "/" +:+ b.

(** [collections.Counter(keys)]: an insertion-ordered mapping from each
    distinct key to its number of occurrences. *)
Section Counter.
Context {K : Type} (eqb : K -> K -> bool).

Fixpoint counter_add (k : K) (c : list (K * nat)) : list (K * nat) :=
  match c with
  | [] => [(k, 1)]
  | (k', n) :: c' =>
      if eqb k' k then (k', S n) :: c' else (k', n) :: counter_add k c'
  end.

Definition Counter (keys : list K) : list (K * nat) :=
  fold_left (fun c k => counter_add k c) keys [].
End Counter.

(** [set(keys)], kept in order of first occurrence (the iteration order
    of a Python set is unspecified). *)
Fixpoint set_of {K} (eqb : K -> K -> bool) (keys : list K) : list K :=
  match keys with
  | [] => []
  | k :: ks => k :: List.filter (fun x => negb (eqb k x)) (set_of eqb ks)
  end.

End Py.

(** ** The files a run sees *)

Module FS.
Import Py.

(** What one path names when the script starts: nothing, a directory, a
    regular file with the characters it holds, a regular file whose bytes
    are no text in the encoding of the run, or nothing that can be looked
    up because the path runs through a regular file.  A run reads a
    snapshot: nothing it does changes the files. *)
Inductive node : Type :=
| Absent
| Directory
| File (readable : bool) (text : string)
| Undecodable
| BelowFile.

Definition filesystem : Type := string -> node.

(** [os.path.isfile], [os.path.isdir], [os.path.exists] *)
Definition isfile (fs : filesystem) (path : string) : bool :=
  match fs path with File _ _ | Undecodable => true | _ => false end.

Definition isdir (fs : filesystem) (path : string) : bool :=
  match fs path with Directory => true | _ => false end.

Definition path_exists (fs : filesystem) (path : string) : bool :=
  match fs path with Absent | BelowFile => false | _ => true end.

(** [with open(path, 'r') as f:] followed by reading [f] to its end, be
    it by [f.read()], by iterating [f], or by a parser that is handed
    [f]: [open] raises, or the read that follows raises, or the text
    arrives with its line endings translated. *)
Definition read_text (fs : filesystem) (path : string) : result string :=
  match fs path with
  | Absent => Raise (FileNotFoundError path)
  | Directory => Raise (IsADirectoryError path)
  | BelowFile => Raise (NotADirectoryError path)
  | File false _ => Raise (PermissionError path)
  | Undecodable => Raise UnicodeDecodeError
  | File true text => Ok (universal_newlines text)
  end.

(** A file system given by its finitely many entries. *)
Fixpoint of_entries (entries : list (string * node)) : filesystem :=
  fun path =>
    match entries with
    | [] => Absent
    | (p, n) :: rest => if String.eqb path p then n else of_entries rest path
    end.
End FS.

(** ** The parsing libraries

    PyYAML, [json] and [jsonschema] are collaborators of the scripts, not
    part of them: a run is parameterised by what they answer on a text
    that has been read.  [None] stands for the parse error of the library
    ([yaml.YAMLError], [json.JSONDecodeError]); failing to read the file
    is the part of [FS.read_text].  A library that gives up in another
    way (on exhausted memory or recursion depth) is not modelled. *)

Inductive conformance : Type :=
| Conforms
| Violates (message : string)
| BadSchema.

Class Libraries : Type := {
  yaml_safe_load : string -> option Py.pyval;
  json_load : string -> option Py.pyval;
  jsonschema_validate : Py.pyval -> Py.pyval -> conformance
}.

(** ** [scripts/audit_autonomous_actions.py] *)

Module Auditor.
Import Py FS.

(** The entries of [self.anomalies].  An entry keeps the counter item it
    was built from; [to_dict] renders the dictionary the script stores. *)
Inductive anomaly : Type :=
| HighInterventionRate (agent : hashable) (count : nat) (threshold : Z)
| PotentialTaskLoop (title : string) (count : nat) (threshold : Z).

Record anomaly_dict : Type := {
  type : string;
  details : string;
  recommendation : string
}.

Definition to_dict (a : anomaly) : anomaly_dict :=
  match a with
  | HighInterventionRate agent count threshold =>
      {| type := "High Intervention Rate";
         details := "Agent '" +:+ str_of_key agent +:+ "' has created "
                    +:+ pretty count
                    +:+ " intervention tasks, exceeding the threshold of "
                    +:+ pretty threshold +:+ ".";
         recommendation := "Review this agent's tasks to identify a potential root cause for repeated quality/debt issues." |}
  | PotentialTaskLoop title count threshold =>
      {| type := "Potential Task Loop";
         details := "A task with a title similar to '" +:+ title
                    +:+ "...' has been created " +:+ pretty count
                    +:+ " times, exceeding the threshold of "
                    +:+ pretty threshold +:+ ".";
         recommendation := "Investigate why this task is being repeatedly created. It may indicate a persistent failure or a logical loop in the workflow." |}
  end.

(** What [run_audit] prints, apart from the header. *)
Inductive message : Type :=
| WorkflowStateNotFound
| NoTasksFound
| AuditSummary (found : list anomaly).

Record ActionsAuditor : Type := {
  project_name : string;
  control_dir : string;
  workflow_file : string;
  anomalies : list anomaly;
  INTERVENTION_THRESHOLD : Z;
  LOOP_THRESHOLD : Z;
  printed : list message
}.

(** [ActionsAuditor(project_name, intervention_threshold, loop_threshold)] *)
Definition init (name : string) (intervention_threshold loop_threshold : Z)
  : ActionsAuditor :=
  let control := path_join (path_join "project" name) "control" in
  {| project_name := name;
     control_dir := control;
     workflow_file := path_join control "workflow-state.json";
     anomalies := [];
     INTERVENTION_THRESHOLD := intervention_threshold;
     LOOP_THRESHOLD := loop_threshold;
     printed := [] |}.

Definition with_anomalies (self : ActionsAuditor) (l : list anomaly)
  : ActionsAuditor :=
  {| project_name := project_name self;
     control_dir := control_dir self;
     workflow_file := workflow_file self;
     anomalies := l;
     INTERVENTION_THRESHOLD := INTERVENTION_THRESHOLD self;
     LOOP_THRESHOLD := LOOP_THRESHOLD self;
     printed := printed self |}.

(** [self.anomalies.append(a)] *)
Definition append (a : anomaly) (self : ActionsAuditor) : ActionsAuditor :=
  with_anomalies self (anomalies self ++ [a]).

Definition print (m : message) (self : ActionsAuditor) : ActionsAuditor :=
  {| project_name := project_name self;
     control_dir := control_dir self;
     workflow_file := workflow_file self;
     anomalies := anomalies self;
     INTERVENTION_THRESHOLD := INTERVENTION_THRESHOLD self;
     LOOP_THRESHOLD := LOOP_THRESHOLD self;
     printed := printed self ++ [m] |}.

Definition oversight_agents : list string :=
  ["quality-assurance-coordinator"; "technical-debt-manager"].

(** The test of the comprehension at lines 90-94. *)
Definition is_intervention_task (task : pyval) : result bool :=
  assigned ← get task "assigned_to" PNone;
  if existsb (fun agent => eq_str agent assigned) oversight_agents
  then Ok true
  else title ← get task "title" (PStr ""); str_in "Remediation:" title.

(** [task.get('assigned_to')] as a counter key. *)
Definition creator (task : pyval) : result hashable :=
  assigned ← get task "assigned_to" PNone; hash_key assigned.

Definition _check_high_intervention_rate
    (self : ActionsAuditor) (all_tasks : list pyval) : result ActionsAuditor :=
  intervention_tasks ← filterM is_intervention_task all_tasks;
  creators ← mapM creator intervention_tasks;
  let creator_counts := Counter key_eqb creators in
  Ok (fold_left
        (fun self item =>
           let '(agent, count) := item in
           if (INTERVENTION_THRESHOLD self <? Z.of_nat count)%Z
           then append (HighInterventionRate agent count
                          (INTERVENTION_THRESHOLD self)) self
           else self)
        creator_counts self).

(** Lines 111-113, on the title string. *)
Definition normalize (raw : string) : string :=
  let title := lower raw in
  join " " (take 4 (split (remove "remediation:" title))).

Definition normalized_title (task : pyval) : result string :=
  title ← get task "title" (PStr "");
  match title with
  | PStr raw => Ok (normalize raw)
  | _ => Raise AttributeError
  end.

Definition _check_task_loops
    (self : ActionsAuditor) (all_tasks : list pyval) : result ActionsAuditor :=
  normalized_titles ← mapM normalized_title all_tasks;
  let title_counts := Counter String.eqb normalized_titles in
  Ok (fold_left
        (fun self item =>
           let '(title, count) := item in
           if (LOOP_THRESHOLD self <? Z.of_nat count)%Z
           then append (PotentialTaskLoop title count (LOOP_THRESHOLD self)) self
           else self)
        title_counts self).

Definition _print_report (self : ActionsAuditor) : ActionsAuditor :=
  print (AuditSummary (anomalies self)) self.

(** The [try] block of [run_audit], lines 62-85. *)
Definition audit_body `{libs : Libraries}
    (fs : filesystem) (self : ActionsAuditor) : result ActionsAuditor :=
  if negb (path_exists fs (workflow_file self))
  then Ok (print WorkflowStateNotFound self)
  else
    text ← read_text fs (workflow_file self);
    workflow_data ← from_option Ok (Raise JSONDecodeError) (json_load text);
    pending ← get workflow_data "pending_tasks" (PList []);
    active ← get workflow_data "active_tasks" (PList []);
    pending_active ← add pending active;
    completed ← get workflow_data "completed_tasks" (PList []);
    all_tasks ← add pending_active completed;
    if negb (truthy all_tasks)
    then Ok (print NoTasksFound self)
    else
      tasks ← iterate all_tasks;
      self ← _check_high_intervention_rate self tasks;
      self ← _check_task_loops self tasks;
      Ok (_print_report self).

Definition run_audit_try `{libs : Libraries}
    (fs : filesystem) (self : ActionsAuditor) : result ActionsAuditor :=
  match audit_body fs self with
  | Ok self' => Ok self'
  | Raise e => if is_Exception e then Raise (SystemExit 1) else Raise e
  end.

(** The names bound at module level in [audit_autonomous_actions.py]:
    its imports and its two classes.  [print_header] is defined in
    [validate_config.py] only. *)
Definition module_globals : list string :=
  ["os"; "sys"; "json"; "argparse"; "Counter"; "Colors"; "ActionsAuditor"].

Definition load_global (name : string) : result unit :=
  if bool_decide (name ∈ module_globals) then Ok tt
  else Raise (NameError name).

(** [run_audit]: the call of [print_header] at line 61 precedes the
    [try] statement. *)
Definition run_audit `{libs : Libraries}
    (fs : filesystem) (self : ActionsAuditor) : result ActionsAuditor :=
  load_global "print_header";;
  run_audit_try fs self.

(** The script run as a program. *)
Definition main `{libs : Libraries} (fs : filesystem) (name : string) : Z :=
  exit_status (run_audit fs (init name 3 2)).

End Auditor.

(** ** [scripts/validate_config.py] *)

Module Validator.
Import Py FS.

(** The arguments of [print_error], by call site. *)
Inductive diagnostic : Type :=
| NotFound (is_dir : bool)
| FileIsEmpty
| CouldNotReadFile (e : exn)
| AgentsKeyInvalid
| YamlSyntaxError
| MissingRequiredKeys (keys : list string)
| JsonSyntaxError
| SchemaValidationFailed (message : string)
| UnexpectedError (e : exn)
| UndefinedAgents (agents : list string)
| CrossReferenceFailed (e : exn).

(** What a run prints: stage banners, [print_status] lines and
    [print_error] lines. *)
Inductive line : Type :=
| Banner (title : string)
| Status (message : string) (success : bool)
| Error (d : diagnostic).

Record ConfigValidator : Type := {
  project_name : string;
  project_dir : string;
  control_dir : string;
  schema_dir : string;
  errors : Z;
  output : list line
}.

(** [ConfigValidator(project_name)] *)
Definition init (name : string) : ConfigValidator :=
  let project := path_join "project" name in
  {| project_name := name;
     project_dir := project;
     control_dir := path_join project "control";
     schema_dir := path_join "docs" "contracts";
     errors := 0;
     output := [] |}.

(** A method threads the object through and may raise; what it did to
    [self] before raising stays done. *)
Definition method (A : Type) : Type :=
  ConfigValidator -> result A * ConfigValidator.

Global Instance method_ret : MRet method := fun A a self => (Ok a, self).
Global Instance method_bind : MBind method := fun A B f m self =>
  match m self with
  | (Ok a, self') => f a self'
  | (Raise e, self') => (Raise e, self')
  end.

Definition lift {A} (r : result A) : method A := fun self => (r, self).

Definition this : method ConfigValidator := fun self => (Ok self, self).

(** [try: body  except <classes>: handler], where [handler e] is [None]
    when no clause matches [e]. *)
Definition try_except {A} (body : method A)
    (handler : exn -> option (method A)) : method A :=
  fun self =>
    match body self with
    | (Ok a, self') => (Ok a, self')
    | (Raise e, self') =>
        match handler e with
        | Some h => h self'
        | None => (Raise e, self')
        end
    end.

(** [self.errors += 1] *)
Definition count_error : method unit := fun self =>
  (Ok tt,
   {| project_name := project_name self;
      project_dir := project_dir self;
      control_dir := control_dir self;
      schema_dir := schema_dir self;
      errors := errors self + 1;
      output := output self |}).

Definition emit (l : line) : method unit := fun self =>
  (Ok tt,
   {| project_name := project_name self;
      project_dir := project_dir self;
      control_dir := control_dir self;
      schema_dir := schema_dir self;
      errors := errors self;
      output := output self ++ [l] |}).

Definition print_status (message : string) (success : bool) : method unit :=
  emit (Status message success).

Definition print_error (d : diagnostic) : method unit := emit (Error d).

Fixpoint for_each {A} (l : list A) (body : A -> method unit) : method unit :=
  match l with
  | [] => mret tt
  | x :: l' => body x;; for_each l' body
  end.

Section Checks.
Context `{libs : Libraries} (fs : filesystem).

Definition _check_path (path : string) (is_dir : bool) : method bool :=
  let check := if is_dir then isdir fs else isfile fs in
  if negb (check path) then
    count_error;;
    print_status ("Checking path: " +:+ path) false;;
    print_error (NotFound is_dir);;
    mret false
  else
    print_status ("Checking path: " +:+ path) true;;
    mret true.

Definition _validate_file_existence : method unit :=
  emit (Banner "1. Validating File & Directory Structure");;
  self ← this;
  _check_path ".roomodes" false;;
  _check_path (project_dir self) true;;
  _check_path (control_dir self) true;;
  _check_path (schema_dir self) true;;
  for_each
    ["backlog.yaml"; "sprint.yaml"; "capabilities.yaml";
     "workflow-state.json"; "quality-dashboard.json"]
    (fun f => _check_path (path_join (control_dir self) f) false;; mret tt);;
  for_each
    ["backlog_v1.schema.json"; "workflow_state_v2.schema.json"]
    (fun s => _check_path (path_join (schema_dir self) s) false;; mret tt).

Definition _validate_roomodes : method unit :=
  emit (Banner "2. Validating .roomodes File");;
  let path := ".roomodes" in
  try_except
    (content ← lift (read_text fs path);
     if String.eqb (strip content) "" then
       count_error;;
       print_status "Checking .roomodes content" false;;
       print_error FileIsEmpty
     else
       print_status "Checking .roomodes content" true)
    (fun e =>
       if is_Exception e then
         Some (count_error;;
               print_status ("Reading " +:+ path) false;;
               print_error (CouldNotReadFile e))
       else None).

(** The handler of [except yaml.YAMLError], lines 155-158 and 173-176. *)
Definition on_YAMLError (path : string) (e : exn) : option (method unit) :=
  match e with
  | YAMLError =>
      Some (count_error;;
            print_status ("Parsing " +:+ path) false;;
            print_error YamlSyntaxError)
  | _ => None
  end.

(** Line 149: ["agents" in data and isinstance(data["agents"], list)
    and data["agents"]]. *)
Definition has_agent_list (data : pyval) : result bool :=
  present ← str_in "agents" data;
  if present : bool then
    agents ← getitem data "agents";
    Ok (match agents with PList _ => truthy agents | _ => false end)
  else Ok false.

Definition validate_capabilities_yaml : method unit :=
  self ← this;
  let path := path_join (control_dir self) "capabilities.yaml" in
  try_except
    (text ← lift (read_text fs path);
     data ← lift (from_option Ok (Raise YAMLError) (yaml_safe_load text));
     valid ← lift (has_agent_list data);
     if valid : bool then
       print_status "Validating capabilities.yaml structure" true
     else
       count_error;;
       print_status "Validating capabilities.yaml structure" false;;
       print_error AgentsKeyInvalid)
    (on_YAMLError path).

Definition validate_sprint_yaml : method unit :=
  self ← this;
  let path := path_join (control_dir self) "sprint.yaml" in
  try_except
    (text ← lift (read_text fs path);
     data ← lift (from_option Ok (Raise YAMLError) (yaml_safe_load text));
     let required_keys := ["sprint_id"; "goal"; "status"] in
     missing_keys ← lift (filterM (fun key => present ← str_in key data;
                                               Ok (negb present))
                                  required_keys);
     if bool_decide (missing_keys = []) then
       print_status "Validating sprint.yaml structure" true
     else
       count_error;;
       print_status "Validating sprint.yaml structure" false;;
       print_error (MissingRequiredKeys missing_keys))
    (on_YAMLError path).

Definition _validate_yaml_files : method unit :=
  emit (Banner "3. Validating YAML Files");;
  validate_capabilities_yaml;;
  validate_sprint_yaml.

Definition validation_map : list (string * string) :=
  [("workflow-state.json", "workflow_state_v2.schema.json")].

Definition validate_against (data_file schema_file : string) : method unit :=
  self ← this;
  let data_path := path_join (control_dir self) data_file in
  let schema_path := path_join (schema_dir self) schema_file in
  try_except
    (data_text ← lift (read_text fs data_path);
     data_instance ← lift (from_option Ok (Raise JSONDecodeError)
                             (json_load data_text));
     schema_text ← lift (read_text fs schema_path);
     schema ← lift (from_option Ok (Raise JSONDecodeError)
                      (json_load schema_text));
     lift (match jsonschema_validate data_instance schema with
           | Conforms => Ok tt
           | Violates message => Raise (ValidationError message)
           | BadSchema => Raise SchemaError
           end);;
     print_status ("Validating " +:+ data_file +:+ " against " +:+ schema_file)
                  true)
    (fun e =>
       match e with
       | JSONDecodeError =>
           Some (count_error;;
                 print_status ("Parsing " +:+ data_file) false;;
                 print_error JsonSyntaxError)
       | ValidationError message =>
           Some (count_error;;
                 print_status ("Validating " +:+ data_file +:+ " against "
                               +:+ schema_file) false;;
                 print_error (SchemaValidationFailed message))
       | _ =>
           if is_Exception e then
             Some (count_error;;
                   print_status ("Processing " +:+ data_file) false;;
                   print_error (UnexpectedError e))
           else None
       end).

Definition _validate_json_files : method unit :=
  emit (Banner "4. Validating JSON Files Against Schemas");;
  for_each validation_map (fun pair => validate_against (fst pair) (snd pair)).

(** Line 218: the stripped non-empty lines of [.roomodes], as a set. *)
Definition defined_modes (text : string) : list string :=
  set_of String.eqb
    (List.filter (fun l => negb (String.eqb l ""))
                 (map strip (readlines text))).

(** [set(project_caps.get("agents", []))] *)
Definition agent_set (project_caps : pyval) : result (list hashable) :=
  agents ← get project_caps "agents" (PList []);
  items ← iterate agents;
  keys ← mapM hash_key items;
  Ok (set_of key_eqb keys).

Definition is_defined (modes : list string) (agent : hashable) : bool :=
  match agent with
  | HStr s => existsb (String.eqb s) modes
  | _ => false
  end.

(** The operand check of [', '.join(...)]. *)
Definition as_str (k : hashable) : result string :=
  match k with
  | HStr s => Ok s
  | _ => Raise TypeError
  end.

Definition _cross_reference_capabilities : method unit :=
  emit (Banner "5. Cross-Referencing Agent Capabilities");;
  self ← this;
  try_except
    (modes_text ← lift (read_text fs ".roomodes");
     let modes := defined_modes modes_text in
     let cap_path := path_join (control_dir self) "capabilities.yaml" in
     caps_text ← lift (read_text fs cap_path);
     project_caps ← lift (from_option Ok (Raise YAMLError)
                            (yaml_safe_load caps_text));
     project_agents ← lift (agent_set project_caps);
     let undefined_agents :=
       List.filter (fun a => negb (is_defined modes a)) project_agents in
     if bool_decide (undefined_agents = []) then
       print_status "All project agents are defined in .roomodes" true
     else
       count_error;;
       print_status "All project agents are defined in .roomodes" false;;
       names ← lift (mapM as_str undefined_agents);
       print_error (UndefinedAgents names))
    (fun e =>
       if is_Exception e then
         Some (count_error;;
               print_status "Cross-referencing capabilities" false;;
               print_error (CrossReferenceFailed e))
       else None).

Definition run_validations : method bool :=
  self ← this;
  emit (Banner ("Validating Project: " +:+ project_name self));;
  _validate_file_existence;;
  self ← this;
  if (0 <? errors self)%Z then mret false
  else
    _validate_roomodes;;
    _validate_yaml_files;;
    _validate_json_files;;
    _cross_reference_capabilities;;
    self ← this;
    mret (errors self =? 0)%Z.

(** The script run as a program: [sys.exit(0)] when valid,
    [sys.exit(1)] when not; nothing catches what [run_validations]
    lets escape. *)
Definition main (name : string) : Z :=
  exit_status
    (is_valid ← fst (run_validations (init name));
     if is_valid : bool then Raise (SystemExit 0) else Raise (SystemExit 1)
     : result unit).
End Checks.

End Validator.

(** ** [scripts/generate_sprint_report.py] *)

Module Reporter.
Import Py FS.

(** The four entries of [self.data] once [_load_data] has returned. *)
Record ReportData : Type := {
  sprint : pyval;
  workflow : pyval;
  quality : pyval;
  decisions : list string
}.

Record ReportGenerator : Type := {
  project_name : string;
  control_dir : string;
  memory_dir : string
}.

(** [ReportGenerator(project_name)] *)
Definition init (name : string) : ReportGenerator :=
  {| project_name := name;
     control_dir := path_join (path_join "project" name) "control";
     memory_dir := "memory-bank" |}.

(** What [generate_report] prints. *)
Inductive message : Type :=
| LoadingData (project : string)
| ReportLine (text : string)
| RequiredFileNotFound (e : exn)
| UnexpectedError (e : exn).

(** Lines 81-82: the stripped non-empty lines that do not start with
    [#], and of those the last five. *)
Definition decision_lines (text : string) : list string :=
  let lines :=
    map strip
      (List.filter (fun l => negb (String.eqb (strip l) "")
                             && negb (startswith "#" l))
                   (readlines text)) in
  drop (length lines - 5) lines.

Section Report.
Context `{libs : Libraries} (fs : filesystem).

(** [_print_report] formats floating-point numbers and reads the
    clock; the run is parameterised by the lines it prints for given
    data and by whether it raises while doing so. *)
Variable _print_report : ReportGenerator -> ReportData -> list string * result unit.

Definition _load_data (self : ReportGenerator) : result ReportData :=
  sprint_text ← read_text fs (path_join (control_dir self) "sprint.yaml");
  sprint ← from_option Ok (Raise YAMLError) (yaml_safe_load sprint_text);
  workflow_text ← read_text fs (path_join (control_dir self) "workflow-state.json");
  workflow ← from_option Ok (Raise JSONDecodeError) (json_load workflow_text);
  quality_text ← read_text fs (path_join (control_dir self) "quality-dashboard.json");
  quality ← from_option Ok (Raise JSONDecodeError) (json_load quality_text);
  log_text ← read_text fs (path_join (memory_dir self) "decisionLog.md");
  Ok {| sprint := sprint;
        workflow := workflow;
        quality := quality;
        decisions := decision_lines log_text |}.

(** The two handlers of [generate_report], lines 62-68. *)
Definition on_error (e : exn) : option (list message * result unit) :=
  if is_FileNotFoundError e
  then Some ([RequiredFileNotFound e], Raise (SystemExit 1))
  else if is_Exception e
  then Some ([UnexpectedError e], Raise (SystemExit 1))
  else None.

Definition handle (printed : list message) (e : exn)
  : list message * result unit :=
  match on_error e with
  | Some (more, r) => (printed ++ more, r)
  | None => (printed, Raise e)
  end.

Definition generate_report (self : ReportGenerator)
  : list message * result unit :=
  let banner := [LoadingData (project_name self)] in
  match _load_data self with
  | Raise e => handle banner e
  | Ok data =>
      let '(lines, r) := _print_report self data in
      let printed := banner ++ map ReportLine lines in
      match r with
      | Ok tt => (printed, Ok tt)
      | Raise e => handle printed e
      end
  end.

(** [path_utils.resolve_project_path] is imported from a module that
    is not among the sources at hand; [main] is parameterised by it.
    [None] stands for [InvalidProjectPathError]. *)
Variable resolve_project_path : string -> option string.

(** The coroutine [main], run to completion: the two [await]s are
    sequential. *)
Definition main (name : string) : Z :=
  match resolve_project_path name with
  | None => 1
  | Some project => exit_status (snd (generate_report (init project)))
  end.
End Report.

End Reporter.

(** ** Vocabulary of the specification

    Predicates and measures in which the properties below are phrased;
    none of them is used by the scripts. *)

Module Spec.
Import Py FS.

(** A string is in lower case when [lower] leaves it alone. *)
Definition lowered (s : string) : Prop := lower s = s.

(** A word: non-empty and free of whitespace. *)
Fixpoint spaceless (s : string) : bool :=
  match s with
  | EmptyString => true
  | String c s' => negb (is_space c) && spaceless s'
  end.

Definition word (w : string) : Prop := w <> "" /\ spaceless w = true.

Definition leading_space (s : string) : bool :=
  match s with
  | EmptyString => false
  | String c _ => is_space c
  end.

(** *** Workflow states

    A task of the data model is a JSON object; its [title], when
    present, is a string, and its [assigned_to], when present, is a
    string or [null]. *)
Definition valid_task (task : pyval) : bool :=
  match task with
  | PDict d =>
      match dict_get "title" d with
      | None | Some (PStr _) => true
      | Some _ => false
      end
      && match dict_get "assigned_to" d with
         | None | Some PNone | Some (PStr _) => true
         | Some _ => false
         end
  | _ => false
  end.

(** The agent a task is assigned to: [HStr a], or [HNone] for a task
    without assignee. *)
Definition assignee (task : pyval) : hashable :=
  match task with
  | PDict d =>
      match dict_get "assigned_to" d with
      | Some (PStr a) => HStr a
      | _ => HNone
      end
  | _ => HNone
  end.

(** The title of a task, empty when the task has none. *)
Definition title_of (task : pyval) : string :=
  match task with
  | PDict d =>
      match dict_get "title" d with
      | Some (PStr t) => t
      | _ => ""
      end
  | _ => ""
  end.

Definition lacks (field : string) (task : pyval) : bool :=
  match task with
  | PDict d => negb (bool_decide (is_Some (dict_get field d)))
  | _ => true
  end.

(** An intervention task: assigned to an oversight agent, or carrying
    the marker in its title. *)
Definition by_oversight_agent (task : pyval) : bool :=
  match assignee task with
  | HStr a => bool_decide (a ∈ Auditor.oversight_agents)
  | _ => false
  end.

Definition marked (task : pyval) : bool :=
  contains "Remediation:" (title_of task).

Definition intervention_task (task : pyval) : bool :=
  by_oversight_agent task || marked task.

(** The number of intervention tasks grouped under [agent]. *)
Definition intervention_count (agent : hashable) (tasks : list pyval) : nat :=
  length (List.filter
            (fun task => intervention_task task && key_eqb (assignee task) agent)
            tasks).

(** The number of tasks whose normalised title is [key]. *)
Definition title_count (key : string) (tasks : list pyval) : nat :=
  length (List.filter
            (fun task => String.eqb (Auditor.normalize (title_of task)) key)
            tasks).

(** The number of tasks without [assigned_to] that are intervention tasks
    through the marker in their title. *)
Definition unassigned_marked (tasks : list pyval) : nat :=
  length (List.filter (fun task => lacks "assigned_to" task && marked task) tasks).

(** A High Intervention Rate anomaly naming [agent]. *)
Definition names_agent (agent : hashable) (a : Auditor.anomaly) : bool :=
  match a with
  | Auditor.HighInterventionRate k _ _ => key_eqb k agent
  | Auditor.PotentialTaskLoop _ _ _ => false
  end.

(** A Potential Task Loop anomaly for the normalised title [key]. *)
Definition names_title (key : string) (a : Auditor.anomaly) : bool :=
  match a with
  | Auditor.PotentialTaskLoop t _ _ => String.eqb t key
  | Auditor.HighInterventionRate _ _ _ => false
  end.

(** The anomalies each check appends, as a function of the tasks. *)
Definition high_intervention_anomalies (threshold : Z) (tasks : list pyval)
  : list Auditor.anomaly :=
  flat_map
    (fun item : hashable * nat =>
       if (threshold <? Z.of_nat (snd item))%Z
       then [Auditor.HighInterventionRate (fst item) (snd item) threshold]
       else [])
    (Counter key_eqb (map assignee (List.filter intervention_task tasks))).

Definition task_loop_anomalies (threshold : Z) (tasks : list pyval)
  : list Auditor.anomaly :=
  flat_map
    (fun item : string * nat =>
       if (threshold <? Z.of_nat (snd item))%Z
       then [Auditor.PotentialTaskLoop (fst item) (snd item) threshold]
       else [])
    (Counter String.eqb (map (fun task => Auditor.normalize (title_of task)) tasks)).

(** *** Sample data *)

Definition qa_coordinator : string := "quality-assurance-coordinator".

Definition task (title assigned_to : string) : pyval :=
  PDict [("title", PStr title); ("assigned_to", PStr assigned_to)].

Definition untitled_task (assigned_to : string) : pyval :=
  PDict [("assigned_to", PStr assigned_to)].

Definition unassigned_task (title : string) : pyval :=
  PDict [("title", PStr title)].

(** The workflow of the intervention scenario: four tasks of the QA
    coordinator and one of a developer. *)
Definition four_qa_tasks : list pyval :=
  [task "Review module A" qa_coordinator;
   task "Review module B" qa_coordinator;
   task "Add login page" "developer";
   task "Review module C" qa_coordinator;
   task "Review module D" qa_coordinator].

(** The workflow of the loop scenario, one task per bucket. *)
Definition lint_pending : list pyval :=
  [task "Remediation: Fix lint errors in module X" "developer"].
Definition lint_active : list pyval :=
  [task "Remediation: Fix lint errors in module Y" "developer"].
Definition lint_completed : list pyval :=
  [task "Remediation: Fix lint errors in module Z" "developer"].

(** A workflow with one ordinary task of a developer. *)
Definition one_developer_task : list pyval :=
  [task "Add login page" "developer"].

(** Remediation tasks that nobody is assigned to. *)
Definition unassigned_remediations : list pyval :=
  [unassigned_task "Remediation: Fix build";
   PDict [];
   unassigned_task "Remediation: Fix tests";
   untitled_task "developer"].

(** *** Validation runs *)

(** A [print_status] line of a failed check. *)
Definition failed_status (l : Validator.line) : bool :=
  match l with
  | Validator.Status _ false => true
  | _ => false
  end.

(** The number of failed checks among printed lines. *)
Definition failures (lines : list Validator.line) : nat :=
  length (List.filter failed_status lines).

(** The validator after printing [lines] and counting their failures. *)
Definition advance (self : Validator.ConfigValidator) (lines : list Validator.line)
  : Validator.ConfigValidator :=
  {| Validator.project_name := Validator.project_name self;
     Validator.project_dir := Validator.project_dir self;
     Validator.control_dir := Validator.control_dir self;
     Validator.schema_dir := Validator.schema_dir self;
     Validator.errors := Validator.errors self + Z.of_nat (failures lines);
     Validator.output := Validator.output self ++ lines |}.

(** A result that, if it raises, raises an [Exception]. *)
Definition catchable {A} (r : result A) : Prop :=
  forall e, r = Raise e -> is_Exception e = true.

(** A method that only prints lines satisfying [P], adds to the error
    counter the number of failed checks it prints, and lets nothing but
    an [Exception] escape. *)
Definition behaves {A} (P : Validator.line -> Prop) (m : Validator.method A) : Prop :=
  forall self, exists lines,
    snd (m self) = advance self lines
    /\ Forall P lines
    /\ catchable (fst (m self)).

(** A method that never raises. *)
Definition total {A} (m : Validator.method A) : Prop :=
  forall self, returns (fst (m self)) = true.

(** The report of a cross-reference violation. *)
Definition undefined_report (l : Validator.line) : bool :=
  match l with
  | Validator.Error (Validator.UndefinedAgents _) => true
  | _ => false
  end.

(** A stage banner. *)
Definition is_banner (l : Validator.line) : bool :=
  match l with
  | Validator.Banner _ => true
  | _ => false
  end.

(** A line that reports no undefined agents. *)
Definition quiet (l : Validator.line) : Prop := undefined_report l = false.

(** A method under which the error counter grows by exactly the number of
    failed checks it prints. *)
Definition counts_failures {A} (m : Validator.method A) : Prop :=
  forall self, exists lines,
    Validator.output (snd (m self)) = Validator.output self ++ lines
    /\ Validator.errors (snd (m self))
       = (Validator.errors self + Z.of_nat (failures lines))%Z.

(** The paths of stage 1, with whether each must be a directory. *)
Definition required_paths (name : string) : list (string * bool) :=
  let self := Validator.init name in
  [(".roomodes", false);
   (Validator.project_dir self, true);
   (Validator.control_dir self, true);
   (Validator.schema_dir self, true)]
  ++ map (fun f => (path_join (Validator.control_dir self) f, false))
       ["backlog.yaml"; "sprint.yaml"; "capabilities.yaml";
        "workflow-state.json"; "quality-dashboard.json"]
  ++ map (fun f => (path_join (Validator.schema_dir self) f, false))
       ["backlog_v1.schema.json"; "workflow_state_v2.schema.json"].

Definition structure_complete (fs : filesystem) (name : string) : bool :=
  forallb (fun entry : string * bool =>
             if snd entry then isdir fs (fst entry) else isfile fs (fst entry))
          (required_paths name).

(** [sprint.yaml] can be read and does not hold a bare [null], boolean or
    number. *)
Definition sprint_checkable `{libs : Libraries} (fs : filesystem) (name : string) : bool :=
  match read_text fs (path_join (Validator.control_dir (Validator.init name)) "sprint.yaml") with
  | Ok text =>
      match yaml_safe_load text with
      | Some PNone | Some (PBool _) | Some (PInt _) => false
      | _ => true
      end
  | Raise _ => false
  end.

(** *** Sample projects

    The libraries on the documents of the samples: each listed text with
    the value the library returns for it.  YAML flow syntax keeps the
    documents on one line. *)
Definition sample_yaml : list (string * pyval) :=
  [("agents: [architect]", PDict [("agents", PList [PStr "architect"])]);
   ("agents: [architect, ghost-agent]",
    PDict [("agents", PList [PStr "architect"; PStr "ghost-agent"])]);
   ("{sprint_id: S1, goal: ship, status: active}",
    PDict [("sprint_id", PStr "S1"); ("goal", PStr "ship"); ("status", PStr "active")]);
   ("[]", PList []);
   ("", PNone)].

(** JSON text of the loop scenario. *)
Definition quoted (s : string) : string :=
  String "034"%char (s +:+ String "034"%char "").

Definition json_task (title assigned_to : string) : string :=
  "{" +:+ quoted "title" +:+ ": " +:+ quoted title +:+ ", "
  +:+ quoted "assigned_to" +:+ ": " +:+ quoted assigned_to +:+ "}".

Definition lint_workflow_json : string :=
  "{" +:+ quoted "pending_tasks" +:+ ": ["
  +:+ json_task "Remediation: Fix lint errors in module X" "developer" +:+ "], "
  +:+ quoted "active_tasks" +:+ ": ["
  +:+ json_task "Remediation: Fix lint errors in module Y" "developer" +:+ "], "
  +:+ quoted "completed_tasks" +:+ ": ["
  +:+ json_task "Remediation: Fix lint errors in module Z" "developer" +:+ "]}".

Definition sample_json : list (string * pyval) :=
  [("{}", PDict []);
   ("[]", PList []);
   (lint_workflow_json,
    PDict [("pending_tasks", PList lint_pending);
           ("active_tasks", PList lint_active);
           ("completed_tasks", PList lint_completed)])].

Definition sample_libraries : Libraries :=
  {| yaml_safe_load text := dict_get text sample_yaml;
     json_load text := dict_get text sample_json;
     jsonschema_validate instance schema :=
       match schema with
       | PDict [] => Conforms
       | _ => BadSchema
       end |}.

(** A complete project [name] whose capabilities file holds [capabilities]. *)
Definition project_files (name capabilities : string) : list (string * node) :=
  let control := path_join (path_join "project" name) "control" in
  [(".roomodes", File true "architect");
   (path_join "project" name, Directory);
   (control, Directory);
   ("docs/contracts", Directory);
   (path_join control "backlog.yaml", File true "[]");
   (path_join control "sprint.yaml",
    File true "{sprint_id: S1, goal: ship, status: active}");
   (path_join control "capabilities.yaml", File true capabilities);
   (path_join control "workflow-state.json", File true "{}");
   (path_join control "quality-dashboard.json", File true "{}");
   ("docs/contracts/backlog_v1.schema.json", File true "{}");
   ("docs/contracts/workflow_state_v2.schema.json", File true "{}")].

Definition valid_project : filesystem :=
  of_entries (project_files "demo" "agents: [architect]").

(** The same project with an agent that [.roomodes] does not declare. *)
Definition ghost_project : filesystem :=
  of_entries (project_files "demo" "agents: [architect, ghost-agent]").

(** ... and, in addition, without its backlog. *)
Definition ghost_project_without_backlog : filesystem :=
  of_entries (("project/demo/control/backlog.yaml", Absent)
              :: project_files "demo" "agents: [architect, ghost-agent]").

(** The valid project with a capabilities file that its owner has made
    unreadable. *)
Definition unreadable_capabilities : filesystem :=
  of_entries (("project/demo/control/capabilities.yaml", File false "agents: [architect]")
              :: project_files "demo" "agents: [architect]").

(** The valid project with an empty [sprint.yaml]. *)
Definition empty_sprint : filesystem :=
  of_entries (("project/demo/control/sprint.yaml", File true "")
              :: project_files "demo" "agents: [architect]").

(** A valid project placed next to the projects directory, reached by the
    name [../outside]. *)
Definition outside_project : filesystem :=
  of_entries (project_files "../outside" "agents: [architect]").

(** The valid project in the middle of the loop scenario. *)
Definition lint_project : filesystem :=
  of_entries (("project/demo/control/workflow-state.json", File true lint_workflow_json)
              :: project_files "demo" "agents: [architect]").

(** The project of [tests/test_report_generation_exceptions.py]: a
    control directory with [sprint.yaml] only, and a decision log. *)
Definition newline : string := String "010"%char "".

Definition report_fixture : filesystem :=
  of_entries
    [("project", Directory);
     ("project/demo", Directory);
     ("project/demo/control", Directory);
     ("project/demo/control/sprint.yaml", File true ("goal: test" +:+ newline));
     ("memory-bank", Directory);
     ("memory-bank/decisionLog.md", File true ("# log" +:+ newline +:+ "entry"))].

End Spec.

(** ** Further vocabulary

    Measures and predicates for the properties of the scripts beyond the
    specification's claims. *)

Module Vocabulary.
Import Py FS Spec.

(** The count and the threshold an anomaly carries. *)
Definition count_of (a : Auditor.anomaly) : nat :=
  match a with
  | Auditor.HighInterventionRate _ count _ => count
  | Auditor.PotentialTaskLoop _ count _ => count
  end.

Definition threshold_of (a : Auditor.anomaly) : Z :=
  match a with
  | Auditor.HighInterventionRate _ _ threshold => threshold
  | Auditor.PotentialTaskLoop _ _ threshold => threshold
  end.

Definition is_high_intervention (a : Auditor.anomaly) : bool :=
  match a with
  | Auditor.HighInterventionRate _ _ _ => true
  | Auditor.PotentialTaskLoop _ _ _ => false
  end.

(** An anomaly raised against threshold [T]: it carries [T] and a count
    above it. *)
Definition above (T : Z) (a : Auditor.anomaly) : bool :=
  (threshold_of a =? T)%Z && (T <? Z.of_nat (count_of a))%Z.

(** The sum of the counts of a list of anomalies. *)
Definition total_count (l : list Auditor.anomaly) : nat :=
  sum_list_with count_of l.

(** *** The validator *)

(** Whether a required path is there, as [_check_path] tests it. *)
Definition present (fs : filesystem) (entry : string * bool) : bool :=
  if snd entry then isdir fs (fst entry) else isfile fs (fst entry).

(** The required paths of project [name] that are missing. *)
Definition missing_paths (fs : filesystem) (name : string) : list (string * bool) :=
  List.filter (fun entry => negb (present fs entry)) (required_paths name).

(** What [_check_path] prints for one path. *)
Definition check_lines (fs : filesystem) (entry : string * bool) : list Validator.line :=
  if present fs entry
  then [Validator.Status ("Checking path: " +:+ fst entry) true]
  else [Validator.Status ("Checking path: " +:+ fst entry) false;
        Validator.Error (Validator.NotFound (snd entry))].

(** What stage 1 prints for project [name]. *)
Definition existence_lines (fs : filesystem) (name : string) : list Validator.line :=
  Validator.Banner "1. Validating File & Directory Structure"
  :: flat_map (check_lines fs) (required_paths name).

(** Whether [.roomodes] passes stage 2: it can be read and holds more
    than white space. *)
Definition roomodes_passes (fs : filesystem) : bool :=
  match read_text fs ".roomodes" with
  | Ok content => negb (String.eqb (strip content) "")
  | Raise _ => false
  end.

(** Whether a mapping holds a non-empty list under [agents]. *)
Definition lists_agents (d : list (string * pyval)) : bool :=
  match dict_get "agents" d with
  | Some (PList (_ :: _)) => true
  | _ => false
  end.

(** The errors of opening a file and of reading it as text. *)
Definition read_error (e : exn) : bool :=
  match e with
  | FileNotFoundError _ | IsADirectoryError _ | NotADirectoryError _
  | PermissionError _ | UnicodeDecodeError => true
  | _ => false
  end.

(** What the files and the membership tests of the YAML stage raise and
    [except yaml.YAMLError] does not catch. *)
Definition escapes_yaml_stage (e : exn) : bool :=
  read_error e || match e with TypeError => true | _ => false end.

(** Whether [data_file] passes the JSON stage: both files can be read and
    parsed, and the instance conforms to the schema. *)
Definition json_passes `{libs : Libraries} (fs : filesystem)
    (self : Validator.ConfigValidator) (data_file schema_file : string) : bool :=
  match read_text fs (path_join (Validator.control_dir self) data_file),
        read_text fs (path_join (Validator.schema_dir self) schema_file) with
  | Ok data_text, Ok schema_text =>
      match json_load data_text, json_load schema_text with
      | Some instance, Some schema =>
          match jsonschema_validate instance schema with
          | Conforms => true
          | _ => false
          end
      | _, _ => false
      end
  | _, _ => false
  end.

(** The valid project with a [capabilities.yaml] that was saved in
    another encoding than that of the run. *)
Definition undecodable_capabilities : filesystem :=
  of_entries (("project/demo/control/capabilities.yaml", Undecodable)
              :: project_files "demo" "agents: [architect]").

(** The libraries on a capabilities file with a number among the agents,
    and a project with that file. *)
Definition numbered_libraries : Libraries :=
  {| yaml_safe_load text :=
       dict_get text
         [("agents: [architect, 7]",
           PDict [("agents", PList [PStr "architect"; PInt 7])])];
     json_load text := dict_get text sample_json;
     jsonschema_validate instance schema := Conforms |}.

Definition numbered_project : filesystem :=
  of_entries (project_files "demo" "agents: [architect, 7]").

(** A sprint file without its [goal] and [status]. *)
Definition partial_sprint_libraries : Libraries :=
  {| yaml_safe_load text :=
       dict_get text [("{sprint_id: S1}", PDict [("sprint_id", PStr "S1")])];
     json_load text := dict_get text sample_json;
     jsonschema_validate instance schema := Conforms |}.

Definition partial_sprint_project : filesystem :=
  of_entries (("project/demo/control/sprint.yaml", File true "{sprint_id: S1}")
              :: project_files "demo" "agents: [architect]").

(** *** The reporter *)

(** Lines 132-137 of [_print_report], below the heading of the section:
    what is printed for the decisions that [_load_data] kept. *)
Definition decisions_section (decisions : list string) : list string :=
  if bool_decide (decisions = [])
  then ["  No recent decisions logged."]
  else map (fun decision => "  - " +:+ decision)
           (List.filter (fun decision => negb (String.eqb decision "---")) decisions).

(** A [_print_report] that prints nothing and returns. *)
Definition silent_report (self : Reporter.ReportGenerator) (data : Reporter.ReportData)
  : list string * result unit := ([], Ok tt).

(** A project with the four files of the report; the log holds a heading,
    an entry, a separator and a blank line. *)
Definition reported_project : filesystem :=
  of_entries
    (("memory-bank/decisionLog.md",
      File true ("# Decisions" +:+ newline +:+ " chose sqlite " +:+ newline
                 +:+ "---" +:+ newline +:+ newline))
     :: project_files "demo" "agents: [architect]").

End Vocabulary.

(** * Properties *)

(** ** Facts about the [str] model *)

Module StrFacts.
Import Py Spec.

Lemma lower_char_idem c : lower_char (lower_char c) = lower_char c.
Proof. destruct c as [[] [] [] [] [] [] [] []]; reflexivity. Qed.

Lemma lower_idem s : lower (lower s) = lower s.
Proof. induction s as [|c s IH]; simpl; [done|]. by rewrite lower_char_idem, IH. Qed.

Lemma lower_length s : String.length (lower s) = String.length s.
Proof. induction s; simpl; auto. Qed.

Lemma app_length (s t : string) :
  String.length (s +:+ t) = String.length s + String.length t.
Proof. induction s; simpl; auto. Qed.

Lemma app_empty_r (s : string) : s +:+ "" = s.
Proof.
  induction s as [|c s IH]; [done|].
  change (String c (s +:+ "") = String c s). by rewrite IH.
Qed.

Lemma lowered_cons c s : lowered (String c s) <-> lower_char c = c /\ lowered s.
Proof.
  unfold lowered; simpl; split.
  - intros [= Hc Hs]. by rewrite Hc, Hs.
  - intros [-> ->]. done.
Qed.

Lemma lowered_app s t : lowered s -> lowered t -> lowered (s +:+ t).
Proof.
  induction s as [|c s IH]; [done|].
  intros [Hc Hs]%lowered_cons Ht. change (lowered (String c (s +:+ t))).
  apply lowered_cons. auto.
Qed.

Lemma lowered_remove_from old k s : lowered s -> lowered (remove_from old k s).
Proof.
  revert k. induction s as [|c s IH]; intros k Hs; [done|].
  apply lowered_cons in Hs as [Hc Hs]. simpl.
  destruct k; [|by apply IH].
  destruct (startswith old (String c s)); [by apply IH|].
  apply lowered_cons. auto.
Qed.

Lemma lowered_remove old s : lowered s -> lowered (remove old s).
Proof. destruct old; [done|]. apply lowered_remove_from. Qed.

Lemma lowered_split s : lowered s -> Forall lowered (split s).
Proof.
  induction s as [|c s IH]; intros Hs; simpl; [constructor|].
  apply lowered_cons in Hs as [Hc Hs]. specialize (IH Hs).
  destruct (is_space c); [done|].
  destruct (at_word_end s).
  - constructor; [|done]. by apply lowered_cons.
  - destruct (split s) as [|w ws]; constructor.
    + by apply lowered_cons.
    + constructor.
    + apply lowered_cons. split; [done|]. by inversion IH.
    + by inversion IH.
Qed.

Lemma lowered_join ws : Forall lowered ws -> lowered (join " " ws).
Proof.
  induction 1 as [|w ws Hw Hws IH]; [done|].
  unfold join in *. simpl. destruct ws as [|w' ws]; [done|].
  apply lowered_app; [done|]. apply lowered_app; [done|]. exact IH.
Qed.

Lemma split_words s : Forall word (split s).
Proof.
  induction s as [|c s IH]; simpl; [constructor|].
  destruct (is_space c) eqn:Hc; [done|].
  destruct (at_word_end s).
  - constructor; [|done]. split; [done|]. simpl. by rewrite Hc.
  - destruct (split s) as [|w ws]; constructor.
    + split; [done|]. simpl. by rewrite Hc.
    + constructor.
    + inversion IH as [|? ? [? Hw] ?]; subst. split; [done|].
      simpl. by rewrite Hc, Hw.
    + by inversion IH.
Qed.

Lemma split_word_app w rest :
  word w -> at_word_end rest = true -> split (w +:+ rest) = w :: split rest.
Proof.
  intros [Hne Hw] Hrest. induction w as [|c w IH]; [done|].
  simpl in Hw. apply andb_prop in Hw as [Hc Hw].
  apply negb_true_iff in Hc.
  change (split (String c (w +:+ rest)) = String c w :: split rest).
  simpl. rewrite Hc. destruct w as [|c' w].
  - change ("" +:+ rest) with rest. by rewrite Hrest.
  - assert (at_word_end (String c' w +:+ rest) = false) as ->.
    { simpl in Hw. apply andb_prop in Hw as [Hc' _].
      apply negb_true_iff in Hc'. exact Hc'. }
    rewrite IH; [done|done|done].
Qed.

Lemma split_join ws : Forall word ws -> split (join " " ws) = ws.
Proof.
  induction 1 as [|w ws Hw Hws IH]; [done|].
  unfold join in *. simpl. destruct ws as [|w' ws].
  - rewrite <- (app_empty_r w) at 1. by apply split_word_app.
  - rewrite (split_word_app w _ Hw); [|done].
    f_equal. change (split (String " " (String.concat " " (w' :: ws))))
      with (split (String.concat " " (w' :: ws))). exact IH.
Qed.

Lemma remove_from_absent old s :
  contains old s = false -> remove_from old 0 s = s.
Proof.
  induction s as [|c s IH]; [done|].
  cbn [contains remove_from]. intros [H1 H2]%orb_false_elim.
  rewrite H1. by rewrite IH.
Qed.

Lemma remove_absent old s : contains old s = false -> remove old s = s.
Proof. destruct old; [done|]. apply remove_from_absent. Qed.

Lemma remove_from_length old k s :
  String.length (remove_from old k s) <= String.length s.
Proof.
  revert k. induction s as [|c s IH]; intros k; simpl; [lia|].
  destruct k; [|specialize (IH k); lia].
  destruct (startswith old (String c s)).
  - specialize (IH (String.length old - 1)). lia.
  - specialize (IH 0). simpl. lia.
Qed.

Lemma remove_from_shrinks old s :
  old <> "" -> contains old s = true ->
  String.length (remove_from old 0 s) < String.length s.
Proof.
  intros Hold. induction s as [|c s IH].
  - by destruct old.
  - intros Hs. cbn [remove_from].
    destruct (startswith old (String c s)) eqn:Hpre.
    + pose proof (remove_from_length old (String.length old - 1) s).
      simpl. lia.
    + cbn [contains] in Hs. rewrite Hpre in Hs. simpl in Hs.
      specialize (IH Hs). simpl. lia.
Qed.

Lemma remove_shrinks old s :
  old <> "" -> contains old s = true ->
  String.length (remove old s) < String.length s.
Proof.
  intros Hold Hs. destruct old; [done|]. by apply remove_from_shrinks.
Qed.

Lemma concat_cons_length (w : string) ws :
  String.length (String.concat " " (w :: ws))
  = String.length w
    + match ws with [] => 0 | _ => 1 + String.length (String.concat " " ws) end.
Proof.
  destruct ws as [|w' ws]; simpl; [lia|].
  rewrite !app_length. simpl. lia.
Qed.

Lemma concat_take_length (ws : list string) n :
  String.length (String.concat " " (take n ws))
  <= String.length (String.concat " " ws).
Proof.
  revert n. induction ws as [|w ws IH]; intros [|n]; try (simpl; lia).
  change (take (S n) (w :: ws)) with (w :: take n ws).
  rewrite !concat_cons_length. specialize (IH n).
  destruct ws as [|w' ws]; [by destruct n|].
  destruct n as [|n]; [cbn [take]; lia|].
  change (take (S n) (w' :: ws)) with (w' :: take n ws) in *.
  cbv iota. lia.
Qed.

Lemma concat_split_length_strong s :
  String.length (String.concat " " (split s))
  + (if leading_space s then 1 else 0) <= String.length s.
Proof.
  induction s as [|c s IH]; [simpl; lia|].
  cbn [split leading_space String.length].
  destruct (is_space c); [lia|].
  destruct (at_word_end s) eqn:Hend.
  - rewrite concat_cons_length. simpl String.length at 1.
    destruct (split s) as [|w ws] eqn:Hsp; [lia|].
    destruct s as [|c' s]; [done|]. cbn [at_word_end] in Hend.
    cbn [leading_space] in IH. rewrite Hend in IH. cbn [String.length] in *. lia.
  - destruct (split s) as [|w ws]; [simpl; lia|].
    rewrite concat_cons_length in *. cbn [String.length]. lia.
Qed.

Lemma concat_split_length s :
  String.length (String.concat " " (split s)) <= String.length s.
Proof. pose proof (concat_split_length_strong s). lia. Qed.
End StrFacts.

(** ** Title normalisation *)

Module NormalizeFacts.
Import Py Spec StrFacts Auditor.

Lemma normalize_lowered s : lowered (normalize s).
Proof.
  unfold normalize. apply lowered_join, Forall_take, lowered_split.
  apply lowered_remove. unfold lowered. apply lower_idem.
Qed.

(** A normalised title is at most four words joined by single spaces. *)
Lemma normalize_words s :
  exists ws, Forall word ws /\ length ws <= 4 /\ normalize s = join " " ws.
Proof.
  exists (take 4 (split (remove "remediation:" (lower s)))).
  split; [apply Forall_take, split_words|].
  split; [rewrite length_take; lia|done].
Qed.

(** Without the marker in it, a normalised title is a fixed point. *)
Lemma normalize_fixed s :
  contains "remediation:" (normalize s) = false ->
  normalize (normalize s) = normalize s.
Proof.
  intros Hfree.
  destruct (normalize_words s) as (ws & Hws & Hlen & Hs).
  unfold normalize at 1.
  rewrite (normalize_lowered s), (remove_absent _ _ Hfree).
  rewrite Hs, (split_join ws Hws). by rewrite take_ge.
Qed.

(** With the marker in it, normalising once more makes it shorter. *)
Lemma normalize_shrinks s :
  contains "remediation:" (normalize s) = true ->
  String.length (normalize (normalize s)) < String.length (normalize s).
Proof.
  intros Hin. unfold normalize at 1.
  rewrite (normalize_lowered s). unfold join.
  eapply Nat.le_lt_trans; [apply concat_take_length|].
  eapply Nat.le_lt_trans; [apply concat_split_length|].
  by apply remove_shrinks.
Qed.
End NormalizeFacts.

(** C6, as stated, fails: stripping the marker from
    ["remediremediation:ation:"] leaves the marker itself, which a second
    normalisation strips again. *)
Lemma C6_counterexample :
  Auditor.normalize (Auditor.normalize "remediremediation:ation:")
  <> Auditor.normalize "remediremediation:ation:".
Proof. vm_compute. discriminate. Qed.

(** C6, amended: normalising a normalised title changes nothing exactly
    when the normalised title no longer contains the marker
    ["remediation:"]; for every other title a second pass strips the marker
    that the first pass left behind. *)
Theorem C6_normalize_idempotent_iff (title : string) :
  Auditor.normalize (Auditor.normalize title) = Auditor.normalize title
  <-> Py.contains "remediation:" (Auditor.normalize title) = false.
Proof.
  split.
  - intros Heq.
    destruct (Py.contains "remediation:" (Auditor.normalize title)) eqn:Hin; [|done].
    pose proof (NormalizeFacts.normalize_shrinks title Hin) as Hlt.
    rewrite Heq in Hlt. lia.
  - apply NormalizeFacts.normalize_fixed.
Qed.

(** The titles of the specification's scenario are fixed points. *)
Example normalize_scenario_title :
  Auditor.normalize "Remediation: Fix lint errors in module X" = "fix lint errors in"
  /\ Auditor.normalize "fix lint errors in" = "fix lint errors in".
Proof. split; reflexivity. Qed.

(** ** Counters *)

Section CounterFacts.
Import Py.
Context {K : Type} (eqb : K -> K -> bool).
Hypothesis eqb_sym : forall a b, eqb a b = eqb b a.
Hypothesis eqb_trans : forall a b c, eqb a b = true -> eqb b c = true -> eqb a c = true.

(** The items of a counter whose key equals [k]. *)
Let items_for (k : K) (c : list (K * nat)) : list (K * nat) :=
  List.filter (fun item => eqb (fst item) k) c.

Lemma items_for_counter_add x k c :
  items_for k (counter_add eqb x c)
  = if eqb x k then
      match items_for k c with
      | [] => [(x, 1)]
      | (k0, n) :: rest => (k0, S n) :: rest
      end
    else items_for k c.
Proof using eqb_sym eqb_trans.
  induction c as [|[k' n] c IH]; simpl.
  - by destruct (eqb x k).
  - destruct (eqb k' x) eqn:Hx; simpl.
    + destruct (eqb x k) eqn:Hk.
      * by rewrite (eqb_trans _ _ _ Hx Hk).
      * destruct (eqb k' k) eqn:Hk'; [|done].
        rewrite eqb_sym in Hx. by rewrite (eqb_trans _ _ _ Hx Hk') in Hk.
    + rewrite IH. destruct (eqb x k) eqn:Hk; [|done].
      destruct (eqb k' k) eqn:Hk'; [|done].
      rewrite eqb_sym in Hk. by rewrite (eqb_trans _ _ _ Hk' Hk) in Hx.
Qed.

Lemma items_for_fold k keys c :
  items_for k (fold_left (fun c x => counter_add eqb x c) keys c)
  = match items_for k c with
    | [] =>
        match List.find (fun x => eqb x k) keys with
        | None => []
        | Some k0 => [(k0, length (List.filter (fun x => eqb x k) keys))]
        end
    | (k0, n) :: rest =>
        (k0, n + length (List.filter (fun x => eqb x k) keys)) :: rest
    end.
Proof using eqb_sym eqb_trans.
  revert c. induction keys as [|x keys IH]; intros c; simpl.
  - destruct (items_for k c) as [|[k0 n] rest]; [done|]. by rewrite Nat.add_0_r.
  - rewrite IH, items_for_counter_add.
    destruct (eqb x k); [|done].
    destruct (items_for k c) as [|[k0 n] rest]; simpl; [done|].
    by rewrite Nat.add_succ_r.
Qed.

(** A counter has one item per class of equal keys: the first key of
    the class, with the size of the class. *)
Lemma Counter_items_for k keys :
  List.filter (fun item => eqb (fst item) k) (Counter eqb keys)
  = match List.find (fun x => eqb x k) keys with
    | None => []
    | Some k0 => [(k0, length (List.filter (fun x => eqb x k) keys))]
    end.
Proof using eqb_sym eqb_trans. apply (items_for_fold k keys []). Qed.

Lemma find_none_count (k : K) keys :
  List.find (fun x => eqb x k) keys = None
  <-> length (List.filter (fun x => eqb x k) keys) = 0.
Proof using Type.
  induction keys as [|x keys IH]; simpl; [done|].
  destruct (eqb x k); simpl; [split; discriminate|done].
Qed.
End CounterFacts.

(** ** The two checks of the auditor *)

Module AuditorFacts.
Import Py FS Spec Auditor.

Lemma key_eqb_sym a b : key_eqb a b = key_eqb b a.
Proof.
  destruct a as [|[]| |], b as [|[]| |]; simpl; try done.
  - apply Z.eqb_sym.
  - apply String.eqb_sym.
Qed.

Lemma key_eqb_trans a b c :
  key_eqb a b = true -> key_eqb b c = true -> key_eqb a c = true.
Proof.
  destruct a as [|[]| |], b as [|[]| |], c as [|[]| |];
    cbn [key_eqb int_of_bool Bool.eqb]; try done;
    rewrite ?Z.eqb_eq, ?String.eqb_eq; intros; subst; try done; lia.
Qed.

Lemma key_eqb_str s k : key_eqb k (HStr s) = true -> k = HStr s.
Proof. destruct k; simpl; try done. by intros ->%String.eqb_eq. Qed.

Lemma key_eqb_none k : key_eqb k HNone = true -> k = HNone.
Proof. by destruct k. Qed.

Lemma string_eqb_trans (a b c : string) :
  String.eqb a b = true -> String.eqb b c = true -> String.eqb a c = true.
Proof. rewrite !String.eqb_eq. congruence. Qed.

Lemma existsb_eqb_elem (a : string) l :
  existsb (fun o => String.eqb o a) l = bool_decide (a ∈ l).
Proof.
  induction l as [|o l IH]; cbn [existsb].
  - symmetry. apply bool_decide_eq_false. by intros ?%elem_of_nil.
  - rewrite IH. destruct (String.eqb_spec o a) as [->|Hne]; cbn [orb].
    + symmetry. apply bool_decide_eq_true. left.
    + apply bool_decide_ext. rewrite elem_of_cons. intuition congruence.
Qed.

(** On a task of the data model the script's accessors compute the
    fields of the task and never raise. *)
Lemma is_intervention_task_valid task :
  valid_task task = true -> is_intervention_task task = Ok (intervention_task task).
Proof.
  destruct task as [| | | | |d]; try done.
  unfold valid_task, is_intervention_task, intervention_task, by_oversight_agent,
    marked, assignee, title_of, get.
  intros [Ht Ha]%andb_prop. cbn [mbind result_bind].
  destruct (dict_get "assigned_to" d) as [[| | |a| |]|]; try done;
    destruct (dict_get "title" d) as [[| | |t| |]|]; try done;
    cbn [from_option id eq_str existsb orb str_in oversight_agents];
    try reflexivity;
    rewrite <- (existsb_eqb_elem a oversight_agents); cbn [existsb oversight_agents];
    by destruct (_ || _).
Qed.

Lemma creator_valid task :
  valid_task task = true -> creator task = Ok (assignee task).
Proof.
  destruct task as [| | | | |d]; try done.
  unfold valid_task, creator, assignee, get.
  intros [_ Ha]%andb_prop. cbn [mbind result_bind].
  by destruct (dict_get "assigned_to" d) as [[| | |a| |]|].
Qed.

Lemma normalized_title_valid task :
  valid_task task = true -> normalized_title task = Ok (normalize (title_of task)).
Proof.
  destruct task as [| | | | |d]; try done.
  unfold valid_task, normalized_title, title_of, get.
  intros [Ht _]%andb_prop. cbn [mbind result_bind].
  by destruct (dict_get "title" d) as [[| | |t| |]|].
Qed.

Lemma filterM_pure {A} (p : A -> result bool) (q : A -> bool) l :
  (forall x, x ∈ l -> p x = Ok (q x)) -> filterM p l = Ok (List.filter q l).
Proof.
  induction l as [|x l IH]; intros Hp; [done|].
  cbn [filterM List.filter]. rewrite (Hp x) by left.
  rewrite IH by (intros; apply Hp; by right).
  cbn [mbind result_bind]. by destruct (q x).
Qed.

Lemma mapM_pure {A B} (f : A -> result B) (g : A -> B) l :
  (forall x, x ∈ l -> f x = Ok (g x)) -> mapM f l = Ok (map g l).
Proof.
  induction l as [|x l IH]; intros Hf; [done|].
  cbn [mapM map]. rewrite (Hf x) by left.
  cbn [mbind result_bind]. fold (mapM f l).
  by rewrite IH by (intros; apply Hf; by right).
Qed.

Lemma forallb_elem {A} (p : A -> bool) l x :
  forallb p l = true -> x ∈ l -> p x = true.
Proof.
  intros Hall Hx. apply list_elem_of_In in Hx.
  by apply (proj1 (forallb_forall p l) Hall).
Qed.

Lemma elem_filter_valid (q : pyval -> bool) tasks x :
  forallb valid_task tasks = true -> x ∈ List.filter q tasks -> valid_task x = true.
Proof.
  intros Hall Hx. apply list_elem_of_In, filter_In in Hx as [Hx _].
  apply (forallb_elem _ _ _ Hall). by apply list_elem_of_In.
Qed.

Lemma with_anomalies_twice self l l' :
  with_anomalies (with_anomalies self l) l' = with_anomalies self l'.
Proof. done. Qed.

Lemma with_anomalies_same self : with_anomalies self (anomalies self) = self.
Proof. by destruct self. Qed.

(** The loop over the items of a counter appends, in order, one anomaly
    per item whose count exceeds the threshold. *)
Lemma append_loop {K} (threshold_of : ActionsAuditor -> Z)
    (make : K -> nat -> Z -> anomaly) items self :
  (forall s l, threshold_of (with_anomalies s l) = threshold_of s) ->
  fold_left
    (fun self (item : K * nat) =>
       let '(key, count) := item in
       if (threshold_of self <? Z.of_nat count)%Z
       then append (make key count (threshold_of self)) self
       else self)
    items self
  = with_anomalies self
      (anomalies self
       ++ flat_map
            (fun item : K * nat =>
               if (threshold_of self <? Z.of_nat (snd item))%Z
               then [make (fst item) (snd item) (threshold_of self)]
               else [])
            items).
Proof.
  intros Hthr. revert self.
  induction items as [|[key count] items IH]; intros self.
  - simpl. by rewrite app_nil_r, with_anomalies_same.
  - cbn [fold_left flat_map fst snd].
    destruct (threshold_of self <? Z.of_nat count)%Z.
    + rewrite IH. unfold append. rewrite Hthr, with_anomalies_twice.
      cbn [anomalies with_anomalies]. by rewrite <- app_assoc.
    + by rewrite IH.
Qed.

(** What [_check_high_intervention_rate] does on tasks of the data model. *)
Lemma check_high_intervention_rate_valid self tasks :
  forallb valid_task tasks = true ->
  _check_high_intervention_rate self tasks
  = Ok (with_anomalies self
          (anomalies self
           ++ high_intervention_anomalies (INTERVENTION_THRESHOLD self) tasks)).
Proof.
  intros Hvalid. unfold _check_high_intervention_rate.
  rewrite (filterM_pure _ intervention_task)
    by (intros; by apply is_intervention_task_valid, (forallb_elem _ tasks)).
  cbn [mbind result_bind].
  rewrite (mapM_pure _ assignee)
    by (intros; by eapply creator_valid, elem_filter_valid).
  cbn [mbind result_bind]. f_equal.
  by rewrite (append_loop INTERVENTION_THRESHOLD HighInterventionRate).
Qed.

(** What [_check_task_loops] does on tasks of the data model. *)
Lemma check_task_loops_valid self tasks :
  forallb valid_task tasks = true ->
  _check_task_loops self tasks
  = Ok (with_anomalies self
          (anomalies self ++ task_loop_anomalies (LOOP_THRESHOLD self) tasks)).
Proof.
  intros Hvalid. unfold _check_task_loops.
  rewrite (mapM_pure _ (fun task => normalize (title_of task)))
    by (intros; by apply normalized_title_valid, (forallb_elem _ tasks)).
  cbn [mbind result_bind]. f_equal.
  by rewrite (append_loop LOOP_THRESHOLD PotentialTaskLoop).
Qed.

Lemma filter_map_length {A B} (p : B -> bool) (f : A -> B) l :
  length (List.filter p (map f l)) = length (List.filter (fun x => p (f x)) l).
Proof.
  induction l as [|x l IH]; [done|].
  cbn [map List.filter]. destruct (p (f x)); simpl; by rewrite IH.
Qed.

Lemma filter_filter_and {A} (p q : A -> bool) l :
  List.filter p (List.filter q l) = List.filter (fun x => q x && p x) l.
Proof.
  induction l as [|x l IH]; [done|].
  cbn [List.filter]. destruct (q x); cbn [List.filter andb]; [|done].
  destruct (p x); by rewrite IH.
Qed.

(** Filtering the anomalies of a counter is filtering its items. *)
Lemma filter_anomalies {K} (p : anomaly -> bool) (q : K -> bool)
    (make : K -> nat -> Z -> anomaly) (T : Z) (items : list (K * nat)) :
  (forall k n, p (make k n T) = q k) ->
  List.filter p
    (flat_map (fun item : K * nat =>
                 if (T <? Z.of_nat (snd item))%Z
                 then [make (fst item) (snd item) T] else [])
              items)
  = flat_map (fun item : K * nat =>
                if (T <? Z.of_nat (snd item))%Z
                then [make (fst item) (snd item) T] else [])
             (List.filter (fun item => q (fst item)) items).
Proof.
  intros Hp. induction items as [|[k n] items IH]; [done|].
  cbn [flat_map List.filter fst snd].
  rewrite List.filter_app, IH.
  destruct (q k) eqn:Hq; cbn [flat_map fst snd];
    destruct (T <? Z.of_nat n)%Z; cbn [List.filter app]; by rewrite ?Hp, ?Hq.
Qed.

(** The anomalies of the intervention check that name one agent. *)
Lemma high_intervention_for_agent T tasks k :
  (forall k', key_eqb k' k = true -> k' = k) ->
  List.filter (names_agent k) (high_intervention_anomalies T tasks)
  = if (1 <=? intervention_count k tasks)
       && (T <? Z.of_nat (intervention_count k tasks))%Z
    then [HighInterventionRate k (intervention_count k tasks) T]
    else [].
Proof.
  intros Hk. unfold high_intervention_anomalies.
  rewrite (filter_anomalies _ (fun k' => key_eqb k' k)) by done.
  rewrite (Counter_items_for key_eqb key_eqb_sym key_eqb_trans).
  assert (length (List.filter (fun x => key_eqb x k)
                    (map assignee (List.filter intervention_task tasks)))
          = intervention_count k tasks) as Hcount.
  { unfold intervention_count. by rewrite filter_map_length, filter_filter_and. }
  destruct (List.find _ _) as [k0|] eqn:Hfind.
  - assert (k0 = k) as -> by (by apply Hk, (find_some _ _ Hfind)).
    assert (intervention_count k tasks <> 0) as Hpos.
    { rewrite <- Hcount. intros Hz%find_none_count. congruence. }
    rewrite Hcount. cbn [flat_map fst snd].
    destruct (Nat.leb_spec 1 (intervention_count k tasks)); [|lia].
    cbn [andb]. rewrite app_nil_r. done.
  - apply find_none_count in Hfind. rewrite Hcount in Hfind. by rewrite Hfind.
Qed.

(** The anomalies of the loop check for one normalised title. *)
Lemma task_loop_for_title L tasks key :
  List.filter (names_title key) (task_loop_anomalies L tasks)
  = if (1 <=? title_count key tasks) && (L <? Z.of_nat (title_count key tasks))%Z
    then [PotentialTaskLoop key (title_count key tasks) L]
    else [].
Proof.
  unfold task_loop_anomalies.
  rewrite (filter_anomalies _ (fun t => String.eqb t key)) by done.
  rewrite (Counter_items_for String.eqb String.eqb_sym string_eqb_trans).
  assert (length (List.filter (fun x => String.eqb x key)
                    (map (fun task => normalize (title_of task)) tasks))
          = title_count key tasks) as Hcount.
  { unfold title_count. by rewrite filter_map_length. }
  destruct (List.find _ _) as [k0|] eqn:Hfind.
  - assert (k0 = key) as ->.
    { apply String.eqb_eq. by apply (find_some _ _ Hfind). }
    assert (title_count key tasks <> 0) as Hpos.
    { rewrite <- Hcount. intros Hz%find_none_count. congruence. }
    rewrite Hcount. cbn [flat_map fst snd].
    destruct (Nat.leb_spec 1 (title_count key tasks)); [|lia].
    cbn [andb]. rewrite app_nil_r. done.
  - apply find_none_count in Hfind. rewrite Hcount in Hfind. by rewrite Hfind.
Qed.

Lemma title_count_app key l1 l2 :
  title_count key (l1 ++ l2) = title_count key l1 + title_count key l2.
Proof. unfold title_count. by rewrite List.filter_app, length_app. Qed.

(** One anomaly or none, decided by the count. *)
Lemma one_or_none {A} (a : A) (n : nat) (T : Z) :
  (0 <= T)%Z ->
  length (if (1 <=? n) && (T <? Z.of_nat n)%Z then [a] else []) = 1
  <-> (T < Z.of_nat n)%Z.
Proof.
  intros HT. destruct (Nat.leb_spec 1 n); destruct (Z.ltb_spec T (Z.of_nat n));
    cbn [andb length]; split; intros; try done; lia.
Qed.

(** The [try] block of [run_audit] on a workflow file of the data model:
    both checks run, in order, over the concatenation of the buckets. *)
Lemma audit_body_valid_workflow `{libs : Libraries} fs self text workflow
    pending active completed :
  path_exists fs (workflow_file self) = true ->
  read_text fs (workflow_file self) = Ok text ->
  json_load text = Some (PDict workflow) ->
  from_option id (PList []) (dict_get "pending_tasks" workflow) = PList pending ->
  from_option id (PList []) (dict_get "active_tasks" workflow) = PList active ->
  from_option id (PList []) (dict_get "completed_tasks" workflow) = PList completed ->
  let tasks := pending ++ active ++ completed in
  tasks <> [] ->
  forallb valid_task tasks = true ->
  audit_body fs self
  = Ok (_print_report
          (with_anomalies self
             (anomalies self
              ++ high_intervention_anomalies (INTERVENTION_THRESHOLD self) tasks
              ++ task_loop_anomalies (LOOP_THRESHOLD self) tasks))).
Proof.
  intros Hexists Hread Hload Hp Ha Hc tasks Hne Hvalid.
  unfold audit_body. rewrite Hexists, Hread. cbn [negb mbind result_bind].
  rewrite Hload.
  change (from_option Ok (Raise JSONDecodeError) (Some (PDict workflow)))
    with (Ok (PDict workflow)).
  cbn [get mbind result_bind]. rewrite Hp, Ha, Hc.
  cbn [add mbind result_bind truthy]. rewrite <- app_assoc. fold tasks.
  rewrite bool_decide_eq_false_2 by done. cbn [negb iterate mbind result_bind].
  rewrite (check_high_intervention_rate_valid self tasks Hvalid).
  cbn [mbind result_bind].
  rewrite (check_task_loops_valid _ tasks Hvalid).
  cbn [LOOP_THRESHOLD anomalies with_anomalies]. by rewrite <- app_assoc.
Qed.

End AuditorFacts.

(** ** Claims about the auditor's checks *)

Section AuditorClaims.
Import Py FS Spec Auditor AuditorFacts.

(** C4, as stated, fails for a negative threshold: an agent without any
    intervention task has count [0 > -1], yet the counter has no item for
    it and no anomaly names it. *)
Lemma C4_counterexample :
  let self := init "demo" (-1) 2 in
  exists self',
    _check_high_intervention_rate self one_developer_task = Ok self'
    /\ ~ (length (List.filter (names_agent (HStr qa_coordinator)) (anomalies self')) = 1
          <-> (INTERVENTION_THRESHOLD self
               < Z.of_nat (intervention_count (HStr qa_coordinator) one_developer_task))%Z).
Proof.
  eexists. split; [reflexivity|].
  vm_compute. intros [_ H]. by specialize (H eq_refl).
Qed.

(** C4, amended: on every workflow state of the data model, for every
    threshold [T] and every agent, the intervention check appends exactly
    one High Intervention Rate anomaly naming the agent, and carrying the
    agent's count [n] of intervention tasks, when [n >= 1] and [n > T], and
    none naming it otherwise; in particular a count equal to [T] gives
    none.  For [T >= 0] that is: exactly one if and only if [n > T]. *)
Theorem C4_high_intervention_rate :
  forall (self : ActionsAuditor) (tasks : list pyval) (agent : string),
    forallb valid_task tasks = true ->
    let T := INTERVENTION_THRESHOLD self in
    let n := intervention_count (HStr agent) tasks in
    exists new,
      _check_high_intervention_rate self tasks
      = Ok (with_anomalies self (anomalies self ++ new))
      /\ List.filter (names_agent (HStr agent)) new
         = (if (1 <=? n) && (T <? Z.of_nat n)%Z
            then [HighInterventionRate (HStr agent) n T] else [])
      /\ ((0 <= T)%Z ->
          (length (List.filter (names_agent (HStr agent)) new) = 1
           <-> (T < Z.of_nat n)%Z)).
Proof.
  intros self tasks agent Hvalid T n.
  exists (high_intervention_anomalies T tasks).
  split; [by apply check_high_intervention_rate_valid|].
  pose proof (high_intervention_for_agent T tasks (HStr agent)
                (key_eqb_str agent)) as Hfilter.
  fold n in Hfilter. split; [done|]. rewrite Hfilter. apply one_or_none.
Qed.

Lemma C4_witness :
  exists new,
    _check_high_intervention_rate (init "demo" 3 2) four_qa_tasks
    = Ok (with_anomalies (init "demo" 3 2) (anomalies (init "demo" 3 2) ++ new))
    /\ List.filter (names_agent (HStr qa_coordinator)) new
       = [HighInterventionRate (HStr qa_coordinator) 4 3]
    /\ (length (List.filter (names_agent (HStr qa_coordinator)) new) = 1
        <-> (3 < 4)%Z).
Proof.
  destruct (C4_high_intervention_rate (init "demo" 3 2) four_qa_tasks
              qa_coordinator eq_refl) as (new & Hrun & Hnew & Hiff).
  exists new. split; [exact Hrun|]. split; [exact Hnew|].
  apply Hiff. vm_compute. discriminate.
Defined.

(** The scenario of the specification, rendered as the script stores it. *)
Example four_qa_tasks_report :
  match _check_high_intervention_rate (init "demo" 3 2) four_qa_tasks with
  | Ok self => map to_dict (anomalies self)
  | Raise _ => []
  end
  = [ {| type := "High Intervention Rate";
         details := "Agent 'quality-assurance-coordinator' has created 4 intervention tasks, exceeding the threshold of 3.";
         recommendation := "Review this agent's tasks to identify a potential root cause for repeated quality/debt issues." |} ].
Proof. vm_compute. reflexivity. Qed.

(** Three tasks of the coordinator and threshold 3: nothing is reported. *)
Example three_qa_tasks_report :
  _check_high_intervention_rate (init "demo" 3 2) (take 4 four_qa_tasks)
  = Ok (init "demo" 3 2).
Proof. vm_compute. reflexivity. Qed.

(** Outside the data model the check can raise: a [null] title is not
    a container. *)
Example null_title_raises :
  _check_high_intervention_rate (init "demo" 3 2) [PDict [("title", PNone)]]
  = Raise TypeError.
Proof. reflexivity. Qed.

(** C5, as stated, fails for a negative threshold: a key that no title
    normalises to has count [0 > -1] and no anomaly. *)
Lemma C5_counterexample :
  let self := init "demo" 3 (-1) in
  exists self',
    _check_task_loops self one_developer_task = Ok self'
    /\ ~ (length (List.filter (names_title "fix lint errors in") (anomalies self')) = 1
          <-> (LOOP_THRESHOLD self
               < Z.of_nat (title_count "fix lint errors in" one_developer_task))%Z).
Proof.
  eexists. split; [reflexivity|].
  vm_compute. intros [_ H]. by specialize (H eq_refl).
Qed.

(** C5, amended: on every workflow state of the data model, for every
    threshold [L] and every key, the loop check over the three buckets
    appends exactly one Potential Task Loop anomaly for the key, carrying
    the number [n] of tasks of all buckets whose normalised title is the
    key, when [n >= 1] and [n > L], and none for it otherwise.  For
    [L >= 0] that is: exactly one if and only if [n > L]. *)
Theorem C5_task_loops :
  forall (self : ActionsAuditor) (pending active completed : list pyval)
         (key : string),
    forallb valid_task (pending ++ active ++ completed) = true ->
    let L := LOOP_THRESHOLD self in
    let n := title_count key pending + title_count key active
             + title_count key completed in
    exists new,
      _check_task_loops self (pending ++ active ++ completed)
      = Ok (with_anomalies self (anomalies self ++ new))
      /\ List.filter (names_title key) new
         = (if (1 <=? n) && (L <? Z.of_nat n)%Z
            then [PotentialTaskLoop key n L] else [])
      /\ ((0 <= L)%Z ->
          (length (List.filter (names_title key) new) = 1 <-> (L < Z.of_nat n)%Z)).
Proof.
  intros self pending active completed key Hvalid L n.
  exists (task_loop_anomalies L (pending ++ active ++ completed)).
  split; [by apply check_task_loops_valid|].
  pose proof (task_loop_for_title L (pending ++ active ++ completed) key) as Hfilter.
  rewrite !title_count_app, Nat.add_assoc in Hfilter. fold n in Hfilter.
  split; [done|]. rewrite Hfilter. apply one_or_none.
Qed.

Lemma C5_witness :
  exists new,
    _check_task_loops (init "demo" 3 2) (lint_pending ++ lint_active ++ lint_completed)
    = Ok (with_anomalies (init "demo" 3 2) (anomalies (init "demo" 3 2) ++ new))
    /\ List.filter (names_title "fix lint errors in") new
       = [PotentialTaskLoop "fix lint errors in" 3 2]
    /\ (length (List.filter (names_title "fix lint errors in") new) = 1
        <-> (2 < 3)%Z).
Proof.
  destruct (C5_task_loops (init "demo" 3 2) lint_pending lint_active lint_completed
              "fix lint errors in" eq_refl) as (new & Hrun & Hnew & Hiff).
  exists new. split; [exact Hrun|]. split; [exact Hnew|].
  apply Hiff. vm_compute. discriminate.
Defined.

(** The three titles of the scenario collapse to one key and one anomaly. *)
Example lint_tasks_report :
  _check_task_loops (init "demo" 3 2) (lint_pending ++ lint_active ++ lint_completed)
  = Ok (with_anomalies (init "demo" 3 2)
          [PotentialTaskLoop "fix lint errors in" 3 2]).
Proof. vm_compute. reflexivity. Qed.

(** The loop scenario through the [try] block of [run_audit]: the file
    is read, both checks run and the summary lists the one anomaly. *)
Example lint_project_audit :
  printed <$> match audit_body (libs:=sample_libraries) lint_project (init "demo" 3 2) with
              | Ok self => Some self
              | Raise _ => None
              end
  = Some [AuditSummary [PotentialTaskLoop "fix lint errors in" 3 2]].
Proof. vm_compute. reflexivity. Qed.

(** C10, as stated, fails for a negative threshold: with no task that
    qualifies there are still more than [-1] of them, and nothing is
    grouped under [None]. *)
Lemma C10_counterexample :
  let self := init "demo" (-1) 2 in
  let tasks := [unassigned_task "Add login page"] in
  (INTERVENTION_THRESHOLD self < Z.of_nat (unassigned_marked tasks))%Z
  /\ exists self',
       _check_high_intervention_rate self tasks = Ok self'
       /\ List.filter (names_agent HNone) (anomalies self') = [].
Proof. split; [done|]. eexists. split; reflexivity. Qed.

Lemma lacks_title task :
  valid_task task = true -> lacks "title" task = true ->
  get task "title" (PStr "") = Ok (PStr "").
Proof.
  destruct task as [| | | | |d]; try done. intros _. cbn [lacks get].
  destruct (dict_get "title" d) eqn:E; [|done].
  intros H. apply negb_true_iff, bool_decide_eq_false in H.
  destruct H. by eexists.
Qed.

Lemma lacks_assigned_to task :
  valid_task task = true -> lacks "assigned_to" task = true ->
  creator task = Ok HNone /\ assignee task = HNone.
Proof.
  destruct task as [| | | | |d]; try done. intros _.
  unfold creator. cbn [lacks get assignee].
  destruct (dict_get "assigned_to" d) eqn:E; [|done].
  intros H. apply negb_true_iff, bool_decide_eq_false in H.
  destruct H. by eexists.
Qed.

Lemma filter_length_le {A} (p q : A -> bool) l :
  (forall x, x ∈ l -> p x = true -> q x = true) ->
  length (List.filter p l) <= length (List.filter q l).
Proof.
  induction l as [|x l IH]; intros Hpq; [done|].
  assert (length (List.filter p l) <= length (List.filter q l)) as Hle.
  { apply IH. intros; apply Hpq; [by right|done]. }
  cbn [List.filter]. destruct (p x) eqn:Hp.
  - rewrite (Hpq x) by (done || left). simpl. lia.
  - destruct (q x); simpl; lia.
Qed.

Lemma unassigned_marked_le tasks :
  forallb valid_task tasks = true ->
  unassigned_marked tasks <= intervention_count HNone tasks.
Proof.
  intros Hvalid. apply filter_length_le. intros task Hin [Hl Hm]%andb_prop.
  destruct (lacks_assigned_to task (forallb_elem _ _ _ Hvalid Hin) Hl) as [_ ->].
  unfold intervention_task. by rewrite Hm, orb_true_r.
Qed.

(** C10, amended: on every workflow state of the data model neither check
    raises when tasks lack [title] or [assigned_to]; a missing title reads
    as the empty string, a missing assignee as [None]; and when at least
    one task, and more than the threshold [T], are intervention tasks
    through the title marker without [assigned_to], exactly one High
    Intervention Rate anomaly names [None], with the count of all
    intervention tasks grouped under [None]. *)
Theorem C10_tasks_without_fields :
  forall (self : ActionsAuditor) (tasks : list pyval),
    forallb valid_task tasks = true ->
    let T := INTERVENTION_THRESHOLD self in
    let m := unassigned_marked tasks in
    let n := intervention_count HNone tasks in
    (forall task, task ∈ tasks -> lacks "title" task = true ->
                  get task "title" (PStr "") = Ok (PStr ""))
    /\ (forall task, task ∈ tasks -> lacks "assigned_to" task = true ->
                     creator task = Ok HNone)
    /\ exists new self',
         _check_high_intervention_rate self tasks
         = Ok (with_anomalies self (anomalies self ++ new))
         /\ _check_task_loops (with_anomalies self (anomalies self ++ new)) tasks
            = Ok self'
         /\ m <= n
         /\ (1 <= m -> (T < Z.of_nat m)%Z ->
             List.filter (names_agent HNone) new = [HighInterventionRate HNone n T]).
Proof.
  intros self tasks Hvalid T m n.
  split; [|split].
  - intros task Hin. by apply lacks_title, (forallb_elem _ tasks).
  - intros task Hin Hl.
    by apply (lacks_assigned_to task (forallb_elem _ _ _ Hvalid Hin) Hl).
  - exists (high_intervention_anomalies T tasks). eexists.
    split; [by apply check_high_intervention_rate_valid|].
    split; [by apply check_task_loops_valid|].
    pose proof (unassigned_marked_le tasks Hvalid) as Hle. fold m n in Hle.
    split; [done|]. intros Hm HT.
    rewrite (high_intervention_for_agent T tasks HNone key_eqb_none). fold n.
    destruct (Nat.leb_spec 1 n); [|lia].
    destruct (Z.ltb_spec T (Z.of_nat n)); [done|lia].
Qed.

Lemma C10_witness :
  get (PDict []) "title" (PStr "") = Ok (PStr "")
  /\ creator (PDict []) = Ok HNone
  /\ exists new self',
       _check_high_intervention_rate (init "demo" 1 2) unassigned_remediations
       = Ok (with_anomalies (init "demo" 1 2) (anomalies (init "demo" 1 2) ++ new))
       /\ _check_task_loops
            (with_anomalies (init "demo" 1 2) (anomalies (init "demo" 1 2) ++ new))
            unassigned_remediations
          = Ok self'
       /\ List.filter (names_agent HNone) new = [HighInterventionRate HNone 2 1].
Proof.
  destruct (C10_tasks_without_fields (init "demo" 1 2) unassigned_remediations
              eq_refl) as (Htitle & Hcreator & new & self' & Hrun & Hloops & _ & Hnew).
  assert (PDict [] ∈ unassigned_remediations) as Hin by (right; left).
  split; [by apply Htitle|]. split; [by apply Hcreator|].
  exists new, self'. split; [exact Hrun|]. split; [exact Hloops|].
  apply Hnew; [vm_compute; lia|vm_compute; reflexivity].
Defined.

(** The anomaly for unassigned remediation tasks, as the script stores it. *)
Example unassigned_remediations_report :
  match _check_high_intervention_rate (init "demo" 1 2) unassigned_remediations with
  | Ok self => map to_dict (anomalies self)
  | Raise _ => []
  end
  = [ {| type := "High Intervention Rate";
         details := "Agent 'None' has created 2 intervention tasks, exceeding the threshold of 1.";
         recommendation := "Review this agent's tasks to identify a potential root cause for repeated quality/debt issues." |} ].
Proof. vm_compute. reflexivity. Qed.

End AuditorClaims.

(** ** Validation runs *)

Module ValidatorFacts.
Import Py FS Spec Validator.

(** *** What can escape *)

Lemma catchable_ok {A} (a : A) : catchable (Ok a).
Proof. by intros e. Qed.

Lemma catchable_raise {A} e : is_Exception e = true -> catchable (@Raise A e).
Proof. by intros He e' [= <-]. Qed.

Lemma catchable_bind {A B} (r : result A) (f : A -> result B) :
  catchable r -> (forall a, catchable (f a)) -> catchable (r ≫= f).
Proof.
  intros Hr Hf. destruct r as [a|e]; [apply Hf|].
  intros e' [= <-]. by apply Hr.
Qed.

Lemma catchable_read_text fs path : catchable (read_text fs path).
Proof. unfold read_text. by destruct (fs path) as [| |[] text| |]; intros e [= <-]. Qed.

Lemma catchable_from_option {A} (o : option A) e :
  is_Exception e = true -> catchable (from_option Ok (Raise e) o).
Proof. intros He. destruct o; [apply catchable_ok|by apply catchable_raise]. Qed.

Lemma catchable_str_in key v : catchable (str_in key v).
Proof. by destruct v; intros e [= <-]. Qed.

Lemma catchable_getitem v key : catchable (getitem v key).
Proof. by destruct v; intros e [= <-]. Qed.

Lemma catchable_get v key default : catchable (get v key default).
Proof. by destruct v; intros e [= <-]. Qed.

Lemma catchable_iterate v : catchable (iterate v).
Proof. by destruct v; intros e [= <-]. Qed.

Lemma catchable_hash_key v : catchable (hash_key v).
Proof. by destruct v; intros e [= <-]. Qed.

Lemma catchable_as_str k : catchable (as_str k).
Proof. by destruct k; intros e [= <-]. Qed.

Lemma catchable_mapM {A B} (f : A -> result B) l :
  (forall x, catchable (f x)) -> catchable (mapM f l).
Proof.
  intros Hf. induction l as [|x l IH]; [apply catchable_ok|].
  cbn [mapM]. apply catchable_bind; [apply Hf|]. intros y. fold (mapM f l).
  apply catchable_bind; [apply IH|]. intros. apply catchable_ok.
Qed.

Lemma catchable_filterM {A} (p : A -> result bool) l :
  (forall x, catchable (p x)) -> catchable (filterM p l).
Proof.
  intros Hp. induction l as [|x l IH]; [apply catchable_ok|].
  cbn [filterM]. apply catchable_bind; [apply Hp|]. intros b.
  apply catchable_bind; [apply IH|]. intros. apply catchable_ok.
Qed.

Lemma catchable_has_agent_list data : catchable (has_agent_list data).
Proof.
  unfold has_agent_list. apply catchable_bind; [apply catchable_str_in|].
  intros []; [|apply catchable_ok].
  apply catchable_bind; [apply catchable_getitem|]. intros. apply catchable_ok.
Qed.

Lemma catchable_agent_set caps : catchable (agent_set caps).
Proof.
  unfold agent_set. apply catchable_bind; [apply catchable_get|]. intros agents.
  apply catchable_bind; [apply catchable_iterate|]. intros items.
  apply catchable_bind; [apply catchable_mapM, catchable_hash_key|].
  intros. apply catchable_ok.
Qed.

(** *** The effect of a method on the validator *)

Lemma failures_app l1 l2 : failures (l1 ++ l2) = failures l1 + failures l2.
Proof. unfold failures. by rewrite List.filter_app, length_app. Qed.

Lemma advance_nil self : advance self [] = self.
Proof.
  destruct self. unfold advance. cbn. by rewrite Z.add_0_r, app_nil_r.
Qed.

Lemma advance_advance self l1 l2 :
  advance (advance self l1) l2 = advance self (l1 ++ l2).
Proof.
  unfold advance. cbn. rewrite failures_app, Nat2Z.inj_add, Z.add_assoc.
  by rewrite app_assoc.
Qed.

Section Behaves.
Context {A : Type} (P : line -> Prop).

Lemma behaves_ret (a : A) : behaves P (mret a).
Proof.
  intros self. exists []. cbn. rewrite advance_nil.
  split; [done|]. split; [constructor|apply catchable_ok].
Qed.

Lemma behaves_lift (r : result A) : catchable r -> behaves P (lift r).
Proof.
  intros Hr self. exists []. cbn. rewrite advance_nil.
  split; [done|]. split; [constructor|exact Hr].
Qed.

Lemma behaves_bind {B} (m : method B) (f : B -> method A) :
  behaves P m -> (forall b, behaves P (f b)) -> behaves P (m ≫= f).
Proof.
  intros Hm Hf self. unfold mbind, method_bind.
  destruct (Hm self) as (l1 & Hs1 & HP1 & He1).
  destruct (m self) as [[b|e] self1]; cbn [fst snd] in *; subst self1.
  - destruct (Hf b (advance self l1)) as (l2 & Hs2 & HP2 & He2).
    exists (l1 ++ l2). rewrite Hs2, advance_advance.
    split; [done|]. split; [by apply Forall_app|done].
  - exists l1. split; [done|]. split; [done|].
    apply catchable_raise, (He1 e eq_refl).
Qed.

Lemma behaves_try (body : method A) (handler : exn -> option (method A)) :
  behaves P body ->
  (forall e h, handler e = Some h -> behaves P h) ->
  behaves P (try_except body handler).
Proof.
  intros Hbody Hh self. unfold try_except.
  destruct (Hbody self) as (l1 & Hs1 & HP1 & He1).
  destruct (body self) as [[a|e] self1]; cbn [fst snd] in *; subst self1.
  - exists l1. split; [done|]. split; [done|]. exact He1.
  - destruct (handler e) as [h|] eqn:Hhandler.
    + destruct (Hh e h Hhandler (advance self l1)) as (l2 & Hs2 & HP2 & He2).
      exists (l1 ++ l2). rewrite Hs2, advance_advance.
      split; [done|]. split; [by apply Forall_app|done].
    + exists l1. split; [done|]. split; [done|]. exact He1.
Qed.
End Behaves.

Lemma behaves_this P : behaves P this.
Proof.
  intros self. exists []. cbn. rewrite advance_nil.
  split; [done|]. split; [constructor|apply catchable_ok].
Qed.

Lemma behaves_emit (P : line -> Prop) l :
  P l -> failed_status l = false -> behaves P (emit l).
Proof.
  intros HP Hl self. exists [l]. unfold emit, advance, failures. cbn.
  rewrite Hl. cbn. rewrite Z.add_0_r.
  split; [done|]. split; [by constructor|apply catchable_ok].
Qed.

(** A failed check: the counter goes up and the failure is printed. *)
Lemma behaves_fail {A} (P : line -> Prop) message (k : method A) :
  P (Status message false) -> behaves P k ->
  behaves P (count_error;; print_status message false;; k).
Proof.
  intros HP Hk self. unfold mbind, method_bind, count_error, print_status, emit.
  cbn [fst snd errors output project_name project_dir control_dir schema_dir].
  match goal with |- context [k ?s] => destruct (Hk s) as (l & Hs & HPl & He) end.
  exists (Status message false :: l). rewrite Hs.
  split; [|split; [by constructor|done]].
  unfold advance, failures. cbn. f_equal; [lia|by rewrite <- app_assoc].
Qed.

Lemma behaves_for_each {A} (P : line -> Prop) (l : list A) body :
  (forall x, behaves P (body x)) -> behaves P (for_each l body).
Proof.
  intros Hbody. induction l as [|x l IH]; [apply behaves_ret|].
  cbn [for_each]. apply behaves_bind; [apply Hbody|]. by intros.
Qed.

Lemma behaves_weaken {A} (P Q : line -> Prop) (m : method A) :
  (forall l, P l -> Q l) -> behaves P m -> behaves Q m.
Proof.
  intros HPQ Hm self. destruct (Hm self) as (l & Hs & HP & He).
  exists l. split; [done|]. split; [|done]. by eapply Forall_impl.
Qed.

(** Steps of a proof that a method [behaves]. *)
Ltac behave :=
  repeat lazymatch goal with
    | |- behaves _ (count_error ≫= _) =>
        apply behaves_fail; [reflexivity || exact I|]
    | |- behaves _ (_ ≫= _) => apply behaves_bind; [|intros]
    | |- behaves _ (mret _) => apply behaves_ret
    | |- behaves _ this => apply behaves_this
    | |- behaves _ (emit _) =>
        apply behaves_emit; [reflexivity || exact I|reflexivity]
    | |- behaves _ (print_status _ _) =>
        apply behaves_emit; [reflexivity || exact I|reflexivity]
    | |- behaves _ (print_error _) =>
        apply behaves_emit; [reflexivity || exact I|reflexivity]
    | |- behaves _ (for_each _ _) => apply behaves_for_each; intros
    | |- behaves _ (lift _) => apply behaves_lift
    | |- behaves _ (let _ := _ in _) => cbv zeta
    end.

(** *** Methods that never raise *)

Lemma total_bind {A B} (m : method A) (f : A -> method B) :
  total m -> (forall a, total (f a)) -> total (m ≫= f).
Proof.
  intros Hm Hf self. unfold mbind, method_bind.
  specialize (Hm self). destruct (m self) as [[a|e] self1]; [apply Hf|done].
Qed.

Lemma total_ret {A} (a : A) : total (mret a).
Proof. by intros self. Qed.

Lemma total_this : total this.
Proof. by intros self. Qed.

Lemma total_emit l : total (emit l).
Proof. by intros self. Qed.

Lemma total_count_error : total count_error.
Proof. by intros self. Qed.

Lemma total_for_each {A} (l : list A) body :
  (forall x, total (body x)) -> total (for_each l body).
Proof.
  intros Hbody. induction l as [|x l IH]; [apply total_ret|].
  cbn [for_each]. apply total_bind; [apply Hbody|]. by intros.
Qed.

(** A [try] whose handlers cover every [Exception] and do not raise. *)
Lemma total_try {A} P (body : method A) handler :
  behaves P body ->
  (forall e, is_Exception e = true -> exists h, handler e = Some h /\ total h) ->
  total (try_except body handler).
Proof.
  intros Hbody Hh self. unfold try_except.
  destruct (Hbody self) as (_ & _ & _ & He).
  destruct (body self) as [[a|e] self1]; [done|].
  destruct (Hh e (He e eq_refl)) as (h & -> & Hth). apply Hth.
Qed.

Ltac never_raises :=
  repeat lazymatch goal with
    | |- total (_ ≫= _) => apply total_bind; [|intros]
    | |- total (mret _) => apply total_ret
    | |- total this => apply total_this
    | |- total (emit _) => apply total_emit
    | |- total (print_status _ _) => apply total_emit
    | |- total (print_error _) => apply total_emit
    | |- total count_error => apply total_count_error
    | |- total (for_each _ _) => apply total_for_each; intros
    | |- total (let _ := _ in _) => cbv zeta
    end.

(** *** The five stages *)

Section Stages.
Context `{libs : Libraries} (fs : filesystem).

Lemma check_path_behaves path is_dir : behaves quiet (_check_path fs path is_dir).
Proof. unfold _check_path. destruct (negb _); behave. Qed.

Lemma check_path_total path is_dir : total (_check_path fs path is_dir).
Proof. unfold _check_path. destruct (negb _); never_raises. Qed.

Lemma file_existence_behaves : behaves quiet (_validate_file_existence fs).
Proof. unfold _validate_file_existence. behave; apply check_path_behaves. Qed.

Lemma file_existence_total : total (_validate_file_existence fs).
Proof. unfold _validate_file_existence. never_raises; apply check_path_total. Qed.

Lemma roomodes_behaves : behaves quiet (_validate_roomodes fs).
Proof.
  unfold _validate_roomodes. behave. apply behaves_try.
  - behave; [apply catchable_read_text|]. destruct (String.eqb _ _); behave.
  - intros e h. destruct (is_Exception e); [|done]. intros [= <-]. behave.
Qed.

Lemma roomodes_total : total (_validate_roomodes fs).
Proof.
  unfold _validate_roomodes. never_raises. apply (total_try (fun _ => True)).
  - behave; [apply catchable_read_text|]. destruct (String.eqb _ _); behave.
  - intros e ->. eexists. split; [done|].
    never_raises.
Qed.

Lemma on_YAMLError_behaves path e h :
  on_YAMLError path e = Some h -> behaves quiet h.
Proof. destruct e; try done. intros [= <-]. behave. Qed.

Lemma capabilities_yaml_behaves : behaves quiet (validate_capabilities_yaml fs).
Proof.
  unfold validate_capabilities_yaml. behave. apply behaves_try.
  - behave; [apply catchable_read_text|by apply catchable_from_option
            |apply catchable_has_agent_list|].
    match goal with |- context [if ?b then _ else _] => destruct b end; behave.
  - apply on_YAMLError_behaves.
Qed.

Lemma sprint_yaml_behaves : behaves quiet (validate_sprint_yaml fs).
Proof.
  unfold validate_sprint_yaml. behave. apply behaves_try.
  - behave; [apply catchable_read_text|by apply catchable_from_option| |].
    + apply catchable_filterM. intros key.
      apply catchable_bind; [apply catchable_str_in|]. intros. apply catchable_ok.
    + destruct (bool_decide _); behave.
  - apply on_YAMLError_behaves.
Qed.

Lemma yaml_files_behaves : behaves quiet (_validate_yaml_files fs).
Proof.
  unfold _validate_yaml_files. behave.
  - apply capabilities_yaml_behaves.
  - apply sprint_yaml_behaves.
Qed.

Lemma validate_against_body_behaves (P : line -> Prop) data_file schema_file self :
  (forall message, P (Status message true)) ->
  behaves P
    (data_text ← lift (read_text fs (path_join (control_dir self) data_file));
     data_instance ← lift (from_option Ok (Raise JSONDecodeError) (json_load data_text));
     schema_text ← lift (read_text fs (path_join (schema_dir self) schema_file));
     schema ← lift (from_option Ok (Raise JSONDecodeError) (json_load schema_text));
     lift (match jsonschema_validate data_instance schema with
           | Conforms => Ok tt
           | Violates message => Raise (ValidationError message)
           | BadSchema => Raise SchemaError
           end);;
     print_status ("Validating " +:+ data_file +:+ " against " +:+ schema_file) true).
Proof.
  intros HP. behave; try apply catchable_read_text; try by apply catchable_from_option.
  - by destruct (jsonschema_validate _ _); intros e [= <-].
  - apply behaves_emit; [apply HP|done].
Qed.

Lemma validate_against_behaves data_file schema_file :
  behaves quiet (validate_against fs data_file schema_file).
Proof.
  unfold validate_against. behave. apply behaves_try.
  - by apply validate_against_body_behaves.
  - intros e h. destruct e; cbn [is_Exception]; try done; intros [= <-]; behave.
Qed.

Lemma validate_against_total data_file schema_file :
  total (validate_against fs data_file schema_file).
Proof.
  unfold validate_against. never_raises. apply (total_try (fun _ => True)).
  - by apply validate_against_body_behaves.
  - intros e He. destruct e; try done; eexists; (split; [done|]);
      never_raises.
Qed.

Lemma json_files_behaves : behaves quiet (_validate_json_files fs).
Proof. unfold _validate_json_files. behave. apply validate_against_behaves. Qed.

Lemma json_files_total : total (_validate_json_files fs).
Proof. unfold _validate_json_files. never_raises. apply validate_against_total. Qed.

Lemma cross_reference_body_behaves self :
  behaves (fun _ => True)
    (modes_text ← lift (read_text fs ".roomodes");
     let modes := defined_modes modes_text in
     let cap_path := path_join (control_dir self) "capabilities.yaml" in
     caps_text ← lift (read_text fs cap_path);
     project_caps ← lift (from_option Ok (Raise YAMLError) (yaml_safe_load caps_text));
     project_agents ← lift (agent_set project_caps);
     let undefined_agents :=
       List.filter (fun a => negb (is_defined modes a)) project_agents in
     if bool_decide (undefined_agents = []) then
       print_status "All project agents are defined in .roomodes" true
     else
       count_error;;
       print_status "All project agents are defined in .roomodes" false;;
       names ← lift (mapM as_str undefined_agents);
       print_error (UndefinedAgents names)).
Proof.
  behave; try apply catchable_read_text; try by apply catchable_from_option.
  - apply catchable_agent_set.
  - cbv zeta. destruct (bool_decide _); behave.
    apply catchable_mapM, catchable_as_str.
Qed.

Lemma cross_reference_behaves : behaves (fun _ => True) (_cross_reference_capabilities fs).
Proof.
  unfold _cross_reference_capabilities. behave. apply behaves_try.
  - apply cross_reference_body_behaves.
  - intros e h. destruct (is_Exception e); [|done]. intros [= <-]. behave.
Qed.

Lemma cross_reference_total : total (_cross_reference_capabilities fs).
Proof.
  unfold _cross_reference_capabilities. never_raises.
  apply (total_try (fun _ => True)).
  - apply cross_reference_body_behaves.
  - intros e ->. eexists. split; [done|].
    never_raises.
Qed.

Lemma run_validations_behaves : behaves (fun _ => True) (run_validations fs).
Proof.
  unfold run_validations. behave.
  - apply (behaves_weaken quiet); [done|apply file_existence_behaves].
  - destruct (0 <? errors _)%Z; behave.
    + apply (behaves_weaken quiet); [done|apply roomodes_behaves].
    + apply (behaves_weaken quiet); [done|apply yaml_files_behaves].
    + apply (behaves_weaken quiet); [done|apply json_files_behaves].
    + apply cross_reference_behaves.
Qed.

(** A stage that returns, with what it printed. *)
Lemma returns_advance {A} P (m : method A) self :
  behaves P m -> returns (fst (m self)) = true ->
  exists a lines, m self = (Ok a, advance self lines) /\ Forall P lines.
Proof.
  intros Hm Hret. destruct (Hm self) as (lines & Hs & HP & _).
  destruct (m self) as [[a|e] self']; [|done].
  exists a, lines. cbn in Hs. by subst self'.
Qed.

(** *** Stage 1 on a complete project *)

Opaque path_join.

Lemma file_existence_complete name self :
  structure_complete fs name = true ->
  project_dir self = project_dir (init name) ->
  control_dir self = control_dir (init name) ->
  schema_dir self = schema_dir (init name) ->
  errors (snd (_validate_file_existence fs self)) = errors self.
Proof.
  unfold structure_complete, required_paths.
  cbn [forallb map app fst snd init project_dir control_dir schema_dir].
  intros H Hp Hc Hs.
  repeat (apply andb_prop in H as [? H]).
  unfold _validate_file_existence, _check_path, for_each, mbind, method_bind,
    this, mret, method_ret, emit, print_status.
  cbn [fst snd errors output project_name project_dir control_dir schema_dir].
  rewrite Hp, Hc, Hs.
  cbn [init project_dir control_dir schema_dir].
  repeat match goal with
         | Hc : ?c = true |- context [negb ?c] => rewrite Hc; cbn
         end.
  reflexivity.
Qed.

(** *** Stage 3 on parseable files *)

Lemma str_in_container key v :
  match v with PNone | PBool _ | PInt _ => False | _ => True end ->
  exists b, str_in key v = Ok b.
Proof. destruct v; try done; by eexists. Qed.

Lemma filterM_returns {A} (p : A -> result bool) l :
  (forall x, exists b, p x = Ok b) -> exists l', filterM p l = Ok l'.
Proof.
  intros Hp. induction l as [|x l [l' IH]]; [by eexists|].
  cbn [filterM]. destruct (Hp x) as [b ->]. rewrite IH. by eexists.
Qed.

Lemma bind_this {A} (f : ConfigValidator -> method A) self :
  (this ≫= f) self = f self self.
Proof. done. Qed.

Lemma bind_lift_ok {A B} (a : A) (f : A -> method B) self :
  (lift (Ok a) ≫= f) self = f a self.
Proof. done. Qed.

Lemma bind_lift_raise {A B} e (f : A -> method B) self :
  (lift (Raise e) ≫= f) self = (Raise e, self).
Proof. done. Qed.

Lemma try_returns {A} (body : method A) handler self :
  returns (fst (body self)) = true ->
  returns (fst (try_except body handler self)) = true.
Proof. unfold try_except. by destruct (body self) as [[a|e] self']. Qed.

Lemma capabilities_yaml_returns name self caps_text caps agents :
  control_dir self = control_dir (init name) ->
  read_text fs (path_join (control_dir (init name)) "capabilities.yaml") = Ok caps_text ->
  yaml_safe_load caps_text = Some (PDict caps) ->
  dict_get "agents" caps = Some (PList (map PStr agents)) ->
  returns (fst (validate_capabilities_yaml fs self)) = true.
Proof.
  intros Hc Hread Hload Hagents.
  unfold validate_capabilities_yaml. rewrite bind_this. cbv zeta.
  apply try_returns. rewrite Hc, Hread, bind_lift_ok, Hload.
  cbn [from_option]. rewrite bind_lift_ok.
  assert (has_agent_list (PDict caps) = Ok (truthy (PList (map PStr agents)))) as ->.
  { unfold has_agent_list, str_in, getitem. rewrite Hagents.
    by rewrite bool_decide_eq_true_2 by (by eexists). }
  rewrite bind_lift_ok. by destruct (truthy _).
Qed.

Lemma sprint_yaml_returns name self :
  control_dir self = control_dir (init name) ->
  sprint_checkable fs name = true ->
  returns (fst (validate_sprint_yaml fs self)) = true.
Proof.
  unfold sprint_checkable. intros Hc Hsprint.
  unfold validate_sprint_yaml. rewrite bind_this. cbv zeta. rewrite Hc.
  destruct (read_text fs _) as [text|]; [|done].
  unfold try_except. rewrite bind_lift_ok.
  destruct (yaml_safe_load text) as [data|]; cbn [from_option]; [|done].
  rewrite bind_lift_ok.
  destruct (filterM_returns
              (fun key => present ← str_in key data; Ok (negb present))
              ["sprint_id"; "goal"; "status"]) as [missing ->].
  { intros key. destruct (str_in_container key data) as [b ->]; [|by eexists].
    by destruct data as [|?|?| | |]. }
  rewrite bind_lift_ok. by destruct (bool_decide (missing = [])).
Qed.

Lemma advance_control_dir self lines :
  control_dir (advance self lines) = control_dir self.
Proof. done. Qed.

Lemma yaml_files_returns name self caps_text caps agents :
  control_dir self = control_dir (init name) ->
  sprint_checkable fs name = true ->
  read_text fs (path_join (control_dir (init name)) "capabilities.yaml") = Ok caps_text ->
  yaml_safe_load caps_text = Some (PDict caps) ->
  dict_get "agents" caps = Some (PList (map PStr agents)) ->
  returns (fst (_validate_yaml_files fs self)) = true.
Proof.
  intros Hc Hsprint Hread Hload Hagents.
  unfold _validate_yaml_files.
  unfold mbind at 1, method_bind at 1. cbn [emit].
  set (self1 := Build_ConfigValidator _ _ _ _ _ _).
  unfold mbind at 1, method_bind at 1.
  destruct (returns_advance quiet (validate_capabilities_yaml fs) self1
              capabilities_yaml_behaves) as ([] & lines & -> & _).
  { by eapply capabilities_yaml_returns. }
  by eapply sprint_yaml_returns.
Qed.

Transparent path_join.

End Stages.

(** *** Sets of agent names *)

Lemma existsb_eqb_iff (a : string) l :
  existsb (String.eqb a) l = true <-> a ∈ l.
Proof.
  rewrite existsb_exists, list_elem_of_In. split.
  - by intros (x & Hx & ->%String.eqb_eq).
  - intros Ha. exists a. by rewrite String.eqb_refl.
Qed.

Lemma set_of_str_elem (a : string) l : a ∈ set_of String.eqb l <-> a ∈ l.
Proof.
  induction l as [|x l IH]; [done|]. cbn [set_of].
  rewrite !elem_of_cons, list_elem_of_In, filter_In, <- list_elem_of_In, IH.
  destruct (String.eqb_spec x a) as [->|Hne]; cbn; [tauto|].
  intuition congruence.
Qed.

Lemma set_of_str_NoDup l : NoDup (set_of String.eqb l).
Proof.
  induction l as [|x l IH]; [constructor|]. cbn [set_of]. constructor.
  - rewrite list_elem_of_In, filter_In. intros [_ Hx].
    by rewrite String.eqb_refl in Hx.
  - apply NoDup_ListNoDup, List.NoDup_filter, NoDup_ListNoDup, IH.
Qed.

Lemma filter_map_HStr (p : hashable -> bool) l :
  List.filter p (map HStr l) = map HStr (List.filter (fun a => p (HStr a)) l).
Proof.
  induction l as [|x l IH]; [done|]. cbn [map List.filter].
  destruct (p (HStr x)); cbn [map]; by rewrite IH.
Qed.

Lemma set_of_map_HStr l :
  set_of key_eqb (map HStr l) = map HStr (set_of String.eqb l).
Proof.
  induction l as [|x l IH]; [done|]. cbn [map set_of].
  by rewrite IH, filter_map_HStr.
Qed.

Lemma mapM_hash_key_strings l : mapM hash_key (map PStr l) = Ok (map HStr l).
Proof.
  induction l as [|x l IH]; [done|]. cbn [map mapM hash_key mbind result_bind].
  fold (mapM hash_key (map PStr l)). by rewrite IH.
Qed.

Lemma mapM_as_str_strings l : mapM as_str (map HStr l) = Ok l.
Proof.
  induction l as [|x l IH]; [done|]. cbn [map mapM as_str mbind result_bind].
  fold (mapM as_str (map HStr l)). by rewrite IH.
Qed.

(** *** Stage 5 on a list of agent names *)

Lemma agent_set_strings caps agents :
  dict_get "agents" caps = Some (PList (map PStr agents)) ->
  agent_set (PDict caps) = Ok (map HStr (set_of String.eqb agents)).
Proof.
  intros Hagents. unfold agent_set, get. rewrite Hagents.
  cbn [from_option id mbind result_bind iterate].
  rewrite mapM_hash_key_strings. cbn [mbind result_bind]. by rewrite set_of_map_HStr.
Qed.

Lemma cross_reference_reports `{libs : Libraries} fs self modes_text caps_text
    caps agents :
  read_text fs ".roomodes" = Ok modes_text ->
  read_text fs (path_join (control_dir self) "capabilities.yaml") = Ok caps_text ->
  yaml_safe_load caps_text = Some (PDict caps) ->
  dict_get "agents" caps = Some (PList (map PStr agents)) ->
  let undefined :=
    List.filter (fun a => negb (existsb (String.eqb a) (defined_modes modes_text)))
                (set_of String.eqb agents) in
  undefined <> [] ->
  _cross_reference_capabilities fs self
  = (Ok tt,
     advance self
       [Banner "5. Cross-Referencing Agent Capabilities";
        Status "All project agents are defined in .roomodes" false;
        Error (UndefinedAgents undefined)]).
Proof.
  intros Hmodes Hcaps Hload Hagents undefined Hne.
  unfold _cross_reference_capabilities.
  unfold mbind at 1, method_bind at 1. cbn [emit].
  rewrite bind_this. unfold try_except. cbn [control_dir].
  rewrite Hmodes, bind_lift_ok. cbv zeta.
  rewrite Hcaps, bind_lift_ok, Hload. cbn [from_option].
  rewrite bind_lift_ok, (agent_set_strings caps agents Hagents), bind_lift_ok.
  rewrite filter_map_HStr. cbn [is_defined]. fold undefined.
  rewrite bool_decide_eq_false_2 by (by destruct undefined).
  rewrite mapM_as_str_strings.
  destruct self. unfold advance, failures. simpl. do 2 f_equal.
  by rewrite <- !app_assoc.
Qed.

End ValidatorFacts.

(** ** Claims about the validator *)

Section ValidatorClaims.
Import Py FS Spec Validator ValidatorFacts.

Lemma behaves_counts {A} P (m : method A) : behaves P m -> counts_failures m.
Proof.
  intros Hm self. destruct (Hm self) as (lines & -> & _). by exists lines.
Qed.

Lemma run_validations_verdict `{libs : Libraries} fs self is_valid :
  fst (run_validations fs self) = Ok is_valid ->
  is_valid = true <-> errors (snd (run_validations fs self)) = 0%Z.
Proof.
  unfold run_validations, mbind, method_bind, this, mret, method_ret.
  destruct (emit _ self) as [[[]|e0] s0]; [|done].
  destruct (_validate_file_existence fs s0) as [[[]|e1] s1]; [|done].
  destruct (Z.ltb_spec 0 (errors s1)).
  { cbn. intros [= <-]. split; [done|lia]. }
  destruct (_validate_roomodes fs s1) as [[[]|e2] s2]; [|done].
  destruct (_validate_yaml_files fs s2) as [[[]|e3] s3]; [|done].
  destruct (_validate_json_files fs s3) as [[[]|e4] s4]; [|done].
  destruct (_cross_reference_capabilities fs s4) as [[[]|e5] s5]; [|done].
  cbn. intros [= <-]. apply Z.eqb_eq.
Qed.

(** A run that returns [True], and one that returns [False]. *)
Example valid_project_verdict :
  let run := run_validations (libs:=sample_libraries) valid_project (init "demo") in
  fst run = Ok true /\ errors (snd run) = 0%Z.
Proof. vm_compute. done. Qed.

Example ghost_project_verdict :
  let run := run_validations (libs:=sample_libraries) ghost_project (init "demo") in
  fst run = Ok false /\ errors (snd run) = 1%Z.
Proof. vm_compute. done. Qed.

(** C3 fails on the code: only [yaml.YAMLError] is caught in
    [_validate_yaml_files], so an error of [open] on [capabilities.yaml]
    leaves the check, the stage and [run_validations]; the run ends in
    stage 3 with an uncounted error, whatever the libraries would answer,
    and the JSON and cross-reference stages never start.  The sibling
    stages 2, 4 and 5, which catch [Exception], never raise. *)
Theorem C3_yaml_stage_lets_errors_escape :
  forall (libs : Libraries),
    let run := run_validations unreadable_capabilities (init "demo") in
    fst run = Raise (PermissionError "project/demo/control/capabilities.yaml")
    /\ errors (snd run) = 0%Z
    /\ List.filter is_banner (output (snd run))
       = [Banner "Validating Project: demo";
          Banner "1. Validating File & Directory Structure";
          Banner "2. Validating .roomodes File";
          Banner "3. Validating YAML Files"]
    /\ main unreadable_capabilities "demo" = 1%Z
    /\ (forall fs, total (_validate_roomodes fs)
                   /\ total (_validate_json_files fs)
                   /\ total (_cross_reference_capabilities fs)).
Proof.
  intros libs. repeat split; try (vm_compute; reflexivity).
  - apply roomodes_total.
  - apply json_files_total.
  - apply cross_reference_total.
Qed.

(** The same escape for a [sprint.yaml] that parses to [None]: the
    membership test raises [TypeError]. *)
Example empty_sprint_aborts :
  let run := run_validations (libs:=sample_libraries) empty_sprint (init "demo") in
  fst run = Raise TypeError /\ errors (snd run) = 0%Z.
Proof. vm_compute. done. Qed.

Lemma quiet_filter lines :
  Forall quiet lines -> List.filter undefined_report lines = [].
Proof.
  induction 1 as [|l lines Hl _ IH]; [done|].
  cbn [List.filter]. unfold quiet in Hl. by rewrite Hl.
Qed.

(** A run on a complete project, up to the cross-reference stage. *)
Lemma run_reaches_cross_reference `{libs : Libraries} fs name caps_text caps agents :
  structure_complete fs name = true ->
  sprint_checkable fs name = true ->
  read_text fs (path_join (control_dir (init name)) "capabilities.yaml") = Ok caps_text ->
  yaml_safe_load caps_text = Some (PDict caps) ->
  dict_get "agents" caps = Some (PList (map PStr agents)) ->
  exists lines,
    Forall quiet lines
    /\ run_validations fs (init name)
       = (_cross_reference_capabilities fs;;
          self ← this; mret (errors self =? 0)%Z) (advance (init name) lines).
Proof.
  intros Hcomplete Hsprint Hcaps Hload Hagents.
  unfold run_validations. rewrite bind_this.
  unfold mbind at 1, method_bind at 1. cbn [emit].
  match goal with
  | |- context [(_validate_file_existence fs ≫= _) ?s] =>
      change s with (advance (init name) [Banner ("Validating Project: " +:+ name)])
  end.
  set (s0 := advance (init name) _).
  destruct (returns_advance quiet (_validate_file_existence fs) s0
              (file_existence_behaves fs) (file_existence_total fs s0))
    as ([] & l1 & E1 & Q1).
  pose proof (file_existence_complete fs name s0 Hcomplete eq_refl eq_refl eq_refl)
    as Herr.
  unfold mbind at 1, method_bind at 1. rewrite E1 in Herr |- *. rewrite bind_this.
  cbn [snd] in Herr. rewrite Herr.
  change (0 <? errors s0)%Z with false. cbv iota.
  set (s1 := advance s0 l1).
  destruct (returns_advance quiet (_validate_roomodes fs) s1
              (roomodes_behaves fs) (roomodes_total fs s1))
    as ([] & l2 & E2 & Q2).
  unfold mbind at 1, method_bind at 1. rewrite E2.
  set (s2 := advance s1 l2).
  destruct (returns_advance quiet (_validate_yaml_files fs) s2 (yaml_files_behaves fs))
    as ([] & l3 & E3 & Q3).
  { by eapply yaml_files_returns. }
  unfold mbind at 1, method_bind at 1. rewrite E3.
  set (s3 := advance s2 l3).
  destruct (returns_advance quiet (_validate_json_files fs) s3
              (json_files_behaves fs) (json_files_total fs s3))
    as ([] & l4 & E4 & Q4).
  unfold mbind at 1, method_bind at 1. rewrite E4.
  exists ([Banner ("Validating Project: " +:+ name)] ++ l1 ++ l2 ++ l3 ++ l4).
  split.
  - repeat (apply Forall_app; split); try done. by constructor.
  - unfold s3, s2, s1, s0. by rewrite !advance_advance.
Qed.

(** C8, as stated, fails when a required file is missing: the existence
    stage ends the run before the cross-reference stage, and no
    cross-reference violation is reported although [capabilities.yaml]
    lists [ghost-agent]. *)
Lemma C8_counterexample :
  let run := run_validations (libs:=sample_libraries)
               ghost_project_without_backlog (init "demo") in
  read_text ghost_project_without_backlog "project/demo/control/capabilities.yaml"
  = Ok "agents: [architect, ghost-agent]"
  /\ yaml_safe_load (Libraries:=sample_libraries) "agents: [architect, ghost-agent]"
     = Some (PDict [("agents", PList [PStr "architect"; PStr "ghost-agent"])])
  /\ ("ghost-agent" ∉ defined_modes "architect")
  /\ fst run = Ok false
  /\ List.filter undefined_report (output (snd run)) = [].
Proof.
  repeat split; try (vm_compute; reflexivity).
  intros Hin. apply list_elem_of_In in Hin. vm_compute in Hin. intuition discriminate.
Qed.

(** C8, amended: when every required path exists, [.roomodes] and
    [capabilities.yaml] can be read, [capabilities.yaml] parses to a
    mapping whose [agents] is a list of names at least one of which
    [.roomodes] does not declare, and the check of [sprint.yaml] does not
    raise, then the run returns [False] and prints exactly one
    cross-reference violation, which names exactly the undeclared agents;
    the program exits with status 1. *)
Theorem C8_undefined_agents :
  forall (libs : Libraries) (fs : filesystem) (name modes_text caps_text : string)
         (caps : list (string * pyval)) (agents : list string),
    structure_complete fs name = true ->
    sprint_checkable fs name = true ->
    read_text fs ".roomodes" = Ok modes_text ->
    read_text fs (path_join (control_dir (init name)) "capabilities.yaml") = Ok caps_text ->
    yaml_safe_load caps_text = Some (PDict caps) ->
    dict_get "agents" caps = Some (PList (map PStr agents)) ->
    (exists ghost, ghost ∈ agents /\ (ghost ∉ defined_modes modes_text)) ->
    exists (undefined : list string) (self' : ConfigValidator),
      run_validations fs (init name) = (Ok false, self')
      /\ List.filter undefined_report (output self') = [Error (UndefinedAgents undefined)]
      /\ NoDup undefined
      /\ (forall agent, agent ∈ undefined
                        <-> agent ∈ agents /\ (agent ∉ defined_modes modes_text))
      /\ main fs name = 1%Z.
Proof.
  intros libs fs name modes_text caps_text caps agents
    Hcomplete Hsprint Hmodes Hcaps Hload Hagents (ghost & Hin & Hout).
  set (undefined :=
         List.filter (fun a => negb (existsb (String.eqb a) (defined_modes modes_text)))
                     (set_of String.eqb agents)).
  assert (forall agent, agent ∈ undefined
                        <-> agent ∈ agents /\ (agent ∉ defined_modes modes_text)) as Hspec.
  { intros agent. unfold undefined.
    rewrite list_elem_of_In, filter_In, <- list_elem_of_In, set_of_str_elem.
    rewrite negb_true_iff, <- not_true_iff_false, existsb_eqb_iff. done. }
  assert (undefined <> []) as Hne.
  { intros Hnil. assert (ghost ∈ undefined) as Hg by (by apply Hspec).
    rewrite Hnil in Hg. by apply elem_of_nil in Hg. }
  destruct (run_reaches_cross_reference fs name caps_text caps agents
              Hcomplete Hsprint Hcaps Hload Hagents) as (lines & Hquiet & Hrun).
  assert (run_validations fs (init name)
          = (Ok false,
             advance (init name)
               (lines ++ [Banner "5. Cross-Referencing Agent Capabilities";
                          Status "All project agents are defined in .roomodes" false;
                          Error (UndefinedAgents undefined)]))) as Hresult.
  { rewrite Hrun. unfold mbind at 1, method_bind at 1.
    rewrite (cross_reference_reports fs (advance (init name) lines) modes_text
               caps_text caps agents Hmodes Hcaps Hload Hagents Hne).
    fold undefined. rewrite bind_this, advance_advance.
    unfold mret, method_ret. f_equal. f_equal.
    apply Z.eqb_neq. unfold advance. cbn [errors init].
    rewrite failures_app. unfold failures at 2. cbn. lia. }
  exists undefined, (advance (init name)
               (lines ++ [Banner "5. Cross-Referencing Agent Capabilities";
                          Status "All project agents are defined in .roomodes" false;
                          Error (UndefinedAgents undefined)])).
  split; [exact Hresult|]. split.
  { cbn [output advance init app]. rewrite List.filter_app, (quiet_filter _ Hquiet). done. }
  split.
  { apply NoDup_ListNoDup, List.NoDup_filter, NoDup_ListNoDup, set_of_str_NoDup. }
  split; [exact Hspec|].
  unfold main. by rewrite Hresult.
Qed.

Lemma C8_witness :
  exists (undefined : list string) (self' : ConfigValidator),
    run_validations (libs:=sample_libraries) ghost_project (init "demo") = (Ok false, self')
    /\ List.filter undefined_report (output self') = [Error (UndefinedAgents undefined)]
    /\ (forall agent, agent ∈ undefined
                      <-> agent ∈ ["architect"; "ghost-agent"]
                          /\ (agent ∉ defined_modes "architect")).
Proof.
  destruct (C8_undefined_agents sample_libraries ghost_project "demo" "architect"
              "agents: [architect, ghost-agent]"
              [("agents", PList [PStr "architect"; PStr "ghost-agent"])]
              ["architect"; "ghost-agent"])
    as (undefined & self' & Hrun & Hout & _ & Hspec & _);
    try (vm_compute; reflexivity).
  { exists "ghost-agent". split; [right; left|].
    intros Hin. apply list_elem_of_In in Hin. vm_compute in Hin.
    intuition discriminate. }
  exists undefined, self'. split; [exact Hrun|]. split; [exact Hout|exact Hspec].
Defined.

(** The report for the ghost agent. *)
Example ghost_project_report :
  List.filter undefined_report
    (output (snd (run_validations (libs:=sample_libraries) ghost_project (init "demo"))))
  = [Error (UndefinedAgents ["ghost-agent"])].
Proof. vm_compute. reflexivity. Qed.

End ValidatorClaims.

(** ** Claims about the programs as a whole *)

Section ProgramClaims.
Import Py FS Spec.

(** The validator exits with status 0 exactly when the run returns [True],
    and with status 1 otherwise, also when the run is aborted. *)
Lemma validator_exit_status `{libs : Libraries} fs name :
  (Validator.main fs name = 0%Z
   <-> fst (Validator.run_validations fs (Validator.init name)) = Ok true)
  /\ (Validator.main fs name = 0%Z \/ Validator.main fs name = 1%Z).
Proof.
  destruct (ValidatorFacts.run_validations_behaves fs (Validator.init name))
    as (lines & _ & _ & Hcatch).
  unfold Validator.main.
  destruct (fst (Validator.run_validations fs (Validator.init name))) as [[]|e];
    cbn [mbind result_bind exit_status].
  - split; [done|by left].
  - split; [split; intros; discriminate|by right].
  - specialize (Hcatch e eq_refl).
    destruct e; try discriminate Hcatch;
      (split; [split; intros; discriminate|by right]).
Qed.

(** The auditor does not get past the first statement of [run_audit]. *)
Lemma run_audit_raises `{libs : Libraries} fs self :
  Auditor.run_audit fs self = Raise (NameError "print_header").
Proof. reflexivity. Qed.

(** C9 fails on the code for the auditor.  [run_audit] calls
    [print_header], which the module does not define, before its [try]
    statement: every invocation ends with [NameError] and exit status 1,
    also on a project without anomalies, where status 0 is specified.
    The [try] block itself would end the program with status 0 both on
    the clean project and on a project without [workflow-state.json],
    where status 1 is specified: the missing-file branch returns without
    [sys.exit(1)]. *)
Theorem C9_auditor_exit_status :
  forall (libs : Libraries) (fs : filesystem) (name : string),
    Auditor.main fs name = 1%Z
    /\ Auditor.run_audit_try (libs:=sample_libraries) valid_project
         (Auditor.init "demo" 3 2)
       = Ok (Auditor.print Auditor.NoTasksFound (Auditor.init "demo" 3 2))
    /\ path_exists valid_project (Auditor.workflow_file (Auditor.init "absent" 3 2))
       = false
    /\ Auditor.run_audit_try valid_project (Auditor.init "absent" 3 2)
       = Ok (Auditor.print Auditor.WorkflowStateNotFound (Auditor.init "absent" 3 2))
    /\ exit_status (Auditor.run_audit_try valid_project (Auditor.init "absent" 3 2))
       = 0%Z.
Proof. intros. repeat split; reflexivity. Qed.

(** C2 fails on the code for the validator and the auditor: neither
    resolves the project name.  The name [../outside] is joined onto
    [project] as it is; the validator checks and reads the files under
    [project/../outside], finds them valid and exits with status 0, and
    the auditor's [try] block reads [project/../outside/control/workflow-state.json]. *)
Theorem C2_names_are_not_validated :
  let run := Validator.run_validations (libs:=sample_libraries) outside_project
               (Validator.init "../outside") in
  contains ".." "../outside" = true
  /\ fst run = Ok true
  /\ Validator.main (libs:=sample_libraries) outside_project "../outside" = 0%Z
  /\ List.filter (fun l => negb (is_banner l)) (take 6 (Validator.output (snd run)))
     = [Validator.Status "Checking path: .roomodes" true;
        Validator.Status "Checking path: project/../outside" true;
        Validator.Status "Checking path: project/../outside/control" true;
        Validator.Status "Checking path: docs/contracts" true]
  /\ Auditor.workflow_file (Auditor.init "../outside" 3 2)
     = "project/../outside/control/workflow-state.json"
  /\ Auditor.run_audit_try (libs:=sample_libraries) outside_project
       (Auditor.init "../outside" 3 2)
     = Ok (Auditor.print Auditor.NoTasksFound (Auditor.init "../outside" 3 2)).
Proof. repeat split; vm_compute; reflexivity. Qed.

(** The reporter, in contrast, resolves the name before anything else:
    a name that [resolve_project_path] rejects ends the program with
    status 1 whatever the files are. *)
Lemma reporter_rejects_invalid_name `{libs : Libraries} fs print_report resolve name :
  resolve name = None -> Reporter.main fs print_report resolve name = 1%Z.
Proof. unfold Reporter.main. by intros ->. Qed.

(** [_load_data] raises what opening and reading the files and the
    parsers raise, nothing else. *)
Lemma load_data_errors `{libs : Libraries} fs self e :
  Reporter._load_data fs self = Raise e ->
  (exists path, e = FileNotFoundError path \/ e = IsADirectoryError path
                \/ e = NotADirectoryError path \/ e = PermissionError path)
  \/ e = UnicodeDecodeError \/ e = YAMLError \/ e = JSONDecodeError.
Proof.
  unfold Reporter._load_data.
  repeat match goal with
         | |- context [read_text fs ?p] =>
             let E := fresh "E" in
             destruct (read_text fs p) as [?|?] eqn:E; cbn [mbind result_bind];
             [|intros [= <-]; unfold read_text in E;
               destruct (fs p) as [| |[] ?| |]; try done;
               injection E as <-; eauto 8]
         | |- context [from_option Ok (Raise ?x) ?o] =>
             destruct o; cbn [from_option mbind result_bind];
             [|intros [= <-]; auto]
         end.
  done.
Qed.

(** Whatever [_load_data] raises, [generate_report] prints an error and
    ends with [SystemExit(1)]. *)
Lemma generate_report_load_error `{libs : Libraries} fs print_report self e :
  Reporter._load_data fs self = Raise e ->
  snd (Reporter.generate_report fs print_report self) = Raise (SystemExit 1).
Proof.
  intros Hload. pose proof (load_data_errors fs self e Hload) as He.
  unfold Reporter.generate_report, Reporter.handle, Reporter.on_error.
  rewrite Hload.
  destruct He as [(path & [->|[->|[->| ->]]])|[->|[->| ->]]]; reflexivity.
Qed.

(** C1 fails on the code.  On the project of the repository's test, with
    [workflow-state.json] and [quality-dashboard.json] missing,
    [generate_report] prints the loading banner and an error and raises
    [SystemExit(1)]; [ReportGenerationError], which the test expects and
    imports from the module, is neither defined nor raised there. *)
Theorem C1_missing_file_exits :
  forall (libs : Libraries)
         (print_report : Reporter.ReportGenerator -> Reporter.ReportData
                         -> list string * result unit),
    let run := Reporter.generate_report report_fixture print_report
                 (Reporter.init "demo") in
    snd run = Raise (SystemExit 1)
    /\ snd run <> Raise ReportGenerationError
    /\ (fst run
        = [Reporter.LoadingData "demo";
           Reporter.RequiredFileNotFound
             (FileNotFoundError "project/demo/control/workflow-state.json")]
        \/ fst run = [Reporter.LoadingData "demo"; Reporter.UnexpectedError YAMLError]).
Proof.
  intros libs print_report run.
  assert (snd run = Raise (SystemExit 1)
          /\ (fst run
              = [Reporter.LoadingData "demo";
                 Reporter.RequiredFileNotFound
                   (FileNotFoundError "project/demo/control/workflow-state.json")]
              \/ fst run = [Reporter.LoadingData "demo";
                            Reporter.UnexpectedError YAMLError])) as [Hsnd Hfst].
  { unfold run, Reporter.generate_report, Reporter._load_data.
    change (read_text report_fixture
              (path_join (Reporter.control_dir (Reporter.init "demo")) "sprint.yaml"))
      with (Ok ("goal: test" +:+ newline)).
    change (read_text report_fixture
              (path_join (Reporter.control_dir (Reporter.init "demo"))
                         "workflow-state.json"))
      with (@Raise string (FileNotFoundError "project/demo/control/workflow-state.json")).
    cbn [mbind result_bind].
    destruct (yaml_safe_load _); cbn; auto. }
  split; [exact Hsnd|]. split; [|exact Hfst]. by rewrite Hsnd.
Qed.

End ProgramClaims.

(** * Further properties of the scripts *)

(** ** The auditor *)

Module AuditorMore.
Import Py FS Spec Vocabulary Auditor AuditorFacts ValidatorFacts.

Lemma filterM_length {A} (p : A -> result bool) l l' :
  filterM p l = Ok l' -> length l' <= length l.
Proof.
  revert l'. induction l as [|x l IH]; intros l'; cbn [filterM].
  - by intros [= <-].
  - destruct (p x) as [b|]; cbn [mbind result_bind]; [|done].
    destruct (filterM p l) as [rest|]; cbn [mbind result_bind]; [|done].
    specialize (IH rest eq_refl). intros [= <-]. destruct b; simpl; lia.
Qed.

Lemma mapM_length {A B} (f : A -> result B) l l' :
  mapM f l = Ok l' -> length l' = length l.
Proof.
  revert l'. induction l as [|x l IH]; intros l'; cbn [mapM].
  - by intros [= <-].
  - destruct (f x) as [y|]; cbn [mbind result_bind]; [|done].
    fold (mapM f l). destruct (mapM f l) as [rest|]; cbn [mbind result_bind]; [|done].
    specialize (IH rest eq_refl). intros [= <-]. simpl. lia.
Qed.

(** The counts of a counter add up to the number of keys counted, and
    there are no more items than keys. *)
Lemma counter_add_total {K} (eqb : K -> K -> bool) k c :
  sum_list_with snd (counter_add eqb k c) = S (sum_list_with snd c)
  /\ length (counter_add eqb k c) <= S (length c).
Proof.
  induction c as [|[k' n] c [IH1 IH2]]; [by split|]. cbn [counter_add].
  destruct (eqb k' k); cbn [sum_list_with snd length]; [split; lia|].
  rewrite IH1. split; lia.
Qed.

Lemma Counter_total {K} (eqb : K -> K -> bool) keys :
  sum_list_with snd (Counter eqb keys) = length keys
  /\ length (Counter eqb keys) <= length keys.
Proof.
  unfold Counter.
  assert (forall c,
            sum_list_with snd (fold_left (fun c k => counter_add eqb k c) keys c)
            = sum_list_with snd c + length keys
            /\ length (fold_left (fun c k => counter_add eqb k c) keys c)
               <= length c + length keys) as H.
  { induction keys as [|k keys IH]; intros c; cbn [fold_left length]; [split; lia|].
    destruct (IH (counter_add eqb k c)) as [-> H2].
    destruct (counter_add_total eqb k c) as [-> H3]. split; lia. }
  apply (H []).
Qed.

(** The anomalies built from the items of a counter. *)
Lemma items_anomalies {K} (make : K -> nat -> Z -> anomaly) T (items : list (K * nat)) :
  (forall k n, count_of (make k n T) = n) ->
  (forall k n, threshold_of (make k n T) = T) ->
  let new := flat_map (fun item : K * nat =>
                         if (T <? Z.of_nat (snd item))%Z
                         then [make (fst item) (snd item) T] else [])
                      items in
  forallb (above T) new = true
  /\ total_count new <= sum_list_with snd items
  /\ length new <= length items.
Proof.
  intros Hcount Hthr. induction items as [|[k n] items (IH1 & IH2 & IH3)].
  - by repeat split.
  - cbn [flat_map fst snd sum_list_with length].
    destruct (T <? Z.of_nat n)%Z eqn:E; cbn [app].
    + split; [|split].
      * cbn [forallb]. rewrite IH1. unfold above. rewrite Hcount, Hthr, E.
        by rewrite Z.eqb_refl.
      * unfold total_count in *. cbn [sum_list_with]. rewrite Hcount. lia.
      * simpl. lia.
    + split; [done|]. split; lia.
Qed.

Lemma high_intervention_returns self tasks self' :
  _check_high_intervention_rate self tasks = Ok self' ->
  exists new,
    self' = with_anomalies self (anomalies self ++ new)
    /\ forallb is_high_intervention new = true
    /\ forallb (above (INTERVENTION_THRESHOLD self)) new = true
    /\ total_count new <= length tasks
    /\ length new <= length tasks.
Proof.
  unfold _check_high_intervention_rate.
  destruct (filterM is_intervention_task tasks) as [chosen|] eqn:Hfilter;
    cbn [mbind result_bind]; [|done].
  destruct (mapM creator chosen) as [creators|] eqn:Hmap;
    cbn [mbind result_bind]; [|done].
  intros [= <-].
  rewrite (append_loop INTERVENTION_THRESHOLD HighInterventionRate) by done.
  eexists. split; [reflexivity|].
  destruct (items_anomalies HighInterventionRate (INTERVENTION_THRESHOLD self)
              (Counter key_eqb creators)) as (H1 & H2 & H3); [done|done|].
  pose proof (filterM_length _ _ _ Hfilter). pose proof (mapM_length _ _ _ Hmap).
  destruct (Counter_total key_eqb creators) as [Hsum Hlen].
  split; [|split; [exact H1|split; lia]].
  clear. induction (Counter key_eqb creators) as [|[k n] c IH]; [done|].
  cbn [flat_map fst snd]. rewrite forallb_app, IH.
  by destruct (_ <? _)%Z.
Qed.

Lemma task_loops_returns self tasks self' :
  _check_task_loops self tasks = Ok self' ->
  exists new,
    self' = with_anomalies self (anomalies self ++ new)
    /\ forallb (fun a => negb (is_high_intervention a)) new = true
    /\ forallb (above (LOOP_THRESHOLD self)) new = true
    /\ total_count new <= length tasks
    /\ length new <= length tasks.
Proof.
  unfold _check_task_loops.
  destruct (mapM normalized_title tasks) as [titles|] eqn:Hmap;
    cbn [mbind result_bind]; [|done].
  intros [= <-].
  rewrite (append_loop LOOP_THRESHOLD PotentialTaskLoop) by done.
  eexists. split; [reflexivity|].
  destruct (items_anomalies PotentialTaskLoop (LOOP_THRESHOLD self)
              (Counter String.eqb titles)) as (H1 & H2 & H3); [done|done|].
  pose proof (mapM_length _ _ _ Hmap).
  destruct (Counter_total String.eqb titles) as [Hsum Hlen].
  split; [|split; [exact H1|split; lia]].
  clear. induction (Counter String.eqb titles) as [|[k n] c IH]; [done|].
  cbn [flat_map fst snd]. rewrite forallb_app, IH.
  by destruct (_ <? _)%Z.
Qed.

(** *** What the [try] block can raise *)

Lemma catchable_add a b : catchable (add a b).
Proof.
  unfold add. destruct a, b; cbn; try (by intros e [= <-]); apply catchable_ok.
Qed.

Lemma catchable_is_intervention_task task : catchable (is_intervention_task task).
Proof.
  unfold is_intervention_task. apply catchable_bind; [apply catchable_get|].
  intros assigned. destruct (existsb _ _); [apply catchable_ok|].
  apply catchable_bind; [apply catchable_get|]. intros. apply catchable_str_in.
Qed.

Lemma catchable_creator task : catchable (creator task).
Proof.
  unfold creator. apply catchable_bind; [apply catchable_get|].
  intros. apply catchable_hash_key.
Qed.

Lemma catchable_normalized_title task : catchable (normalized_title task).
Proof.
  unfold normalized_title. apply catchable_bind; [apply catchable_get|].
  intros []; by intros e [= <-].
Qed.

Lemma catchable_high_intervention self tasks :
  catchable (_check_high_intervention_rate self tasks).
Proof.
  unfold _check_high_intervention_rate.
  apply catchable_bind; [apply catchable_filterM, catchable_is_intervention_task|].
  intros. apply catchable_bind; [apply catchable_mapM, catchable_creator|].
  intros. apply catchable_ok.
Qed.

Lemma catchable_task_loops self tasks : catchable (_check_task_loops self tasks).
Proof.
  unfold _check_task_loops.
  apply catchable_bind; [apply catchable_mapM, catchable_normalized_title|].
  intros. apply catchable_ok.
Qed.

Lemma catchable_audit_body `{libs : Libraries} fs self : catchable (audit_body fs self).
Proof.
  unfold audit_body. destruct (negb _); [apply catchable_ok|].
  apply catchable_bind; [apply catchable_read_text|]. intros text.
  apply catchable_bind; [by apply catchable_from_option|]. intros data.
  apply catchable_bind; [apply catchable_get|]. intros pending.
  apply catchable_bind; [apply catchable_get|]. intros active.
  apply catchable_bind; [apply catchable_add|]. intros pa.
  apply catchable_bind; [apply catchable_get|]. intros completed.
  apply catchable_bind; [apply catchable_add|]. intros all.
  destruct (negb _); [apply catchable_ok|].
  apply catchable_bind; [apply catchable_iterate|]. intros tasks.
  apply catchable_bind; [apply catchable_high_intervention|]. intros s1.
  apply catchable_bind; [apply catchable_task_loops|]. intros s2.
  apply catchable_ok.
Qed.


(** *** What a returning [try] block has done *)


(** *** The order of the tasks *)

Lemma filter_length_permutation {A} (p : A -> bool) l l' :
  Permutation l l' -> length (List.filter p l) = length (List.filter p l').
Proof.
  induction 1 as [|x l l' _ IH|x y l|l l' l'' _ IH1 _ IH2]; cbn [List.filter].
  - done.
  - destruct (p x); simpl; by rewrite IH.
  - by destruct (p x), (p y).
  - by rewrite IH1.
Qed.

Lemma forallb_permutation {A} (p : A -> bool) l l' :
  Permutation l l' -> forallb p l = forallb p l'.
Proof.
  induction 1 as [|x l l' _ IH|x y l|l l' l'' _ IH1 _ IH2]; cbn [forallb].
  - done.
  - by rewrite IH.
  - by destruct (p x), (p y).
  - by rewrite IH1.
Qed.

(** *** Normalised titles *)

Lemma lower_app a b : lower (a +:+ b) = lower a +:+ lower b.
Proof.
  induction a as [|c a IH]; [done|].
  change (String (lower_char c) (lower (a +:+ b))
          = String (lower_char c) (lower a +:+ lower b)). by rewrite IH.
Qed.

Lemma is_space_lower_char c : is_space (lower_char c) = is_space c.
Proof. destruct c as [[] [] [] [] [] [] [] []]; reflexivity. Qed.

Lemma startswith_length m x : startswith m x = true -> String.length m <= String.length x.
Proof.
  revert x. induction m as [|a m IH]; intros [|d x]; cbn; try done; try lia.
  destruct (Ascii.eqb a d); [|done]. intros H%IH. lia.
Qed.

(** A pattern without whitespace does not match across a whitespace
    character. *)
Lemma startswith_before_space m x c rest :
  spaceless m = true -> is_space c = true ->
  startswith m (x +:+ String c rest) = startswith m x.
Proof.
  intros Hm Hc. revert x. induction m as [|a m IH]; intros x; [by destruct x|].
  cbn [spaceless] in Hm. apply andb_prop in Hm as [Ha Hm].
  destruct x as [|d x].
  - change ("" +:+ String c rest) with (String c rest). cbn [startswith].
    destruct (Ascii.eqb_spec a c) as [->|]; [|done].
    by rewrite Hc in Ha.
  - change (String d x +:+ String c rest) with (String d (x +:+ String c rest)).
    cbn [startswith]. destruct (Ascii.eqb a d); [by apply IH|done].
Qed.

Lemma remove_from_before_space m k x c rest :
  m <> "" -> spaceless m = true -> is_space c = true ->
  k <= String.length x ->
  remove_from m k (x +:+ String c rest)
  = remove_from m k x +:+ String c (remove_from m 0 rest).
Proof.
  intros Hne Hm Hc. revert k. induction x as [|d x IH]; intros k Hk.
  - assert (k = 0) as -> by (simpl in Hk; lia).
    change ("" +:+ String c rest) with (String c rest). cbn [remove_from].
    assert (startswith m (String c rest) = false) as ->; [|done].
    pose proof (startswith_before_space m "" c rest Hm Hc) as H.
    change ("" +:+ String c rest) with (String c rest) in H.
    rewrite H. by destruct m.
  - change (String d x +:+ String c rest) with (String d (x +:+ String c rest)).
    cbn [remove_from]. destruct k as [|k].
    + change (String d (x +:+ String c rest)) with (String d x +:+ String c rest).
      rewrite (startswith_before_space m (String d x) c rest Hm Hc).
      destruct (startswith m (String d x)) eqn:E.
      * apply IH. apply startswith_length in E. simpl in E. lia.
      * rewrite IH by lia. done.
    + apply IH. simpl in Hk. lia.
Qed.

Lemma at_word_end_before_space x c rest :
  is_space c = true -> at_word_end (x +:+ String c rest) = at_word_end x.
Proof. intros Hc. by destruct x. Qed.

Lemma split_starts x : at_word_end x = false -> split x <> [].
Proof.
  destruct x as [|d x]; [done|]. cbn [at_word_end split]. intros ->.
  destruct (at_word_end x); [done|]. by destruct (split x).
Qed.

Lemma split_before_space x c rest :
  is_space c = true -> split (x +:+ String c rest) = split x ++ split rest.
Proof.
  intros Hc. induction x as [|d x IH].
  - change ("" +:+ String c rest) with (String c rest). cbn [split]. by rewrite Hc.
  - change (String d x +:+ String c rest) with (String d (x +:+ String c rest)).
    cbn [split]. rewrite IH, (at_word_end_before_space x c rest Hc).
    destruct (is_space d); [done|].
    destruct (at_word_end x) eqn:E; [done|].
    pose proof (split_starts x E). by destruct (split x).
Qed.

(** Once a title has four words, what follows them, after whitespace,
    does not reach the normalised title. *)
Lemma normalize_ignores_suffix title c suffix :
  is_space c = true ->
  4 <= length (split (remove "remediation:" (lower title))) ->
  normalize (title +:+ String c suffix) = normalize title.
Proof.
  intros Hc Hfour. unfold normalize.
  change (title +:+ String c suffix) with (title +:+ (String c "" +:+ suffix)).
  rewrite lower_app. change (lower (String c "" +:+ suffix))
    with (String (lower_char c) (lower suffix)).
  cbn [remove].
  rewrite (remove_from_before_space "remediation:" 0 (lower title) (lower_char c))
    by (done || (by rewrite is_space_lower_char) || lia).
  rewrite split_before_space by (by rewrite is_space_lower_char).
  by rewrite take_app_le.
Qed.

End AuditorMore.

Section MoreOfTheAuditor.
Import Py FS Spec Vocabulary Auditor AuditorFacts AuditorMore.

(** X1: whatever the tasks are, when the two checks return, run one after
    the other as [run_audit] runs them, they have only appended to
    [self.anomalies]: first High Intervention Rate anomalies against the
    intervention threshold, then Potential Task Loop anomalies against the
    loop threshold, each with a count above its threshold; each check
    counts a task at most once, so the counts it reports add up to at most
    the number of tasks. *)
Theorem X1_checks_only_append :
  forall (self s1 s2 : ActionsAuditor) (tasks : list pyval),
    _check_high_intervention_rate self tasks = Ok s1 ->
    _check_task_loops s1 tasks = Ok s2 ->
    exists high loops,
      s2 = with_anomalies self (anomalies self ++ high ++ loops)
      /\ forallb is_high_intervention high = true
      /\ forallb (above (INTERVENTION_THRESHOLD self)) high = true
      /\ forallb (fun a => negb (is_high_intervention a)) loops = true
      /\ forallb (above (LOOP_THRESHOLD self)) loops = true
      /\ total_count high <= length tasks
      /\ total_count loops <= length tasks.
Proof.
  intros self s1 s2 tasks H1 H2.
  destruct (high_intervention_returns _ _ _ H1) as (high & -> & Ha & Hb & Hc & _).
  destruct (task_loops_returns _ _ _ H2) as (loops & -> & Hd & He & Hf & _).
  exists high, loops. cbn [anomalies with_anomalies LOOP_THRESHOLD] in *.
  by rewrite <- app_assoc.
Qed.

Lemma X1_witness :
  exists high loops,
    with_anomalies (init "demo" 3 2) [HighInterventionRate (HStr qa_coordinator) 4 3]
    = with_anomalies (init "demo" 3 2) (anomalies (init "demo" 3 2) ++ high ++ loops)
    /\ forallb (above 3) high = true
    /\ total_count high <= 5.
Proof.
  destruct (X1_checks_only_append (init "demo" 3 2)
              (with_anomalies (init "demo" 3 2)
                 [HighInterventionRate (HStr qa_coordinator) 4 3])
              (with_anomalies (init "demo" 3 2)
                 [HighInterventionRate (HStr qa_coordinator) 4 3])
              four_qa_tasks)
    as (high & loops & Heq & _ & Habove & _ & _ & Hcount & _);
    [vm_compute; reflexivity|vm_compute; reflexivity|].
  exists high, loops. split; [exact Heq|]. split; [exact Habove|exact Hcount].
Defined.

(** X2: on tasks of the data model the order of the tasks, and so the
    bucket a task sits in, does not matter to what is found: for two
    arrangements of the same tasks both checks return, and they report the
    same anomaly, or none, for every agent, for the unassigned tasks and
    for every normalised title. *)
Theorem X2_order_of_tasks :
  forall (self : ActionsAuditor) (tasks tasks' : list pyval),
    Permutation tasks tasks' ->
    forallb valid_task tasks = true ->
    exists high high' loops loops',
      _check_high_intervention_rate self tasks
      = Ok (with_anomalies self (anomalies self ++ high))
      /\ _check_high_intervention_rate self tasks'
         = Ok (with_anomalies self (anomalies self ++ high'))
      /\ _check_task_loops self tasks
         = Ok (with_anomalies self (anomalies self ++ loops))
      /\ _check_task_loops self tasks'
         = Ok (with_anomalies self (anomalies self ++ loops'))
      /\ (forall agent : string,
            List.filter (names_agent (HStr agent)) high
            = List.filter (names_agent (HStr agent)) high')
      /\ List.filter (names_agent HNone) high = List.filter (names_agent HNone) high'
      /\ (forall key : string,
            List.filter (names_title key) loops = List.filter (names_title key) loops').
Proof.
  intros self tasks tasks' Hperm Hvalid.
  assert (forallb valid_task tasks' = true) as Hvalid'
    by (by rewrite <- (forallb_permutation _ _ _ Hperm)).
  exists (high_intervention_anomalies (INTERVENTION_THRESHOLD self) tasks),
    (high_intervention_anomalies (INTERVENTION_THRESHOLD self) tasks'),
    (task_loop_anomalies (LOOP_THRESHOLD self) tasks),
    (task_loop_anomalies (LOOP_THRESHOLD self) tasks').
  split; [by apply check_high_intervention_rate_valid|].
  split; [by apply check_high_intervention_rate_valid|].
  split; [by apply check_task_loops_valid|].
  split; [by apply check_task_loops_valid|].
  assert (forall k, intervention_count k tasks = intervention_count k tasks') as Hcount
    by (intros; by apply filter_length_permutation).
  assert (forall key, title_count key tasks = title_count key tasks') as Htitle
    by (intros; by apply filter_length_permutation).
  split; [|split].
  - intros agent.
    by rewrite !(high_intervention_for_agent _ _ (HStr agent) (key_eqb_str agent)),
      Hcount.
  - by rewrite !(high_intervention_for_agent _ _ HNone key_eqb_none), Hcount.
  - intros key. by rewrite !task_loop_for_title, Htitle.
Qed.

Lemma X2_witness :
  exists high high',
    _check_high_intervention_rate (init "demo" 3 2) four_qa_tasks
    = Ok (with_anomalies (init "demo" 3 2) (anomalies (init "demo" 3 2) ++ high))
    /\ _check_high_intervention_rate (init "demo" 3 2) (rev four_qa_tasks)
       = Ok (with_anomalies (init "demo" 3 2) (anomalies (init "demo" 3 2) ++ high'))
    /\ List.filter (names_agent (HStr qa_coordinator)) high
       = List.filter (names_agent (HStr qa_coordinator)) high'.
Proof.
  destruct (X2_order_of_tasks (init "demo" 3 2) four_qa_tasks (rev four_qa_tasks))
    as (high & high' & _ & _ & H1 & H2 & _ & _ & Hagent & _);
    [apply Permutation_rev|vm_compute; reflexivity|].
  exists high, high'. split; [exact H1|]. split; [exact H2|apply Hagent].
Defined.

(** X3: the [try] block of [run_audit] lets no exception escape: whatever
    the files hold and whatever the JSON parser answers, it returns, or it
    ends in [sys.exit(1)]. *)
Theorem X3_audit_try_block_exits_or_returns :
  forall (libs : Libraries) (fs : filesystem) (self : ActionsAuditor),
    (exists self', run_audit_try fs self = Ok self')
    \/ run_audit_try fs self = Raise (SystemExit 1).
Proof.
  intros libs fs self. unfold run_audit_try.
  pose proof (catchable_audit_body fs self) as Hc.
  destruct (audit_body fs self) as [self'|e]; [left; by eexists|].
  right. by rewrite (Hc e eq_refl).
Qed.



(** X5: on a workflow file that exists, can be read and parses to an
    object whose three buckets (each a list, or absent) hold at least one
    task, all of the data model, the [try] block runs both checks over
    [pending + active + completed] and prints one summary: the anomalies
    held before, then those of the intervention check, then those of the
    loop check. *)
Theorem X5_audit_of_a_workflow_file :
  forall (libs : Libraries) (fs : filesystem) (self : ActionsAuditor)
         (text : string) (workflow : list (string * pyval))
         (pending active completed : list pyval),
    path_exists fs (workflow_file self) = true ->
    read_text fs (workflow_file self) = Ok text ->
    json_load text = Some (PDict workflow) ->
    from_option id (PList []) (dict_get "pending_tasks" workflow) = PList pending ->
    from_option id (PList []) (dict_get "active_tasks" workflow) = PList active ->
    from_option id (PList []) (dict_get "completed_tasks" workflow) = PList completed ->
    pending ++ active ++ completed <> [] ->
    forallb valid_task (pending ++ active ++ completed) = true ->
    run_audit_try fs self
    = Ok (_print_report
            (with_anomalies self
               (anomalies self
                ++ high_intervention_anomalies (INTERVENTION_THRESHOLD self)
                     (pending ++ active ++ completed)
                ++ task_loop_anomalies (LOOP_THRESHOLD self)
                     (pending ++ active ++ completed)))).
Proof.
  intros libs fs self text workflow pending active completed
    Hexists Hread Hload Hp Ha Hc Hne Hvalid.
  unfold run_audit_try.
  by rewrite (audit_body_valid_workflow fs self text workflow pending active completed).
Qed.

Lemma X5_witness :
  run_audit_try (libs:=sample_libraries) lint_project (init "demo" 3 2)
  = Ok (_print_report
          (with_anomalies (init "demo" 3 2)
             (anomalies (init "demo" 3 2)
              ++ high_intervention_anomalies 3
                   (lint_pending ++ lint_active ++ lint_completed)
              ++ task_loop_anomalies 2
                   (lint_pending ++ lint_active ++ lint_completed)))).
Proof.
  apply (X5_audit_of_a_workflow_file sample_libraries lint_project (init "demo" 3 2)
           lint_workflow_json
           [("pending_tasks", PList lint_pending);
            ("active_tasks", PList lint_active);
            ("completed_tasks", PList lint_completed)]
           lint_pending lint_active lint_completed);
    try (vm_compute; reflexivity).
  discriminate.
Defined.

(** X6: a normalised title is in lower case and consists of at most
    four words, none empty and none with a white-space character, with
    single spaces between them. *)
Theorem X6_normalized_title_shape :
  forall title : string,
    exists words : list string,
      normalize title = join " " words
      /\ length words <= 4
      /\ Forall word words
      /\ lower (normalize title) = normalize title.
Proof.
  intros title.
  destruct (NormalizeFacts.normalize_words title) as (words & Hwords & Hlen & Heq).
  exists words. split; [exact Heq|]. split; [exact Hlen|]. split; [exact Hwords|].
  apply NormalizeFacts.normalize_lowered.
Qed.

(** X7: for titles of the range of the model, U+0000-U+00FF: once a
    title has four words left after it is put in lower case and the
    marker is removed, anything that follows it after a white-space
    character (one of [is_space]: the controls U+0009-U+000D and
    U+001C-U+001F, the space, U+0085, U+00A0) is ignored: appending such
    a character and a suffix does not change the normalised title. *)
Theorem X7_normalization_ignores_suffix :
  forall (title suffix : string) (c : ascii),
    is_space c = true ->
    4 <= length (split (remove "remediation:" (lower title))) ->
    normalize (title +:+ String c suffix) = normalize title.
Proof. intros title suffix c. apply normalize_ignores_suffix. Qed.

Lemma X7_witness :
  normalize ("Remediation: Fix lint errors in module" +:+ String "160"%char "X-124")
  = normalize "Remediation: Fix lint errors in module".
Proof.
  apply X7_normalization_ignores_suffix; [reflexivity|vm_compute; lia].
Defined.

End MoreOfTheAuditor.

(** ** The validator *)

Module ValidatorMore.
Import Py FS Spec Vocabulary Validator ValidatorFacts.

(** *** Stage 1, path by path *)

Lemma check_path_exact `{libs : Libraries} fs path is_dir self :
  _check_path fs path is_dir self
  = (Ok (present fs (path, is_dir)), advance self (check_lines fs (path, is_dir))).
Proof.
  unfold _check_path, check_lines, present. cbn [fst snd].
  destruct (if is_dir then isdir fs path else isfile fs path) eqn:E;
    destruct is_dir; rewrite E; cbn [negb];
    destruct self;
    unfold mbind, method_bind, count_error, print_status, print_error, emit,
      mret, method_ret, advance, failures;
    cbn [fst snd errors output project_name project_dir control_dir schema_dir
         List.filter failed_status length Z.of_nat Pos.of_succ_nat];
    rewrite ?Z.add_0_r, <- ?app_assoc; reflexivity.
Qed.

Lemma failures_check_lines fs entry :
  failures (check_lines fs entry) = if present fs entry then 0 else 1.
Proof. unfold check_lines. by destruct (present fs entry). Qed.

Lemma failures_flat_map fs entries :
  failures (flat_map (check_lines fs) entries)
  = length (List.filter (fun entry => negb (present fs entry)) entries).
Proof.
  induction entries as [|entry entries IH]; [done|].
  cbn [flat_map List.filter]. rewrite failures_app, failures_check_lines, IH.
  by destruct (present fs entry).
Qed.

Lemma bind_eq {A B} (m : method A) (f : A -> method B) self a self' :
  m self = (Ok a, self') -> (m ≫= f) self = f a self'.
Proof. unfold mbind, method_bind. by intros ->. Qed.

Lemma emit_advance l self :
  failed_status l = false -> emit l self = (Ok tt, advance self [l]).
Proof.
  intros Hl. unfold emit, advance, failures. cbn [List.filter]. rewrite Hl.
  cbn [length Z.of_nat]. by rewrite Z.add_0_r.
Qed.

Lemma check_paths_exact `{libs : Libraries} fs (dir : string) (files : list string) self :
  for_each files (fun f => _check_path fs (path_join dir f) false;; mret tt) self
  = (Ok tt,
     advance self
       (flat_map (check_lines fs) (map (fun f => (path_join dir f, false)) files))).
Proof.
  revert self. induction files as [|f files IH]; intros self.
  - cbn. by rewrite advance_nil.
  - cbn [for_each map flat_map].
    erewrite bind_eq; [|erewrite bind_eq by apply check_path_exact; reflexivity].
    by rewrite IH, advance_advance.
Qed.

Lemma file_existence_exact `{libs : Libraries} fs name self :
  project_dir self = project_dir (init name) ->
  control_dir self = control_dir (init name) ->
  schema_dir self = schema_dir (init name) ->
  _validate_file_existence fs self = (Ok tt, advance self (existence_lines fs name)).
Proof.
  intros Hp Hc Hs. unfold _validate_file_existence.
  erewrite bind_eq by (by apply emit_advance).
  rewrite bind_this. cbn [project_dir control_dir schema_dir advance].
  rewrite Hp, Hc, Hs.
  do 4 (erewrite bind_eq by apply check_path_exact).
  erewrite bind_eq by apply check_paths_exact.
  rewrite check_paths_exact, !advance_advance.
  unfold existence_lines, required_paths.
  rewrite !flat_map_app. cbn [flat_map]. rewrite app_nil_r.
  do 2 f_equal. cbn [app]. f_equal. by rewrite <- !app_assoc.
Qed.

Lemma failures_existence_lines fs name :
  failures (existence_lines fs name) = length (missing_paths fs name).
Proof.
  unfold existence_lines, missing_paths.
  change (Banner "1. Validating File & Directory Structure"
          :: flat_map (check_lines fs) (required_paths name))
    with ([Banner "1. Validating File & Directory Structure"]
          ++ flat_map (check_lines fs) (required_paths name)).
  by rewrite failures_app, failures_flat_map.
Qed.

Lemma missing_paths_complete fs name :
  structure_complete fs name = true <-> missing_paths fs name = [].
Proof.
  unfold structure_complete, missing_paths. fold (present fs).
  assert (forall entries,
            forallb (present fs) entries = true
            <-> List.filter (fun entry => negb (present fs entry)) entries = [])
    as H; [|apply H].
  induction entries as [|entry entries IH]; [done|].
  cbn [forallb List.filter]. destruct (present fs entry); cbn [negb andb]; [done|].
  split; discriminate.
Qed.

(** The run on an incomplete project. *)
Lemma run_on_incomplete_project `{libs : Libraries} fs name :
  structure_complete fs name = false ->
  run_validations fs (init name)
  = (Ok false,
     advance (init name)
       (Banner ("Validating Project: " +:+ name) :: existence_lines fs name)).
Proof.
  intros Hincomplete. unfold run_validations. rewrite bind_this.
  erewrite bind_eq by (by apply emit_advance).
  erewrite bind_eq by (by apply (file_existence_exact fs name)).
  rewrite bind_this, advance_advance.
  assert (0 < errors (advance (init name)
                        ([Banner ("Validating Project: " +:+ project_name (init name))]
                         ++ existence_lines fs name)))%Z as Hpos.
  { unfold advance. cbn [errors init]. rewrite failures_app, failures_existence_lines.
    destruct (missing_paths fs name) eqn:E; [|cbn; lia].
    apply missing_paths_complete in E. congruence. }
  apply Z.ltb_lt in Hpos. rewrite Hpos. reflexivity.
Qed.

(** *** What escapes the YAML stage *)

Lemma read_text_raises fs path e :
  read_text fs path = Raise e -> read_error e = true.
Proof. unfold read_text. destruct (fs path) as [| |[] text| |]; by intros [= <-]. Qed.

Lemma str_in_raises key data e : str_in key data = Raise e -> e = TypeError.
Proof. destruct data; by intros [= <-]. Qed.

Lemma has_agent_list_raises data e : has_agent_list data = Raise e -> e = TypeError.
Proof.
  unfold has_agent_list.
  destruct (str_in "agents" data) as [[]|e0] eqn:E; cbn [mbind result_bind].
  - destruct data; cbn; try done; by intros [= <-].
  - done.
  - intros [= <-]. by apply str_in_raises in E.
Qed.

Lemma filterM_raises {A} (p : A -> result bool) l e :
  filterM p l = Raise e -> exists x, p x = Raise e.
Proof.
  induction l as [|x l IH]; [done|]. cbn [filterM].
  destruct (p x) as [b|e0] eqn:E; cbn [mbind result_bind].
  - destruct (filterM p l) as [rest|e1]; cbn [mbind result_bind]; [done|].
    intros [= <-]. by apply IH.
  - intros [= <-]. by exists x.
Qed.

Section Escapes.
Context `{libs : Libraries} (fs : filesystem).

Lemma capabilities_yaml_escapes self e :
  fst (validate_capabilities_yaml fs self) = Raise e -> escapes_yaml_stage e = true.
Proof.
  unfold validate_capabilities_yaml. rewrite bind_this. cbv zeta. unfold try_except.
  destruct (read_text fs _) as [text|e0] eqn:Hread.
  - rewrite bind_lift_ok.
    destruct (yaml_safe_load text) as [data|]; cbn [from_option].
    + rewrite bind_lift_ok.
      destruct (has_agent_list data) as [valid|e1] eqn:Hvalid.
      * rewrite bind_lift_ok. by destruct valid.
      * rewrite bind_lift_raise. apply has_agent_list_raises in Hvalid as ->.
        cbn. by intros [= <-].
    + rewrite bind_lift_raise. cbn. done.
  - rewrite bind_lift_raise. pose proof (read_text_raises _ _ _ Hread) as Hopen.
    unfold escapes_yaml_stage. destruct e0; try done; cbn; by intros [= <-].
Qed.

Lemma sprint_yaml_escapes self e :
  fst (validate_sprint_yaml fs self) = Raise e -> escapes_yaml_stage e = true.
Proof.
  unfold validate_sprint_yaml. rewrite bind_this. cbv zeta. unfold try_except.
  destruct (read_text fs _) as [text|e0] eqn:Hread.
  - rewrite bind_lift_ok.
    destruct (yaml_safe_load text) as [data|]; cbn [from_option].
    + rewrite bind_lift_ok.
      destruct (filterM _ _) as [missing|e1] eqn:Hmissing.
      * rewrite bind_lift_ok. by destruct (bool_decide _).
      * rewrite bind_lift_raise.
        apply filterM_raises in Hmissing as [key Hkey].
        destruct (str_in key data) as [b|e2] eqn:Hin; [done|].
        apply str_in_raises in Hin as ->. cbn in Hkey. injection Hkey as <-.
        cbn. by intros [= <-].
    + rewrite bind_lift_raise. cbn. done.
  - rewrite bind_lift_raise. pose proof (read_text_raises _ _ _ Hread) as Hopen.
    unfold escapes_yaml_stage. destruct e0; try done; cbn; by intros [= <-].
Qed.

Lemma yaml_files_escapes self e :
  fst (_validate_yaml_files fs self) = Raise e -> escapes_yaml_stage e = true.
Proof.
  unfold _validate_yaml_files.
  erewrite bind_eq by (by apply emit_advance).
  unfold mbind, method_bind.
  destruct (validate_capabilities_yaml fs _) as [[[]|e1] s1] eqn:H1.
  - apply sprint_yaml_escapes.
  - cbn. intros [= <-]. apply (capabilities_yaml_escapes (advance self [Banner "3. Validating YAML Files"])).
    by rewrite H1.
Qed.

(** A run is aborted by the YAML stage or not at all. *)
Lemma run_validations_escapes self e :
  fst (run_validations fs self) = Raise e -> escapes_yaml_stage e = true.
Proof.
  unfold run_validations. rewrite bind_this.
  erewrite bind_eq by (by apply emit_advance).
  unfold mbind at 1, method_bind at 1.
  pose proof (file_existence_total fs (advance self
                [Banner ("Validating Project: " +:+ project_name self)])) as T1.
  destruct (_validate_file_existence fs _) as [[[]|e1] s1]; [|done].
  rewrite bind_this. destruct (0 <? errors s1)%Z; [done|].
  unfold mbind at 1, method_bind at 1.
  pose proof (roomodes_total fs s1) as T2.
  destruct (_validate_roomodes fs s1) as [[[]|e2] s2]; [|done].
  unfold mbind at 1, method_bind at 1.
  destruct (_validate_yaml_files fs s2) as [[[]|e3] s3] eqn:H3.
  - unfold mbind at 1, method_bind at 1.
    pose proof (json_files_total fs s3) as T4.
    destruct (_validate_json_files fs s3) as [[[]|e4] s4]; [|done].
    unfold mbind at 1, method_bind at 1.
    pose proof (cross_reference_total fs s4) as T5.
    destruct (_cross_reference_capabilities fs s4) as [[[]|e5] s5]; [|done].
    done.
  - cbn. intros [= <-]. apply (yaml_files_escapes s2). by rewrite H3.
Qed.

End Escapes.

(** *** Stages 3 to 5, case by case *)

Ltac count_failure H :=
  match goal with
  | |- context [(count_error ≫= (fun _ => print_status ?m false
                                          ≫= (fun _ => print_error ?d))) ?s] =>
      let s' := fresh "s" in
      let Hrun := fresh "Hrun" in
      let Herr := fresh "Herr" in
      destruct (H m d s) as (s' & Hrun & Herr); rewrite Hrun; clear Hrun;
      cbn in Herr
  end.

Section Cases.
Context `{libs : Libraries} (fs : filesystem).

Lemma json_files_exact self :
  exists self',
    _validate_json_files fs self = (Ok tt, self')
    /\ errors self'
       = (errors self
          + if json_passes fs self "workflow-state.json" "workflow_state_v2.schema.json"
            then 0 else 1)%Z.
Proof.
  unfold _validate_json_files, json_passes.
  erewrite bind_eq by (by apply emit_advance).
  cbn [for_each validation_map fst snd]. unfold validate_against.
  unfold mbind at 1, method_bind at 1. rewrite bind_this. unfold try_except.
  cbn [control_dir schema_dir advance].
  assert (forall message d (s : ConfigValidator),
            exists s', (count_error;; print_status message false;; print_error d) s
                       = (Ok tt, s') /\ errors s' = (errors s + 1)%Z) as Hfail.
  { intros. eexists. split; [reflexivity|]. reflexivity. }
  destruct (read_text fs (path_join (control_dir self) _)) as [data_text|e1] eqn:H1.
  2:{ rewrite bind_lift_raise. pose proof (read_text_raises _ _ _ H1).
      destruct e1; try done; cbn [is_Exception];
        count_failure Hfail;
        eexists; (split; [reflexivity|]); cbn; lia. }
  rewrite bind_lift_ok.
  destruct (json_load data_text) as [instance|]; cbn [from_option].
  2:{ rewrite bind_lift_raise.
      count_failure Hfail.
      eexists; (split; [reflexivity|]); cbn.
      match goal with |- context [read_text fs ?p] => destruct (read_text fs p) end;
        cbn; lia. }
  rewrite bind_lift_ok.
  destruct (read_text fs (path_join (schema_dir self) _)) as [schema_text|e2] eqn:H2.
  2:{ rewrite bind_lift_raise. pose proof (read_text_raises _ _ _ H2).
      destruct e2; try done; cbn [is_Exception];
        count_failure Hfail;
        eexists; (split; [reflexivity|]); cbn; lia. }
  rewrite bind_lift_ok.
  destruct (json_load schema_text) as [schema|]; cbn [from_option].
  2:{ rewrite bind_lift_raise.
      count_failure Hfail.
      eexists; (split; [reflexivity|]); cbn; lia. }
  rewrite bind_lift_ok.
  destruct (jsonschema_validate instance schema).
  - rewrite bind_lift_ok. eexists. split; [reflexivity|]. cbn. lia.
  - rewrite bind_lift_raise.
    count_failure Hfail.
    eexists; (split; [reflexivity|]); cbn; lia.
  - rewrite bind_lift_raise. cbn [is_Exception].
    count_failure Hfail.
    eexists; (split; [reflexivity|]); cbn; lia.
Qed.

Lemma roomodes_exact self :
  exists self',
    _validate_roomodes fs self = (Ok tt, self')
    /\ errors self' = (errors self + if roomodes_passes fs then 0 else 1)%Z.
Proof.
  unfold _validate_roomodes, roomodes_passes.
  erewrite bind_eq by (by apply emit_advance).
  cbv zeta. unfold try_except.
  destruct (read_text fs ".roomodes") as [content|e] eqn:Hread.
  - rewrite bind_lift_ok. destruct (String.eqb (strip content) "");
      eexists; (split; [reflexivity|]); cbn; lia.
  - rewrite bind_lift_raise. pose proof (read_text_raises _ _ _ Hread).
    destruct e; try done; cbn [is_Exception];
      eexists; (split; [reflexivity|]); cbn; lia.
Qed.

Lemma filter_sublist {A} (p : A -> bool) l : sublist (List.filter p l) l.
Proof.
  induction l as [|x l IH]; [constructor|]. cbn [List.filter].
  destruct (p x); by constructor.
Qed.

Lemma filterM_str_in_dict d keys :
  filterM (fun key => present ← str_in key (PDict d); Ok (negb present)) keys
  = Ok (List.filter (fun key => negb (bool_decide (is_Some (dict_get key d)))) keys).
Proof.
  induction keys as [|key keys IH]; [done|].
  cbn [filterM]. rewrite IH. cbn. by destruct (bool_decide _).
Qed.

Lemma sprint_yaml_exact self text d :
  read_text fs (path_join (control_dir self) "sprint.yaml") = Ok text ->
  yaml_safe_load text = Some (PDict d) ->
  let missing :=
    List.filter (fun key => negb (bool_decide (is_Some (dict_get key d))))
                ["sprint_id"; "goal"; "status"] in
  validate_sprint_yaml fs self
  = (Ok tt,
     advance self
       (if bool_decide (missing = [])
        then [Status "Validating sprint.yaml structure" true]
        else [Status "Validating sprint.yaml structure" false;
              Error (MissingRequiredKeys missing)])).
Proof.
  intros Hread Hload missing.
  unfold validate_sprint_yaml. rewrite bind_this. cbv zeta. unfold try_except.
  rewrite Hread, bind_lift_ok, Hload. cbn [from_option].
  rewrite bind_lift_ok, filterM_str_in_dict, bind_lift_ok. fold missing.
  destruct (bool_decide (missing = [])).
  - unfold print_status. by rewrite emit_advance.
  - destruct self. unfold advance, failures. simpl. do 2 f_equal.
    by rewrite <- app_assoc.
Qed.

Lemma mapM_as_str_raises keys :
  existsb (fun k => match k with HStr _ => false | _ => true end) keys = true ->
  mapM as_str keys = Raise TypeError.
Proof.
  induction keys as [|k keys IH]; [done|]. cbn [existsb mapM].
  destruct k; cbn [as_str mbind result_bind orb]; try done.
  intros H. fold (mapM as_str keys). by rewrite IH.
Qed.

Lemma cross_reference_passes self modes_text caps_text caps agents :
  read_text fs ".roomodes" = Ok modes_text ->
  read_text fs (path_join (control_dir self) "capabilities.yaml") = Ok caps_text ->
  yaml_safe_load caps_text = Some (PDict caps) ->
  dict_get "agents" caps = Some (PList (map PStr agents)) ->
  List.filter (fun a => negb (existsb (String.eqb a) (defined_modes modes_text)))
              (set_of String.eqb agents) = [] ->
  _cross_reference_capabilities fs self
  = (Ok tt,
     advance self
       [Banner "5. Cross-Referencing Agent Capabilities";
        Status "All project agents are defined in .roomodes" true]).
Proof.
  intros Hmodes Hcaps Hload Hagents Hnone.
  unfold _cross_reference_capabilities.
  unfold mbind at 1, method_bind at 1. cbn [emit].
  rewrite bind_this. unfold try_except. cbn [control_dir].
  rewrite Hmodes, bind_lift_ok. cbv zeta.
  rewrite Hcaps, bind_lift_ok, Hload. cbn [from_option].
  rewrite bind_lift_ok, (agent_set_strings caps agents Hagents), bind_lift_ok.
  rewrite filter_map_HStr. cbn [is_defined]. rewrite Hnone.
  destruct self. unfold advance, failures. simpl. do 2 f_equal; [lia|].
  by rewrite <- !app_assoc.
Qed.

Lemma cross_reference_counts_twice self modes_text caps_text caps items keys :
  read_text fs ".roomodes" = Ok modes_text ->
  read_text fs (path_join (control_dir self) "capabilities.yaml") = Ok caps_text ->
  yaml_safe_load caps_text = Some (PDict caps) ->
  dict_get "agents" caps = Some (PList items) ->
  mapM hash_key items = Ok keys ->
  existsb (fun k => match k with HStr _ => false | _ => true end)
    (List.filter (fun a => negb (is_defined (defined_modes modes_text) a))
                 (set_of key_eqb keys)) = true ->
  _cross_reference_capabilities fs self
  = (Ok tt,
     advance self
       [Banner "5. Cross-Referencing Agent Capabilities";
        Status "All project agents are defined in .roomodes" false;
        Status "Cross-referencing capabilities" false;
        Error (CrossReferenceFailed TypeError)]).
Proof.
  intros Hmodes Hcaps Hload Hagents Hkeys Hodd.
  unfold _cross_reference_capabilities.
  unfold mbind at 1, method_bind at 1. cbn [emit].
  rewrite bind_this. unfold try_except. cbn [control_dir].
  rewrite Hmodes, bind_lift_ok. cbv zeta.
  rewrite Hcaps, bind_lift_ok, Hload. cbn [from_option].
  rewrite bind_lift_ok.
  assert (agent_set (PDict caps) = Ok (set_of key_eqb keys)) as ->.
  { unfold agent_set, get. rewrite Hagents.
    cbn [from_option id mbind result_bind iterate]. by rewrite Hkeys. }
  rewrite bind_lift_ok.
  rewrite bool_decide_eq_false_2
    by (intros Hnil; rewrite Hnil in Hodd; discriminate Hodd).
  rewrite (mapM_as_str_raises _ Hodd).
  destruct self. unfold advance, failures. simpl.
  unfold mbind, method_bind, count_error, print_status, print_error, emit.
  simpl. do 2 f_equal; [lia|]. by rewrite <- !app_assoc.
Qed.

End Cases.

(** *** A run that returns [True] *)

Lemma stage_advance {A} P (m : method A) self :
  behaves P m -> exists lines, snd (m self) = advance self lines.
Proof. intros Hm. destruct (Hm self) as (lines & H & _). by exists lines. Qed.

Lemma run_true_stages `{libs : Libraries} fs name :
  fst (run_validations fs (init name)) = Ok true ->
  roomodes_passes fs = true
  /\ json_passes fs (init name) "workflow-state.json" "workflow_state_v2.schema.json"
     = true.
Proof.
  unfold run_validations. rewrite bind_this.
  erewrite bind_eq by (by apply emit_advance).
  set (s0 := advance (init name) _).
  unfold mbind at 1, method_bind at 1.
  destruct (stage_advance _ _ s0 (file_existence_behaves fs)) as (l1 & H1).
  destruct (_validate_file_existence fs s0) as [[[]|e1] s1]; [|done].
  cbn [snd] in H1. rewrite bind_this.
  destruct (Z.ltb_spec 0 (errors s1)) as [|Hzero]; [done|].
  unfold mbind at 1, method_bind at 1.
  destruct (stage_advance _ _ s1 (roomodes_behaves fs)) as (l2 & H2).
  destruct (roomodes_exact fs s1) as (s2 & Hrun2 & Herr2).
  rewrite Hrun2 in H2 |- *. cbn [snd] in H2.
  unfold mbind at 1, method_bind at 1.
  destruct (stage_advance _ _ s2 (yaml_files_behaves fs)) as (l3 & H3).
  destruct (_validate_yaml_files fs s2) as [[[]|e3] s3]; [|done].
  cbn [snd] in H3.
  unfold mbind at 1, method_bind at 1.
  destruct (stage_advance _ _ s3 (json_files_behaves fs)) as (l4 & H4).
  destruct (json_files_exact fs s3) as (s4 & Hrun4 & Herr4).
  rewrite Hrun4 in H4 |- *. cbn [snd] in H4.
  unfold mbind at 1, method_bind at 1.
  destruct (stage_advance _ _ s4 (cross_reference_behaves fs)) as (l5 & H5).
  destruct (_cross_reference_capabilities fs s4) as [[[]|e5] s5]; [|done].
  cbn [snd] in H5. rewrite bind_this. cbn [mret method_ret fst].
  intros [= Hfinal%Z.eqb_eq].
  assert (json_passes fs s3 "workflow-state.json" "workflow_state_v2.schema.json"
          = json_passes fs (init name) "workflow-state.json"
              "workflow_state_v2.schema.json") as Hsame.
  { rewrite H3, H2, H1. reflexivity. }
  rewrite <- Hsame. clear Hsame.
  assert (errors s0 = 0%Z) as Hs0 by reflexivity.
  assert (errors s1 = errors s0 + Z.of_nat (failures l1))%Z as E1 by (by rewrite H1).
  assert (errors s3 = errors s2 + Z.of_nat (failures l3))%Z as E3 by (by rewrite H3).
  assert (errors s5 = errors s4 + Z.of_nat (failures l5))%Z as E5 by (by rewrite H5).
  destruct (roomodes_passes fs), (json_passes fs s3 _ _); try done; lia.
Qed.

(** *** Where a run is aborted *)

Lemma run_aborts_in_yaml_stage `{libs : Libraries} fs self e :
  fst (run_validations fs self) = Raise e ->
  exists self', fst (_validate_yaml_files fs self') = Raise e.
Proof.
  unfold run_validations. rewrite bind_this.
  erewrite bind_eq by (by apply emit_advance).
  unfold mbind at 1, method_bind at 1.
  pose proof (file_existence_total fs (advance self
                [Banner ("Validating Project: " +:+ project_name self)])) as T1.
  destruct (_validate_file_existence fs _) as [[[]|e1] s1]; [|done].
  rewrite bind_this. destruct (0 <? errors s1)%Z; [done|].
  unfold mbind at 1, method_bind at 1.
  pose proof (roomodes_total fs s1) as T2.
  destruct (_validate_roomodes fs s1) as [[[]|e2] s2]; [|done].
  unfold mbind at 1, method_bind at 1.
  destruct (_validate_yaml_files fs s2) as [[[]|e3] s3] eqn:H3.
  - unfold mbind at 1, method_bind at 1.
    pose proof (json_files_total fs s3) as T4.
    destruct (_validate_json_files fs s3) as [[[]|e4] s4]; [|done].
    unfold mbind at 1, method_bind at 1.
    pose proof (cross_reference_total fs s4) as T5.
    destruct (_cross_reference_capabilities fs s4) as [[[]|e5] s5]; [|done].
    done.
  - cbn. intros [= <-]. exists s2. by rewrite H3.
Qed.

(** *** Agents that are declared, or are no strings *)

Lemma undefined_agents_none (modes agents : list string) :
  (List.filter (fun a => negb (existsb (String.eqb a) modes))
               (set_of String.eqb agents) = []
   /\ forall a, a ∈ agents -> a ∈ modes)
  \/ (List.filter (fun a => negb (existsb (String.eqb a) modes))
                  (set_of String.eqb agents) <> []
      /\ ~ forall a, a ∈ agents -> a ∈ modes).
Proof.
  destruct (List.filter _ _) as [|x rest] eqn:E.
  - left. split; [done|]. intros a Ha.
    destruct (existsb (String.eqb a) modes) eqn:Hdefined.
    + by apply existsb_eqb_iff.
    + assert (In a []) as []. rewrite <- E. apply filter_In.
      split; [|by rewrite Hdefined].
      by apply list_elem_of_In, set_of_str_elem.
  - right. split; [done|]. intros Hall.
    assert (In x (x :: rest)) as Hx by (by left).
    rewrite <- E in Hx. apply filter_In in Hx as [Hx Hundefined].
    apply list_elem_of_In, set_of_str_elem, Hall, existsb_eqb_iff in Hx.
    by rewrite Hx in Hundefined.
Qed.

Lemma set_of_keeps_no_string keys key :
  key ∈ keys -> (forall name : string, key <> HStr name) ->
  exists k, k ∈ set_of key_eqb keys /\ forall name : string, k <> HStr name.
Proof.
  intros Hin Hkey. induction keys as [|k keys IH]; [by apply elem_of_nil in Hin|].
  cbn [set_of]. apply elem_of_cons in Hin as [<-|Hin].
  - exists key. split; [left|done].
  - destruct (IH Hin) as (k' & Hk' & Hno).
    destruct (key_eqb k k') eqn:E.
    + exists k. split; [left|]. intros name ->.
      destruct k'; cbn in E; try done. by destruct (Hno s).
    + exists k'. split; [|done]. right.
      apply list_elem_of_In, filter_In. split; [by apply list_elem_of_In|].
      by rewrite E.
Qed.

Lemma undefined_no_string modes_text keys :
  (exists key, key ∈ keys /\ forall name : string, key <> HStr name) ->
  existsb (fun k => match k with HStr _ => false | _ => true end)
    (List.filter (fun a => negb (is_defined (defined_modes modes_text) a))
                 (set_of key_eqb keys)) = true.
Proof.
  intros (key & Hin & Hkey).
  destruct (set_of_keeps_no_string keys key Hin Hkey) as (k & Hk & Hno).
  apply existsb_exists. exists k. split.
  - apply filter_In. split; [by apply list_elem_of_In|].
    destruct k; try done. by destruct (Hno s).
  - destruct k; try done. by destruct (Hno s).
Qed.

(** *** The capabilities file in stages 3 and 5 *)

Section Capabilities.
Context `{libs : Libraries} (fs : filesystem).

Lemma has_agent_list_dict d : has_agent_list (PDict d) = Ok (lists_agents d).
Proof.
  unfold has_agent_list, lists_agents. cbn [str_in getitem].
  destruct (dict_get "agents" d) as [[| | | |[|x l]|]|]; reflexivity.
Qed.

Lemma capabilities_yaml_unparsable self text :
  read_text fs (path_join (control_dir self) "capabilities.yaml") = Ok text ->
  yaml_safe_load text = None ->
  validate_capabilities_yaml fs self
  = (Ok tt,
     advance self
       [Status ("Parsing " +:+ path_join (control_dir self) "capabilities.yaml") false;
        Error YamlSyntaxError]).
Proof.
  intros Hread Hload.
  unfold validate_capabilities_yaml. rewrite bind_this. cbv zeta. unfold try_except.
  rewrite Hread, bind_lift_ok, Hload. cbn [from_option]. rewrite bind_lift_raise.
  cbn [on_YAMLError]. destruct self. unfold advance, failures. simpl.
  unfold mbind, method_bind, count_error, print_status, print_error, emit.
  simpl. do 2 f_equal. by rewrite <- !app_assoc.
Qed.

Lemma capabilities_yaml_exact self text d :
  read_text fs (path_join (control_dir self) "capabilities.yaml") = Ok text ->
  yaml_safe_load text = Some (PDict d) ->
  validate_capabilities_yaml fs self
  = (Ok tt,
     advance self
       (if lists_agents d
        then [Status "Validating capabilities.yaml structure" true]
        else [Status "Validating capabilities.yaml structure" false;
              Error AgentsKeyInvalid])).
Proof.
  intros Hread Hload.
  unfold validate_capabilities_yaml. rewrite bind_this. cbv zeta. unfold try_except.
  rewrite Hread, bind_lift_ok, Hload. cbn [from_option].
  rewrite bind_lift_ok, has_agent_list_dict, bind_lift_ok.
  destruct (lists_agents d).
  - unfold print_status. by rewrite emit_advance.
  - destruct self. unfold advance, failures. simpl.
    unfold mbind, method_bind, count_error, print_status, print_error, emit.
    simpl. do 2 f_equal. by rewrite <- !app_assoc.
Qed.

Lemma cross_reference_no_agents self modes_text caps_text caps :
  read_text fs ".roomodes" = Ok modes_text ->
  read_text fs (path_join (control_dir self) "capabilities.yaml") = Ok caps_text ->
  yaml_safe_load caps_text = Some (PDict caps) ->
  dict_get "agents" caps = None ->
  _cross_reference_capabilities fs self
  = (Ok tt,
     advance self
       [Banner "5. Cross-Referencing Agent Capabilities";
        Status "All project agents are defined in .roomodes" true]).
Proof.
  intros Hmodes Hcaps Hload Hagents.
  unfold _cross_reference_capabilities.
  unfold mbind at 1, method_bind at 1. cbn [emit].
  rewrite bind_this. unfold try_except. cbn [control_dir].
  rewrite Hmodes, bind_lift_ok. cbv zeta.
  rewrite Hcaps, bind_lift_ok, Hload. cbn [from_option].
  rewrite bind_lift_ok.
  assert (agent_set (PDict caps) = Ok []) as ->.
  { unfold agent_set, get. by rewrite Hagents. }
  rewrite bind_lift_ok. cbn [List.filter].
  destruct self. unfold advance, failures. simpl. do 2 f_equal; [lia|].
  by rewrite <- !app_assoc.
Qed.

Lemma cross_reference_unparsable self modes_text caps_text :
  read_text fs ".roomodes" = Ok modes_text ->
  read_text fs (path_join (control_dir self) "capabilities.yaml") = Ok caps_text ->
  yaml_safe_load caps_text = None ->
  _cross_reference_capabilities fs self
  = (Ok tt,
     advance self
       [Banner "5. Cross-Referencing Agent Capabilities";
        Status "Cross-referencing capabilities" false;
        Error (CrossReferenceFailed YAMLError)]).
Proof.
  intros Hmodes Hcaps Hload.
  unfold _cross_reference_capabilities.
  unfold mbind at 1, method_bind at 1. cbn [emit].
  rewrite bind_this. unfold try_except. cbn [control_dir].
  rewrite Hmodes, bind_lift_ok. cbv zeta.
  rewrite Hcaps, bind_lift_ok, Hload. cbn [from_option].
  rewrite bind_lift_raise. cbn [is_Exception].
  destruct self. unfold advance, failures. simpl.
  unfold mbind, method_bind, count_error, print_status, print_error, emit.
  simpl. do 2 f_equal. by rewrite <- !app_assoc.
Qed.

End Capabilities.

End ValidatorMore.

(** ** The error counter of the validator *)

Section ErrorCounter.
Import Py FS Spec Vocabulary Validator ValidatorFacts ValidatorMore.

(** C7 fails on the code: the counter can end at zero without the
    validation having succeeded.  The YAML stage lets an exception
    escape uncounted, so on a complete project with an unreadable
    [capabilities.yaml], or with an empty [sprint.yaml], the run ends
    with [self.errors == 0] and without a boolean result, and the program
    ends with status 1.

    What the claim says of the counter itself holds of every run, from
    every state of the validator: each stage and the run as a whole add
    to the counter exactly the number of failed checks they print, so it
    never decreases; stage 1 adds one for every missing path, stage 2 one
    unless [.roomodes] can be read and is not blank, stage 4 one unless the
    workflow state conforms to its schema; and a run that returns, returns
    [True] exactly when the counter is zero at the end. *)
Theorem C7_error_counter :
  (forall libs : Libraries,
      let run := run_validations unreadable_capabilities (init "demo") in
      errors (snd run) = 0%Z
      /\ (forall is_valid : bool, fst run <> Ok is_valid)
      /\ main unreadable_capabilities "demo" = 1%Z)
  /\ (let run := run_validations (libs:=sample_libraries) empty_sprint (init "demo") in
      errors (snd run) = 0%Z
      /\ fst run = Raise TypeError
      /\ main (libs:=sample_libraries) empty_sprint "demo" = 1%Z)
  /\ forall (libs : Libraries) (fs : filesystem) (self : ConfigValidator),
       counts_failures (_validate_file_existence fs)
       /\ counts_failures (_validate_roomodes fs)
       /\ counts_failures (_validate_yaml_files fs)
       /\ counts_failures (_validate_json_files fs)
       /\ counts_failures (_cross_reference_capabilities fs)
       /\ counts_failures (run_validations fs)
       /\ (errors self <= errors (snd (run_validations fs self)))%Z
       /\ (forall name,
             errors (snd (_validate_file_existence fs (init name)))
             = Z.of_nat (length (missing_paths fs name)))
       /\ errors (snd (_validate_roomodes fs self))
          = (errors self + if roomodes_passes fs then 0 else 1)%Z
       /\ errors (snd (_validate_json_files fs self))
          = (errors self
             + if json_passes fs self "workflow-state.json"
                    "workflow_state_v2.schema.json"
               then 0 else 1)%Z
       /\ (forall is_valid,
             fst (run_validations fs self) = Ok is_valid ->
             is_valid = true <-> errors (snd (run_validations fs self)) = 0%Z).
Proof.
  split; [|split].
  - intros libs run. subst run. split; [vm_compute; reflexivity|].
    split; [intros is_valid; vm_compute; discriminate|vm_compute; reflexivity].
  - vm_compute. done.
  - intros libs fs self.
    pose proof (behaves_counts _ _ (file_existence_behaves fs)) as H1.
    pose proof (behaves_counts _ _ (roomodes_behaves fs)) as H2.
    pose proof (behaves_counts _ _ (yaml_files_behaves fs)) as H3.
    pose proof (behaves_counts _ _ (json_files_behaves fs)) as H4.
    pose proof (behaves_counts _ _ (cross_reference_behaves fs)) as H5.
    pose proof (behaves_counts _ _ (run_validations_behaves fs)) as H6.
    repeat (split; [assumption|]). split; [|split; [|split; [|split]]].
    + destruct (H6 self) as (lines & _ & ->). lia.
    + intros name.
      rewrite (file_existence_exact fs name (init name)) by reflexivity.
      cbn [snd]. unfold advance. cbn [errors init].
      by rewrite failures_existence_lines.
    + destruct (roomodes_exact fs self) as (self' & Hrun & Herr).
      rewrite Hrun. exact Herr.
    + destruct (json_files_exact fs self) as (self' & Hrun & Herr).
      rewrite Hrun. exact Herr.
    + apply run_validations_verdict.
Qed.

End ErrorCounter.

Section MoreOfTheValidator.
Import Py FS Spec Vocabulary Validator ValidatorFacts ValidatorMore.

(** X8: when a required file or directory of stage 1 is missing, the run
    ends after that stage: [run_validations] returns [False], it has
    printed the banner of the run and the lines of stage 1 and nothing of
    the later stages, the error counter is the number of missing paths,
    and the program exits with status 1. *)
Theorem X8_incomplete_structure_ends_the_run :
  forall (libs : Libraries) (fs : filesystem) (name : string),
    structure_complete fs name = false ->
    let run := run_validations fs (init name) in
    fst run = Ok false
    /\ output (snd run)
       = Banner ("Validating Project: " +:+ name) :: existence_lines fs name
    /\ errors (snd run) = Z.of_nat (length (missing_paths fs name))
    /\ missing_paths fs name <> []
    /\ main fs name = 1%Z.
Proof.
  intros libs fs name Hincomplete run. subst run.
  unfold main. rewrite (run_on_incomplete_project fs name Hincomplete).
  cbn [fst snd]. split; [done|]. split; [done|]. split; [|split; [|done]].
  - unfold advance. cbn [errors init]. rewrite <- failures_existence_lines.
    reflexivity.
  - intros Hnone%missing_paths_complete. congruence.
Qed.

Lemma X8_witness :
  let run := run_validations (libs:=sample_libraries) ghost_project_without_backlog
               (init "demo") in
  fst run = Ok false
  /\ output (snd run)
     = Banner ("Validating Project: " +:+ "demo")
       :: existence_lines ghost_project_without_backlog "demo"
  /\ errors (snd run)
     = Z.of_nat (length (missing_paths ghost_project_without_backlog "demo"))
  /\ missing_paths ghost_project_without_backlog "demo" <> []
  /\ main (libs:=sample_libraries) ghost_project_without_backlog "demo" = 1%Z.
Proof.
  apply (X8_incomplete_structure_ends_the_run sample_libraries
           ghost_project_without_backlog "demo").
  vm_compute. reflexivity.
Defined.

(** X9: when a run is aborted by an exception, it is the YAML stage
    that let it escape, and the exception is not [yaml.YAMLError], the
    one class that stage catches; the run had passed stage 1 with every
    required path there, and the program exits with status 1.  A
    [capabilities.yaml] whose bytes are no text in the encoding of the
    run aborts the run in this way. *)
Theorem X9_what_aborts_a_run :
  forall (libs : Libraries) (fs : filesystem) (name : string) (e : exn),
    fst (run_validations fs (init name)) = Raise e ->
    structure_complete fs name = true
    /\ (exists self, fst (_validate_yaml_files fs self) = Raise e)
    /\ e <> YAMLError
    /\ main fs name = 1%Z.
Proof.
  intros libs fs name e Hrun.
  pose proof (run_validations_escapes fs _ _ Hrun) as Hescapes.
  split; [|split; [|split]].
  - destruct (structure_complete fs name) eqn:E; [done|].
    rewrite (run_on_incomplete_project fs name E) in Hrun. discriminate Hrun.
  - apply (run_aborts_in_yaml_stage fs _ _ Hrun).
  - intros ->. discriminate Hescapes.
  - unfold main. rewrite Hrun. by destruct e.
Qed.

Lemma X9_witness :
  structure_complete undecodable_capabilities "demo" = true
  /\ (exists self,
        fst (_validate_yaml_files (libs:=sample_libraries) undecodable_capabilities self)
        = Raise UnicodeDecodeError)
  /\ UnicodeDecodeError <> YAMLError
  /\ main (libs:=sample_libraries) undecodable_capabilities "demo" = 1%Z.
Proof.
  apply (X9_what_aborts_a_run sample_libraries undecodable_capabilities "demo").
  vm_compute. reflexivity.
Defined.

(** X10: the validator exits with status 0 only if every required file
    and directory of stage 1 is there, [.roomodes] can be read and holds
    more than white space, [workflow-state.json] and its schema can be
    read and parsed and the one conforms to the other, and no check of the
    run printed a failure. *)
Theorem X10_exit_status_zero :
  forall (libs : Libraries) (fs : filesystem) (name : string),
    main fs name = 0%Z ->
    structure_complete fs name = true
    /\ roomodes_passes fs = true
    /\ json_passes fs (init name) "workflow-state.json" "workflow_state_v2.schema.json"
       = true
    /\ failures (output (snd (run_validations fs (init name)))) = 0.
Proof.
  intros libs fs name Hmain.
  assert (fst (run_validations fs (init name)) = Ok true) as Hrun.
  { destruct (run_validations_behaves fs (init name)) as (lines & _ & _ & Hcatch).
    unfold main in Hmain.
    destruct (fst (run_validations fs (init name))) as [[]|e]; [done|done|].
    specialize (Hcatch e eq_refl). by destruct e. }
  destruct (run_true_stages fs name Hrun) as [Hroomodes Hjson].
  split; [|split; [exact Hroomodes|split; [exact Hjson|]]].
  - destruct (structure_complete fs name) eqn:E; [done|].
    rewrite (run_on_incomplete_project fs name E) in Hrun. discriminate Hrun.
  - pose proof (proj1 (run_validations_verdict fs (init name) true Hrun) eq_refl)
      as Hzero.
    destruct (run_validations_behaves fs (init name)) as (lines & Hs & _).
    rewrite Hs in Hzero |- *. unfold advance in *. cbn [errors output init] in *.
    cbn [app]. lia.
Qed.

Lemma X10_witness :
  structure_complete valid_project "demo" = true
  /\ roomodes_passes valid_project = true
  /\ json_passes (libs:=sample_libraries) valid_project (init "demo")
       "workflow-state.json" "workflow_state_v2.schema.json" = true
  /\ failures (output (snd (run_validations (libs:=sample_libraries) valid_project
                              (init "demo")))) = 0.
Proof.
  apply (X10_exit_status_zero sample_libraries valid_project "demo").
  vm_compute. reflexivity.
Defined.

(** X11: the JSON stage never raises and counts at most one error: none
    exactly when [workflow-state.json] and [workflow_state_v2.schema.json]
    can both be read and parsed and the instance conforms to the schema;
    an unreadable or unparsable file, a violation and an invalid schema
    each count as one. *)
Theorem X11_json_stage :
  forall (libs : Libraries) (fs : filesystem) (self : ConfigValidator),
    exists self',
      _validate_json_files fs self = (Ok tt, self')
      /\ (errors self' = errors self \/ errors self' = errors self + 1)%Z
      /\ (errors self' = errors self
          <-> exists data_text schema_text instance schema,
                read_text fs (path_join (control_dir self) "workflow-state.json")
                = Ok data_text
                /\ read_text fs (path_join (schema_dir self)
                                   "workflow_state_v2.schema.json")
                   = Ok schema_text
                /\ json_load data_text = Some instance
                /\ json_load schema_text = Some schema
                /\ jsonschema_validate instance schema = Conforms).
Proof.
  intros libs fs self.
  destruct (json_files_exact fs self) as (self' & Hrun & Herr).
  exists self'. split; [exact Hrun|]. rewrite Herr. clear Hrun Herr.
  unfold json_passes.
  destruct (read_text fs (path_join (control_dir self) _)) as [data_text|e1].
  2:{ split; [right; lia|]. split; [lia|]. by intros (? & ? & ? & ? & [=] & _). }
  destruct (read_text fs (path_join (schema_dir self) _)) as [schema_text|e2].
  2:{ split; [right; lia|]. split; [lia|]. by intros (? & ? & ? & ? & _ & [=] & _). }
  destruct (json_load data_text) as [instance|] eqn:E1.
  2:{ split; [right; lia|]. split; [lia|].
      intros (? & ? & ? & ? & [= <-] & _ & H & _). congruence. }
  destruct (json_load schema_text) as [schema|] eqn:E2.
  2:{ split; [right; lia|]. split; [lia|].
      intros (? & ? & ? & ? & _ & [= <-] & _ & H & _). congruence. }
  destruct (jsonschema_validate instance schema) eqn:E3.
  - split; [left; lia|]. split; [|lia]. intros _.
    by exists data_text, schema_text, instance, schema.
  - split; [right; lia|]. split; [lia|].
    intros (? & ? & ? & ? & [= <-] & [= <-] & H1 & H2 & H3). congruence.
  - split; [right; lia|]. split; [lia|].
    intros (? & ? & ? & ? & [= <-] & [= <-] & H1 & H2 & H3). congruence.
Qed.

(** X12: when [sprint.yaml] can be read and parses to a mapping, its
    check returns and prints one status line; it fails exactly when one
    of [sprint_id], [goal], [status] is not a key of the mapping, counts
    one error however many are missing, and names the missing keys, and
    only them, in that order. *)
Theorem X12_sprint_keys :
  forall (libs : Libraries) (fs : filesystem) (self : ConfigValidator)
         (text : string) (d : list (string * pyval)),
    read_text fs (path_join (control_dir self) "sprint.yaml") = Ok text ->
    yaml_safe_load text = Some (PDict d) ->
    exists missing,
      validate_sprint_yaml fs self
      = (Ok tt,
         advance self
           (if bool_decide (missing = [])
            then [Status "Validating sprint.yaml structure" true]
            else [Status "Validating sprint.yaml structure" false;
                  Error (MissingRequiredKeys missing)]))
      /\ sublist missing ["sprint_id"; "goal"; "status"]
      /\ (forall key, key ∈ missing
                      <-> key ∈ ["sprint_id"; "goal"; "status"]
                          /\ dict_get key d = None)
      /\ (errors (snd (validate_sprint_yaml fs self))
          = errors self + if bool_decide (missing = []) then 0 else 1)%Z.
Proof.
  intros libs fs self text d Hread Hload.
  pose proof (sprint_yaml_exact fs self text d Hread Hload) as Hrun.
  cbv zeta in Hrun.
  set (missing := List.filter _ _) in Hrun.
  exists missing. split; [exact Hrun|]. split; [|split].
  - apply filter_sublist.
  - intros key. unfold missing.
    rewrite list_elem_of_In, filter_In, <- list_elem_of_In, negb_true_iff,
      bool_decide_eq_false, <- eq_None_not_Some. reflexivity.
  - rewrite Hrun. cbn [snd]. unfold advance. cbn [errors].
    by destruct (bool_decide (missing = [])).
Qed.

Lemma X12_witness :
  exists missing,
    validate_sprint_yaml (libs:=partial_sprint_libraries) partial_sprint_project
      (init "demo")
    = (Ok tt,
       advance (init "demo")
         (if bool_decide (missing = [])
          then [Status "Validating sprint.yaml structure" true]
          else [Status "Validating sprint.yaml structure" false;
                Error (MissingRequiredKeys missing)]))
    /\ (forall key, key ∈ missing
                    <-> key ∈ ["sprint_id"; "goal"; "status"]
                        /\ dict_get key [("sprint_id", PStr "S1")] = None).
Proof.
  destruct (X12_sprint_keys partial_sprint_libraries partial_sprint_project
              (init "demo") "{sprint_id: S1}" [("sprint_id", PStr "S1")])
    as (missing & Hrun & _ & Hkeys & _);
    [vm_compute; reflexivity|vm_compute; reflexivity|].
  exists missing. split; [exact Hrun|exact Hkeys].
Defined.

(** X13: when [.roomodes] and [capabilities.yaml] can be read and the
    latter parses to a mapping whose [agents] entry is a list of strings,
    the cross-reference stage returns and counts at most one error: none
    exactly when every listed agent is a declared mode, and then it
    prints its banner and the one success line. *)
Theorem X13_cross_reference_verdict :
  forall (libs : Libraries) (fs : filesystem) (self : ConfigValidator)
         (modes_text caps_text : string) (caps : list (string * pyval))
         (agents : list string),
    read_text fs ".roomodes" = Ok modes_text ->
    read_text fs (path_join (control_dir self) "capabilities.yaml") = Ok caps_text ->
    yaml_safe_load caps_text = Some (PDict caps) ->
    dict_get "agents" caps = Some (PList (map PStr agents)) ->
    exists self',
      _cross_reference_capabilities fs self = (Ok tt, self')
      /\ (errors self' = errors self \/ errors self' = errors self + 1)%Z
      /\ (errors self' = errors self
          <-> forall agent, agent ∈ agents -> agent ∈ defined_modes modes_text)
      /\ (errors self' = errors self ->
          output self'
          = output self
            ++ [Banner "5. Cross-Referencing Agent Capabilities";
                Status "All project agents are defined in .roomodes" true]).
Proof.
  intros libs fs self modes_text caps_text caps agents Hmodes Hcaps Hload Hagents.
  destruct (undefined_agents_none (defined_modes modes_text) agents) as [Hnone|Hsome].
  - destruct Hnone as [Hnil Hall].
    rewrite (cross_reference_passes fs self _ _ _ _ Hmodes Hcaps Hload Hagents Hnil).
    eexists. split; [reflexivity|]. unfold advance. cbn [errors output failures].
    cbn. split; [left; lia|]. split; [|done]. split; [done|lia].
  - destruct Hsome as [Hne Hnot].
    rewrite (cross_reference_reports fs self _ _ _ _ Hmodes Hcaps Hload Hagents Hne).
    eexists. split; [reflexivity|]. unfold advance. cbn [errors output failures].
    cbn. split; [right; lia|]. split; [|lia]. split; [lia|]. intros Hall.
    by destruct Hnot.
Qed.

Lemma X13_witness :
  exists self',
    _cross_reference_capabilities (libs:=sample_libraries) valid_project (init "demo")
    = (Ok tt, self')
    /\ (errors self' = errors (init "demo")
        <-> forall agent, agent ∈ ["architect"] -> agent ∈ defined_modes "architect").
Proof.
  destruct (X13_cross_reference_verdict sample_libraries valid_project (init "demo")
              "architect" "agents: [architect]"
              [("agents", PList [PStr "architect"])] ["architect"])
    as (self' & Hrun & _ & Hiff & _); try (vm_compute; reflexivity).
  exists self'. split; [exact Hrun|exact Hiff].
Defined.

(** X14: an agent of [capabilities.yaml] that is not a string (a number,
    a boolean, [null]) is never a declared mode, and reporting it fails:
    the stage has counted the violation and printed its failure when
    [', '.join] raises [TypeError], and the handler of the stage counts
    and prints once more.  One such agent adds two errors, and no line
    names the undefined agents. *)
Theorem X14_agent_that_is_no_string :
  forall (libs : Libraries) (fs : filesystem) (self : ConfigValidator)
         (modes_text caps_text : string) (caps : list (string * pyval))
         (items : list pyval) (keys : list hashable),
    read_text fs ".roomodes" = Ok modes_text ->
    read_text fs (path_join (control_dir self) "capabilities.yaml") = Ok caps_text ->
    yaml_safe_load caps_text = Some (PDict caps) ->
    dict_get "agents" caps = Some (PList items) ->
    mapM hash_key items = Ok keys ->
    (exists key, key ∈ keys /\ forall name : string, key <> HStr name) ->
    exists self',
      _cross_reference_capabilities fs self = (Ok tt, self')
      /\ errors self' = (errors self + 2)%Z
      /\ output self'
         = output self
           ++ [Banner "5. Cross-Referencing Agent Capabilities";
               Status "All project agents are defined in .roomodes" false;
               Status "Cross-referencing capabilities" false;
               Error (CrossReferenceFailed TypeError)].
Proof.
  intros libs fs self modes_text caps_text caps items keys
    Hmodes Hcaps Hload Hagents Hkeys Hodd.
  rewrite (cross_reference_counts_twice fs self _ _ _ _ _
             Hmodes Hcaps Hload Hagents Hkeys
             (undefined_no_string _ _ Hodd)).
  eexists. split; [reflexivity|]. by unfold advance.
Qed.

Lemma X14_witness :
  exists self',
    _cross_reference_capabilities (libs:=numbered_libraries) numbered_project
      (init "demo")
    = (Ok tt, self')
    /\ errors self' = (errors (init "demo") + 2)%Z.
Proof.
  destruct (X14_agent_that_is_no_string numbered_libraries numbered_project
              (init "demo") "architect" "agents: [architect, 7]"
              [("agents", PList [PStr "architect"; PInt 7])]
              [PStr "architect"; PInt 7] [HStr "architect"; HInt 7])
    as (self' & Hrun & Herr & _); try (vm_compute; reflexivity).
  - exists (HInt 7). split; [|discriminate].
    right; left.
  - exists self'. split; [exact Hrun|exact Herr].
Defined.

(** X20: a [capabilities.yaml] that can be read is judged by stage 3 and
    by stage 5, each on its own.  When it does not parse, each of the two
    stages counts one error and returns.  When it parses to a mapping,
    the check of stage 3 returns and counts an error exactly when the
    mapping holds no non-empty list under [agents]; a mapping without
    [agents] fails stage 3 and passes stage 5, where a missing entry
    stands for no agents. *)
Theorem X20_capabilities_in_two_stages :
  forall (libs : Libraries) (fs : filesystem) (self : ConfigValidator)
         (text modes_text : string),
    read_text fs (path_join (control_dir self) "capabilities.yaml") = Ok text ->
    read_text fs ".roomodes" = Ok modes_text ->
    (yaml_safe_load text = None ->
     exists s3 s5,
       validate_capabilities_yaml fs self = (Ok tt, s3)
       /\ errors s3 = (errors self + 1)%Z
       /\ _cross_reference_capabilities fs self = (Ok tt, s5)
       /\ errors s5 = (errors self + 1)%Z)
    /\ (forall d, yaml_safe_load text = Some (PDict d) ->
          exists s3,
            validate_capabilities_yaml fs self = (Ok tt, s3)
            /\ errors s3 = (errors self + if lists_agents d then 0 else 1)%Z
            /\ (dict_get "agents" d = None ->
                lists_agents d = false
                /\ exists s5,
                     _cross_reference_capabilities fs self = (Ok tt, s5)
                     /\ errors s5 = errors self)).
Proof.
  intros libs fs self text modes_text Hcaps Hmodes. split.
  - intros Hload.
    rewrite (capabilities_yaml_unparsable fs self text Hcaps Hload).
    rewrite (cross_reference_unparsable fs self _ _ Hmodes Hcaps Hload).
    eexists _, _. split; [reflexivity|]. split; [|split; [reflexivity|]];
      unfold advance; cbn; lia.
  - intros d Hload.
    rewrite (capabilities_yaml_exact fs self text d Hcaps Hload).
    eexists. split; [reflexivity|]. split.
    + unfold advance. cbn [errors]. by destruct (lists_agents d); cbn; lia.
    + intros Hnone. split; [unfold lists_agents; by rewrite Hnone|].
      rewrite (cross_reference_no_agents fs self _ _ _ Hmodes Hcaps Hload Hnone).
      eexists. split; [reflexivity|]. unfold advance. cbn. lia.
Qed.

Lemma X20_witness :
  exists s3,
    validate_capabilities_yaml (libs:=sample_libraries) valid_project (init "demo")
    = (Ok tt, s3)
    /\ errors s3
       = (errors (init "demo")
          + if lists_agents [("agents", PList [PStr "architect"])] then 0 else 1)%Z.
Proof.
  destruct (X20_capabilities_in_two_stages sample_libraries valid_project
              (init "demo") "agents: [architect]" "architect")
    as [_ Hmapping]; try (vm_compute; reflexivity).
  destruct (Hmapping [("agents", PList [PStr "architect"])]) as (s3 & Hrun & Herr & _);
    [vm_compute; reflexivity|].
  exists s3. split; [exact Hrun|exact Herr].
Defined.

End MoreOfTheValidator.

(** ** The reporter *)

Module ReporterMore.
Import Py FS Spec Vocabulary Reporter.


Lemma handle_outcome printed e :
  snd (handle printed e) = Raise (SystemExit 1) /\ is_Exception e = true
  \/ snd (handle printed e) = Raise e /\ is_Exception e = false.
Proof. unfold handle, on_error. destruct e; cbn; auto. Qed.

Lemma handle_printed printed e :
  is_Exception e = true ->
  fst (handle printed e)
  = printed ++ [if is_FileNotFoundError e then RequiredFileNotFound e
                else UnexpectedError e].
Proof. unfold handle, on_error. by destruct e. Qed.

Lemma load_data_catchable `{libs : Libraries} fs self e :
  _load_data fs self = Raise e -> is_Exception e = true.
Proof.
  intros [(path & [->|[->|[->| ->]]])|[->|[->| ->]]]%load_data_errors; reflexivity.
Qed.

(** The log of the sample project: the heading and the blank line are
    dropped, the separator is kept by [_load_data] and left out of the
    section. *)
Example reported_decisions :
  (data ← _load_data (libs:=sample_libraries) reported_project (init "demo");
   Ok (decisions data))
  = Ok ["chose sqlite"; "---"]
  /\ decisions_section ["chose sqlite"; "---"] = ["  - chose sqlite"]
  /\ decisions_section ["---"] = [].
Proof. vm_compute. done. Qed.

End ReporterMore.

Section MoreOfTheReporter.
Import Py FS Spec Vocabulary Reporter ReporterMore.

(** X16: whatever the files hold and whatever [_print_report] does,
    [generate_report] first prints the loading banner and lets no
    [Exception] escape.  It returns exactly when the data is loaded and
    [_print_report] returns; when loading fails it prints one message
    more, the one for a missing file on [FileNotFoundError] and the one
    for an unexpected error otherwise, and raises [SystemExit(1)]; the
    same happens when [_print_report] raises an [Exception]. *)
Theorem X16_generate_report_outcome :
  forall (libs : Libraries) (fs : filesystem)
         (print_report : ReportGenerator -> ReportData -> list string * result unit)
         (self : ReportGenerator),
    let run := generate_report fs print_report self in
    (exists rest, fst run = LoadingData (project_name self) :: rest)
    /\ (forall e, snd run = Raise e -> is_Exception e = false)
    /\ (snd run = Ok tt
        <-> exists data, _load_data fs self = Ok data
                         /\ snd (print_report self data) = Ok tt)
    /\ (forall e, _load_data fs self = Raise e ->
          snd run = Raise (SystemExit 1)
          /\ fst run
             = [LoadingData (project_name self);
                if is_FileNotFoundError e then RequiredFileNotFound e
                else UnexpectedError e])
    /\ (forall data e,
          _load_data fs self = Ok data ->
          snd (print_report self data) = Raise e ->
          is_Exception e = true ->
          snd run = Raise (SystemExit 1)).
Proof.
  intros libs fs print_report self run. subst run. unfold generate_report.
  destruct (_load_data fs self) as [data|e0] eqn:Hload.
  - destruct (print_report self data) as [lines [[]|e1]] eqn:Hprint; cbn [fst snd].
    + split; [by eexists|]. split; [done|]. split; [|split; [done|]].
      * split; [|done]. intros _. exists data. by rewrite Hprint.
      * intros data' e [= <-]. by rewrite Hprint.
    + split.
      { unfold handle. destruct (on_error e1) as [[more r]|]; by eexists. }
      split.
      { intros e He. destruct (handle_outcome
                                 ([LoadingData (project_name self)]
                                  ++ map ReportLine lines) e1) as [[H _]|[H Hno]];
          rewrite H in He; by injection He as <-. }
      split; [|split; [done|]].
      * split.
        -- intros He. destruct (handle_outcome
                                  ([LoadingData (project_name self)]
                                   ++ map ReportLine lines) e1) as [[H _]|[H _]];
             by rewrite H in He.
        -- intros (data' & [= <-] & Hok). by rewrite Hprint in Hok.
      * intros data' e [= <-]. rewrite Hprint. cbn [snd]. intros [= <-] He.
        destruct (handle_outcome
                    ([LoadingData (project_name self)]
                     ++ map ReportLine lines) e1) as [[H _]|[_ H]]; [done|].
        by rewrite H in He.
  - pose proof (load_data_catchable fs self e0 Hload) as He0.
    split.
    { rewrite (handle_printed _ _ He0). by eexists. }
    destruct (handle_outcome [LoadingData (project_name self)] e0) as [[H _]|[_ H]];
      [|by rewrite H in He0].
    split; [intros e; rewrite H; by intros [= <-]|].
    split; [split; [by rewrite H|by intros (data & [=] & _)]|].
    split; [|done].
    intros e [= <-]. split; [exact H|]. by rewrite (handle_printed _ _ He0).
Qed.

(** X17: when [_print_report] raises nothing but [Exception]s, the
    reporter ends with status 0 or 1, and with status 0 exactly when the
    project name is accepted, the data of that project is loaded and
    [_print_report] returns. *)
Theorem X17_reporter_exit_status :
  forall (libs : Libraries) (fs : filesystem)
         (print_report : ReportGenerator -> ReportData -> list string * result unit)
         (resolve : string -> option string) (name : string),
    (forall self data e,
        snd (print_report self data) = Raise e -> is_Exception e = true) ->
    (main fs print_report resolve name = 0%Z
     \/ main fs print_report resolve name = 1%Z)
    /\ (main fs print_report resolve name = 0%Z
        <-> exists project data,
              resolve name = Some project
              /\ _load_data fs (init project) = Ok data
              /\ snd (print_report (init project) data) = Ok tt).
Proof.
  intros libs fs print_report resolve name Hprint. unfold main.
  destruct (resolve name) as [project|].
  2:{ split; [by right|]. split; [done|]. by intros (? & ? & [=] & _). }
  unfold generate_report.
  destruct (_load_data fs (init project)) as [data|e0] eqn:Hload.
  - destruct (print_report (init project) data) as [lines [[]|e1]] eqn:Hrun;
      cbn [fst snd exit_status].
    + split; [by left|]. split; [|done]. intros _. exists project, data.
      by rewrite Hrun.
    + assert (is_Exception e1 = true) as He1
        by (apply (Hprint (init project) data); by rewrite Hrun).
      destruct (handle_outcome
                  ([LoadingData (project_name (init project))]
                   ++ map ReportLine lines) e1) as [[H _]|[_ H]];
        [|by rewrite H in He1].
      rewrite H. cbn [exit_status]. split; [by right|]. split; [done|].
      intros (project' & data' & [= <-] & Hload' & Hok).
      rewrite Hload in Hload'. injection Hload' as <-. by rewrite Hrun in Hok.
  - pose proof (load_data_catchable fs _ e0 Hload) as He0.
    destruct (handle_outcome [LoadingData (project_name (init project))] e0)
      as [[H _]|[_ H]]; [|by rewrite H in He0].
    rewrite H. cbn [exit_status]. split; [by right|]. split; [done|].
    intros (project' & data' & [= <-] & Hload' & _). by rewrite Hload in Hload'.
Qed.

Lemma X17_witness :
  main (libs:=sample_libraries) reported_project silent_report Some "demo" = 0%Z.
Proof.
  destruct (X17_reporter_exit_status sample_libraries reported_project silent_report
              Some "demo") as [_ [_ Hzero]].
  - intros self data e. discriminate.
  - apply Hzero. exists "demo". eexists.
    split; [reflexivity|]. split; [vm_compute; reflexivity|reflexivity].
Defined.


End MoreOfTheReporter.
